(** * Books ETL pipeline: transformation rules and warehouse build

    A shallow embedding of [main.py]: the field normalisers of
    [extract_book_data], [transform_data] with its nested
    [convert_to_pounds], [load_to_postgres] and [build_data_warehouse],
    followed by the properties of the pipeline.

    Conventions of the model.
    - A Python [str] is a list of Unicode code points.
    - A Python [float] is an IEEE 754 binary64 value, taken from the
      Standard Library's executable specification [spec_float]; a null of a
      float64 column is the NaN, as in pandas.
    - Exceptions and log records are explicit: a computation of type [Py A]
      either returns a value or raises, and carries the records it logged.
    - [float()], [int()] and the digit class of [re] belong to the
      interpreter, not to the repository: they are the fields of the class
      [Builtins]. *)

From Stdlib Require Import ZArith NArith List Bool Lia String Ascii.
From Stdlib Require Import SpecFloat.
Import ListNotations.

Local Open Scope Z_scope.

(* ================================================================== *)
(** * Python strings *)
(* ================================================================== *)

Module PyStr.

Definition char := N.
Definition str := list char.

(** An ASCII literal as a [str]. *)
Definition lit (s : string) : str :=
  List.map N_of_ascii (list_ascii_of_string s).

Definition str_eqb (a b : str) : bool :=
  if list_eq_dec N.eq_dec a b then true else false.

Definition opt_str_eqb (a b : option str) : bool :=
  match a, b with
  | None, None => true
  | Some x, Some y => str_eqb x y
  | _, _ => false
  end.

(** [s.startswith(p)]. *)
Fixpoint startswith (s p : str) {struct p} : bool :=
  match p, s with
  | [], _ => true
  | _ :: _, [] => false
  | a :: p', b :: s' => N.eqb a b && startswith s' p'
  end.

(** [sub in s]. *)
Fixpoint contains (sub s : str) : bool :=
  startswith s sub ||
  match s with
  | [] => false
  | _ :: s' => contains sub s'
  end.

(** [s.replace(old, new)] for a non-empty [old]: the occurrences are
    replaced from the left and do not overlap; [skip] counts the
    characters of a matched occurrence still to be dropped. *)
Fixpoint replace_from (old new : str) (skip : nat) (s : str) : str :=
  match s with
  | [] => []
  | c :: s' =>
      match skip with
      | S k => replace_from old new k s'
      | O =>
          if startswith s old
          then new ++ replace_from old new (Nat.pred (List.length old)) s'
          else c :: replace_from old new O s'
      end
  end.

(** With an empty [old], Python puts [new] before every character and at
    the end. *)
Definition replace (s old new : str) : str :=
  match old with
  | [] => List.flat_map (fun c => new ++ [c]) s ++ new
  | _ :: _ => replace_from old new O s
  end.

(** The code points [str.strip()] removes ([str.isspace]). *)
Definition isspace (c : char) : bool :=
  let c := Z.of_N c in
  ((9 <=? c) && (c <=? 13)) || ((28 <=? c) && (c <=? 32))
  || (c =? 133) || (c =? 160) || (c =? 5760)
  || ((8192 <=? c) && (c <=? 8202))
  || (c =? 8232) || (c =? 8233) || (c =? 8239) || (c =? 8287)
  || (c =? 12288).

Fixpoint lstrip (s : str) : str :=
  match s with
  | [] => []
  | c :: s' => if isspace c then lstrip s' else s
  end.

Definition strip (s : str) : str := List.rev (lstrip (List.rev (lstrip s))).

(** Truth value of a string: the empty string is false. *)
Definition truthy (s : str) : bool :=
  match s with [] => false | _ :: _ => true end.

(** The three non-letter characters of the price rules. *)
Definition A_circumflex : str := [194%N].   (* U+00C2 *)
Definition pound_sign : str := [163%N].     (* U+00A3 *)
Definition dollar_sign : str := [36%N].     (* U+0024 *)

End PyStr.
Import PyStr.

(* ================================================================== *)
(** * Python floats: IEEE 754 binary64 *)
(* ================================================================== *)

Module F64.

Definition prec : Z := 53.
Definition emax : Z := 1024.

Definition float := spec_float.

Definition add : float -> float -> float := SFadd prec emax.
Definition sub : float -> float -> float := SFsub prec emax.
Definition mul : float -> float -> float := SFmul prec emax.
Definition div : float -> float -> float := SFdiv prec emax.
Definition abs : float -> float := SFabs.
Definition ltb : float -> float -> bool := SFltb.
Definition leb : float -> float -> bool := SFleb.

Definition nan : float := S754_nan.
Definition zero : float := S754_zero false.

(** [pd.isna] on a float. *)
Definition isna (x : float) : bool :=
  match x with S754_nan => true | _ => false end.

(** Neither NaN nor an infinity. *)
Definition is_finite (x : float) : bool :=
  match x with S754_zero _ | S754_finite _ _ _ => true | _ => false end.

(** The float of an integer, rounded to nearest even. *)
Definition of_Z (z : Z) : float := binary_normalize prec emax z 0 false.

(** The literals of the source. *)
Definition lit_0_01 : float := S754_finite false 5764607523034235 (-59).
Definition lit_0_75 : float := S754_finite false 6755399441055744 (-53).

(** [n / d] rounded half to even, for [0 <= n] and [0 < d]. *)
Definition div_half_even (n d : Z) : Z :=
  let q := n / d in
  match Z.compare (2 * (n mod d)) d with
  | Lt => q
  | Gt => q + 1
  | Eq => if Z.even q then q else q + 1
  end.

(** [round(x, 2)]: the exact binary value is rounded half to even to a
    whole number of hundredths, and that decimal is converted back to the
    nearest float; NaN, the infinities and the zeros are returned as they
    are. *)
Definition round2 (x : float) : float :=
  match x with
  | S754_finite s m e =>
      let hundredths :=
        if 0 <=? e then Zpos m * 2 ^ e * 100
        else div_half_even (Zpos m * 100) (2 ^ (- e)) in
      match hundredths with
      | Zpos h => div (S754_finite s h 0) (S754_finite false 100 0)
      | _ => S754_zero s
      end
  | _ => x
  end.

(** [x.fillna(v)] on one cell. *)
Definition fillna (x v : float) : float := if isna x then v else x.

Definition neg_zero : float := S754_zero true.

(** [r[k] += a[k]] on the accumulators of a block. *)
Fixpoint add_lanes (r a : list float) : list float :=
  match r, a with
  | x :: r', y :: a' => add x y :: add_lanes r' a'
  | _, _ => r
  end.

(** The unrolled loop of numpy's [pairwise_sum]: [blocks] times the next
    eight values are added to the eight accumulators [r]; the values not
    yet added are returned with the accumulators. *)
Fixpoint accumulate (blocks : nat) (r a : list float) : list float * list float :=
  match blocks with
  | O => (r, a)
  | S b => accumulate b (add_lanes r (List.firstn 8 a)) (List.skipn 8 a)
  end.

(** [((r[0] + r[1]) + (r[2] + r[3])) + ((r[4] + r[5]) + (r[6] + r[7]))]. *)
Definition combine_lanes (r : list float) : float :=
  match r with
  | [r0; r1; r2; r3; r4; r5; r6; r7] =>
      add (add (add r0 r1) (add r2 r3)) (add (add r4 r5) (add r6 r7))
  | _ => nan
  end.

(** A block of 8 to 128 values: the first eight start the accumulators,
    every further full run of eight is added to them, the accumulators
    are combined and the values left over (fewer than eight) are added
    one by one. *)
Definition block_sum (a : list float) : float :=
  let (r, rest) :=
    accumulate (Nat.div (List.length a) 8 - 1) (List.firstn 8 a) (List.skipn 8 a) in
  List.fold_left add rest (combine_lanes r).

(** numpy's [pairwise_sum], the inner loop of [ndarray.sum()] on a
    contiguous float64 array: fewer than eight values are added from the
    left, starting from -0.0; up to 128 values are one block; a longer
    array is split near its middle, at a multiple of eight, and the sums
    of the two parts are added. The recursion is on [fuel]; a part is
    shorter than the whole, so the length of the array is fuel enough. *)
Fixpoint pairwise_sum (fuel : nat) (a : list float) : float :=
  let n := List.length a in
  if Nat.ltb n 8 then List.fold_left add a neg_zero
  else if Nat.leb n 128 then block_sum a
  else
    match fuel with
    | O => nan
    | S fuel' =>
        let n2 := (Nat.div n 2 - Nat.modulo (Nat.div n 2) 8)%nat in
        add (pairwise_sum fuel' (List.firstn n2 a))
            (pairwise_sum fuel' (List.skipn n2 a))
    end.

Definition np_sum (a : list float) : float := pairwise_sum (List.length a) a.

(** [Series.mean()], pandas' [nanmean] without the optional bottleneck
    library: the nulls are replaced by 0.0, the column is summed by numpy
    and the sum is divided by the number of non-null values; no such value
    gives NaN. Where a null is present the 0.0 put in its place makes the
    value the reduction starts from immaterial. *)
Definition nanmean (xs : list float) : float :=
  let count := List.length (List.filter (fun x => negb (isna x)) xs) in
  match count with
  | O => nan
  | S _ =>
      div (np_sum (List.map (fun x => fillna x zero) xs))
          (of_Z (Z.of_nat count))
  end.

End F64.

(* ================================================================== *)
(** * Exceptions and logging *)
(* ================================================================== *)

Inductive exn : Set := ValueError | KeyError | StoreError.

Inductive outcome (A : Type) : Type :=
| Returns (a : A)
| Raises (e : exn).
Arguments Returns {A} a.
Arguments Raises {A} e.

Inductive Level : Set := INFO | WARNING | ERROR.

Inductive log_arg : Type :=
| AStr (s : option str)
| AInt (n : Z)
| AExn (e : exn).

(** One call of [logger.info], [logger.warning] or [logger.error]: the
    level, the format string and its arguments. *)
Record LogRecord : Type := mkLog {
  levelname : Level;
  msg : string;
  args : list log_arg
}.

(** A computation returns or raises, and has logged some records. *)
Definition Py (A : Type) : Type := (outcome A * list LogRecord)%type.

Definition ret {A} (a : A) : Py A := (Returns a, []).

Definition raise {A} (e : exn) : Py A := (Raises e, []).

Definition bind {A B} (m : Py A) (k : A -> Py B) : Py B :=
  match m with
  | (Returns a, l) => let (r, l') := k a in (r, l ++ l')
  | (Raises e, l) => (Raises e, l)
  end.

(** [try: m  except Exception as e: h e]. *)
Definition try_except {A} (m : Py A) (h : exn -> Py A) : Py A :=
  match m with
  | (Returns a, l) => (Returns a, l)
  | (Raises e, l) => let (r, l') := h e in (r, l ++ l')
  end.

Definition logger_error (fmt : string) (a : list log_arg) : Py unit :=
  (Returns tt, [mkLog ERROR fmt a]).

Definition logger_warning (fmt : string) (a : list log_arg) : Py unit :=
  (Returns tt, [mkLog WARNING fmt a]).

Declare Scope py_scope.
Delimit Scope py_scope with py.
Notation "x <- m ;; k" := (bind m (fun x => k))
  (at level 61, m at next level, right associativity) : py_scope.
Notation "m ;; k" := (bind m (fun _ => k))
  (at level 61, right associativity) : py_scope.

Fixpoint mapM {A B} (f : A -> Py B) (l : list A) : Py (list B) :=
  match l with
  | [] => ret []
  | a :: l' => (b <- f a ;; bs <- mapM f l' ;; ret (b :: bs))%py
  end.

(** The value a computation returns, if it returns. *)
Definition result {A} (m : Py A) : option A :=
  match fst m with Returns a => Some a | Raises _ => None end.

Definition logged {A} (m : Py A) : list LogRecord := snd m.

(** The interpreter's part. *)
Class Builtins : Type := {
  (** [float(s)]; [None] when it raises [ValueError]. *)
  py_float : str -> option F64.float;
  (** [int(s)]; [None] when it raises [ValueError]. *)
  py_int : str -> option Z;
  (** The characters the pattern [\d] matches. *)
  isdecimal : char -> bool
}.

Definition float_ `{Builtins} (s : str) : Py F64.float :=
  match py_float s with Some v => ret v | None => raise ValueError end.

Definition int_ `{Builtins} (s : str) : Py Z :=
  match py_int s with Some v => ret v | None => raise ValueError end.

(* ================================================================== *)
(** * Field normalisers of [extract_book_data] *)
(* ================================================================== *)

Section Normalisers.
Context `{Builtins}.
Local Open Scope py_scope.

Fixpoint take_digits (s : str) : str :=
  match s with
  | [] => []
  | c :: s' => if isdecimal c then c :: take_digits s' else []
  end.

(** [re.search(r'(\d+)', s)]: group 1 of the leftmost match, which is
    the longest run of digits starting there. *)
Fixpoint re_search_digits (s : str) : option str :=
  match s with
  | [] => None
  | c :: s' => if isdecimal c then Some (take_digits s) else re_search_digits s'
  end.

(** The quantity of the availability text; [int] is called outside any
    [try]. *)
Definition extract_quantity (availability_detail : option str) : Py (option Z) :=
  match availability_detail with
  | None => ret None
  | Some d =>
      if truthy d then
        match re_search_digits d with
        | Some g => n <- int_ g ;; ret (Some n)
        | None => ret None
        end
      else ret None
  end.

(** The number of reviews: [int] under [try], 0 on any exception and for
    an absent field. *)
Definition extract_reviews (title no_of_reviews : option str) : Py Z :=
  try_except
    (match no_of_reviews with
     | Some s => int_ s
     | None => ret 0
     end)
    (fun e =>
       logger_error "Error converting number of reviews for book '%s': %s"
         [AStr title; AExn e] ;;
       ret 0).

(* ================================================================ *)
(** * [convert_to_pounds] *)
(* ================================================================ *)

(** A price string as a number of pounds; [None] is Python's [None]. *)
Definition convert_to_pounds (price_str : option str) : Py (option F64.float) :=
  match price_str with
  | None => ret None
  | Some raw =>
      if negb (truthy raw) then ret None
      else
        let price_str := strip (replace raw A_circumflex []) in
        if startswith price_str pound_sign then
          try_except
            (v <- float_ (replace price_str pound_sign []) ;; ret (Some v))
            (fun e =>
               logger_error "Error converting price %s: %s"
                 [AStr (Some price_str); AExn e] ;;
               ret None)
        else if startswith price_str dollar_sign then
          try_except
            (value <- float_ (replace price_str dollar_sign []) ;;
             let conversion_rate := F64.lit_0_75 in
             ret (Some (F64.round2 (F64.mul value conversion_rate))))
            (fun e =>
               logger_error "Error converting price %s: %s"
                 [AStr (Some price_str); AExn e] ;;
               ret None)
        else
          logger_error "Unknown currency in price: %s" [AStr (Some price_str)] ;;
          ret None
  end.

End Normalisers.

(* ================================================================== *)
(** * A reference interpreter for plain literals *)
(* ================================================================== *)

Module Reference.

Definition digit_value (c : char) : option Z :=
  let z := Z.of_N c in
  if (48 <=? z) && (z <=? 57) then Some (z - 48) else None.

(** Reads the leading ASCII digits of [s]: their value on top of [acc],
    their number, and the rest of the string. *)
Fixpoint read_digits (acc : Z) (n : nat) (s : str) : Z * nat * str :=
  match s with
  | [] => (acc, n, [])
  | c :: s' =>
      match digit_value c with
      | Some d => read_digits (10 * acc + d) (S n) s'
      | None => (acc, n, s)
      end
  end.

Definition read_sign (s : str) : bool * str :=
  match s with
  | 45%N :: s' => (true, s')
  | 43%N :: s' => (false, s')
  | _ => (false, s)
  end.

(** [mant / 10^frac] with the given sign, correctly rounded. *)
Definition decimal_to_float (neg : bool) (mant : Z) (frac : nat) : F64.float :=
  match mant with
  | Zpos m =>
      F64.div (S754_finite neg m 0)
              (S754_finite false (Z.to_pos (10 ^ Z.of_nat frac)) 0)
  | _ => S754_zero neg
  end.

(** [float(s)] for [s] a signed decimal literal with an optional fraction,
    [inf] or [nan], surrounded by optional white space; every other
    string is refused. *)
Definition float_of_str (s : str) : option F64.float :=
  let (neg, body) := read_sign (strip s) in
  if str_eqb body (lit "inf") then Some (S754_infinity neg)
  else if str_eqb body (lit "nan") then Some S754_nan
  else
    let '(ip, ni, rest) := read_digits 0 O body in
    match rest with
    | [] => if Nat.ltb O ni then Some (decimal_to_float neg ip O) else None
    | 46%N :: fr =>
        let '(m, nf, rest') := read_digits ip O fr in
        match rest' with
        | [] => if Nat.ltb O (ni + nf) then Some (decimal_to_float neg m nf)
                else None
        | _ :: _ => None
        end
    | _ :: _ => None
    end.

(** The longest run of digits [int] converts: CPython's default
    [sys.int_info.default_max_str_digits]. *)
Definition max_str_digits : Z := 4300.

(** [int(s)] for [s] a signed run of ASCII digits surrounded by optional
    white space. A run of more than [max_str_digits] digits is refused
    with [ValueError], like every other string. *)
Definition int_of_str (s : str) : option Z :=
  let (neg, body) := read_sign (strip s) in
  let '(v, n, rest) := read_digits 0 O body in
  match rest with
  | [] =>
      if Nat.ltb O n && (Z.of_nat n <=? max_str_digits)
      then Some (if neg then - v else v)
      else None
  | _ :: _ => None
  end.

Definition ascii_digit (c : char) : bool :=
  match digit_value c with Some _ => true | None => false end.

#[export] Instance builtins : Builtins := {
  py_float := float_of_str;
  py_int := int_of_str;
  isdecimal := ascii_digit
}.

End Reference.

(* ================================================================== *)
(** * Records of the data frame *)
(* ================================================================== *)

(** One row of the frame. The columns whose type changes along
    [transform_data] are parameters: the four prices ([P]), the rating
    ([R]), the availability ([A]) and the quantity ([Q]). A column of
    strings is nullable all along. *)
Record Row (P R A Q : Type) : Type := mkRow {
  title : option str;
  price : P;
  rating : R;
  availability : A;
  category : option str;
  book_url : option str;
  book_thumbnail_url : option str;
  product_description : option str;
  upc : option str;
  product_type : option str;
  price_excl_tax : P;
  price_incl_tax : P;
  tax : P;
  available_quantity : Q;
  no_of_reviews : Z
}.
Arguments mkRow {P R A Q}.
Arguments title {P R A Q} _.
Arguments price {P R A Q} _.
Arguments rating {P R A Q} _.
Arguments availability {P R A Q} _.
Arguments category {P R A Q} _.
Arguments book_url {P R A Q} _.
Arguments book_thumbnail_url {P R A Q} _.
Arguments product_description {P R A Q} _.
Arguments upc {P R A Q} _.
Arguments product_type {P R A Q} _.
Arguments price_excl_tax {P R A Q} _.
Arguments price_incl_tax {P R A Q} _.
Arguments tax {P R A Q} _.
Arguments available_quantity {P R A Q} _.
Arguments no_of_reviews {P R A Q} _.

(** The dictionary [book_info] built by [extract_book_data]. *)
Definition RawBook : Type := Row (option str) (option str) (option str) (option Z).

(** A row of the frame [transform_data] returns. *)
Definition Book : Type := Row F64.float Z bool Z.

Inductive price_field : Set :=
| f_price | f_price_excl_tax | f_price_incl_tax | f_tax.

Definition price_field_eqb (f g : price_field) : bool :=
  match f, g with
  | f_price, f_price | f_price_excl_tax, f_price_excl_tax
  | f_price_incl_tax, f_price_incl_tax | f_tax, f_tax => true
  | _, _ => false
  end.

(** The list [price_fields] of the source, in its order. *)
Definition price_fields : list price_field :=
  [f_price; f_price_excl_tax; f_price_incl_tax; f_tax].

Section Columns.
Context {P R A Q : Type}.

Definition get_field (f : price_field) (r : Row P R A Q) : P :=
  match f with
  | f_price => price r
  | f_price_excl_tax => price_excl_tax r
  | f_price_incl_tax => price_incl_tax r
  | f_tax => tax r
  end.

Definition set_prices {P'} (r : Row P R A Q) (p pe pi t : P') : Row P' R A Q :=
  mkRow (title r) p (rating r) (availability r) (category r) (book_url r)
        (book_thumbnail_url r) (product_description r) (upc r)
        (product_type r) pe pi t (available_quantity r) (no_of_reviews r).

Definition set_field (f : price_field) (r : Row P R A Q) (v : P) : Row P R A Q :=
  match f with
  | f_price => set_prices r v (price_excl_tax r) (price_incl_tax r) (tax r)
  | f_price_excl_tax => set_prices r (price r) v (price_incl_tax r) (tax r)
  | f_price_incl_tax => set_prices r (price r) (price_excl_tax r) v (tax r)
  | f_tax => set_prices r (price r) (price_excl_tax r) (price_incl_tax r) v
  end.

Definition set_rating {R'} (r : Row P R A Q) (v : R') : Row P R' A Q :=
  mkRow (title r) (price r) v (availability r) (category r) (book_url r)
        (book_thumbnail_url r) (product_description r) (upc r)
        (product_type r) (price_excl_tax r) (price_incl_tax r) (tax r)
        (available_quantity r) (no_of_reviews r).

Definition set_availability {A'} (r : Row P R A Q) (v : A') : Row P R A' Q :=
  mkRow (title r) (price r) (rating r) v (category r) (book_url r)
        (book_thumbnail_url r) (product_description r) (upc r)
        (product_type r) (price_excl_tax r) (price_incl_tax r) (tax r)
        (available_quantity r) (no_of_reviews r).

Definition set_category (r : Row P R A Q) (v : option str) : Row P R A Q :=
  mkRow (title r) (price r) (rating r) (availability r) v (book_url r)
        (book_thumbnail_url r) (product_description r) (upc r)
        (product_type r) (price_excl_tax r) (price_incl_tax r) (tax r)
        (available_quantity r) (no_of_reviews r).

Definition set_product_type (r : Row P R A Q) (v : option str) : Row P R A Q :=
  mkRow (title r) (price r) (rating r) (availability r) (category r)
        (book_url r) (book_thumbnail_url r) (product_description r) (upc r)
        v (price_excl_tax r) (price_incl_tax r) (tax r)
        (available_quantity r) (no_of_reviews r).

Definition set_available_quantity {Q'} (r : Row P R A Q) (v : Q') : Row P R A Q' :=
  mkRow (title r) (price r) (rating r) (availability r) (category r)
        (book_url r) (book_thumbnail_url r) (product_description r) (upc r)
        (product_type r) (price_excl_tax r) (price_incl_tax r) (tax r)
        v (no_of_reviews r).

End Columns.

Definition opt_Z_eqb (a b : option Z) : bool :=
  match a, b with
  | None, None => true
  | Some x, Some y => Z.eqb x y
  | _, _ => false
  end.

(** The integers a frame holds as they are. pandas keeps
    [available_quantity] in a float64 column as soon as one record has
    none, and casts the column to int64 at the end of [transform_data];
    [no_of_reviews] is an int64 column. A quantity of absolute value at
    most 2^53 = 9007199254740992 and a number of reviews from -2^63 to
    2^63 - 1 are held exactly. [raw_eqb] and [to_quantity] compare and
    return the integers themselves: they are the code's on the frames that
    pass [exact_numbers], and the properties of the quantities are stated
    for these frames. *)
Definition exact_row (r : RawBook) : bool :=
  match available_quantity r with
  | Some n => Z.abs n <=? 9007199254740992
  | None => true
  end
  && (- 9223372036854775808 <=? no_of_reviews r)
  && (no_of_reviews r <? 9223372036854775808).

Definition exact_numbers (df : list RawBook) : bool :=
  List.forallb exact_row df.

(** Equality of two raw rows on every column, on a frame that passes
    [exact_numbers]. *)
Definition raw_eqb (a b : RawBook) : bool :=
  opt_str_eqb (title a) (title b)
  && opt_str_eqb (price a) (price b)
  && opt_str_eqb (rating a) (rating b)
  && opt_str_eqb (availability a) (availability b)
  && opt_str_eqb (category a) (category b)
  && opt_str_eqb (book_url a) (book_url b)
  && opt_str_eqb (book_thumbnail_url a) (book_thumbnail_url b)
  && opt_str_eqb (product_description a) (product_description b)
  && opt_str_eqb (upc a) (upc b)
  && opt_str_eqb (product_type a) (product_type b)
  && opt_str_eqb (price_excl_tax a) (price_excl_tax b)
  && opt_str_eqb (price_incl_tax a) (price_incl_tax b)
  && opt_str_eqb (tax a) (tax b)
  && opt_Z_eqb (available_quantity a) (available_quantity b)
  && Z.eqb (no_of_reviews a) (no_of_reviews b).

(** [df.drop_duplicates()]: of equal rows the first is kept. *)
Fixpoint drop_duplicates_from (seen : list RawBook) (df : list RawBook) : list RawBook :=
  match df with
  | [] => []
  | r :: df' =>
      if List.existsb (raw_eqb r) seen then drop_duplicates_from seen df'
      else r :: drop_duplicates_from (r :: seen) df'
  end.

Definition drop_duplicates (df : list RawBook) : list RawBook :=
  drop_duplicates_from [] df.

(* ================================================================== *)
(** * [transform_data] *)
(* ================================================================== *)

(** A [None] stored in a float64 column is the NaN. *)
Definition cell (v : option F64.float) : F64.float :=
  match v with Some x => x | None => F64.nan end.

Definition isnull {A} (v : option A) : bool :=
  match v with Some _ => false | None => true end.

(** [df.dropna(subset=["title"])]. *)
Definition dropna_title {P R A Q} (df : list (Row P R A Q)) : list (Row P R A Q) :=
  List.filter (fun r => negb (isnull (title r))) df.

(** The rows of the group of category [c]. *)
Definition group {P R A Q} (df : list (Row P R A Q)) (c : str) : list (Row P R A Q) :=
  List.filter (fun r => opt_str_eqb (category r) (Some c)) df.

(** One cell of [df.groupby('category')[field].transform(lambda x:
    x.fillna(x.mean()))]: a row without category belongs to no group and
    gets a null. *)
Definition fillna_group_mean {R A Q} (f : price_field)
    (df : list (Row F64.float R A Q)) (r : Row F64.float R A Q) : F64.float :=
  match category r with
  | Some c => F64.fillna (get_field f r) (F64.nanmean (List.map (get_field f) (group df c)))
  | None => F64.nan
  end.

(** [df[field] = df.groupby('category')[field].transform(...)]. *)
Definition impute {R A Q} (f : price_field)
    (df : list (Row F64.float R A Q)) : list (Row F64.float R A Q) :=
  List.map (fun r => set_field f r (fillna_group_mean f df r)) df.

(** The four imputations of lines 179 to 181, one price field after the
    other. *)
Definition impute_all {R A Q} (df : list (Row F64.float R A Q))
  : list (Row F64.float R A Q) :=
  List.fold_left (fun d f => impute f d) price_fields df.

(** The row the four imputations make of a row of [df]. *)
Definition imputed_row {R A Q} (df : list (Row F64.float R A Q))
    (r : Row F64.float R A Q) : Row F64.float R A Q :=
  set_prices r (fillna_group_mean f_price df r)
             (fillna_group_mean f_price_excl_tax df r)
             (fillna_group_mean f_price_incl_tax df r)
             (fillna_group_mean f_tax df r).

Definition rating_map (label : str) : option Z :=
  if str_eqb label (lit "One") then Some 1
  else if str_eqb label (lit "Two") then Some 2
  else if str_eqb label (lit "Three") then Some 3
  else if str_eqb label (lit "Four") then Some 4
  else if str_eqb label (lit "Five") then Some 5
  else None.

(** [.map(rating_map).fillna(0).astype(int)] on one cell. *)
Definition map_rating (label : option str) : Z :=
  match label with
  | Some l => match rating_map l with Some n => n | None => 0 end
  | None => 0
  end.

(** [lambda x: True if x and "In stock" in x else False]. *)
Definition in_stock (x : option str) : bool :=
  match x with
  | Some s => if truthy s && contains (lit "In stock") s then true else false
  | None => false
  end.

Definition fillna_str (v : option str) (default : str) : option str :=
  match v with Some s => Some s | None => Some default end.

(** [pd.to_numeric(..., errors='coerce').fillna(0).astype(int)] on one
    cell of a frame that passes [exact_numbers]. *)
Definition to_quantity (q : option Z) : Z :=
  match q with Some n => n | None => 0 end.

Definition tolerance : F64.float := F64.lit_0_01.

Definition price_diff {R A Q} (r : Row F64.float R A Q) : F64.float :=
  F64.sub (F64.sub (price_incl_tax r) (tax r)) (price_excl_tax r).

Definition tax_inconsistent {R A Q} (r : Row F64.float R A Q) : bool :=
  F64.ltb tolerance (F64.abs (price_diff r)).

Definition repair_tax_row {R A Q} (r : Row F64.float R A Q) : Row F64.float R A Q :=
  if tax_inconsistent r
  then set_field f_price_excl_tax r (F64.sub (price_incl_tax r) (tax r))
  else r.

(** Lines 199 to 207: the check of [price_incl_tax - tax] against
    [price_excl_tax]. *)
Definition repair_tax {R A Q} (df : list (Row F64.float R A Q))
  : Py (list (Row F64.float R A Q)) :=
  let inconsistent_rows := List.filter tax_inconsistent df in
  match inconsistent_rows with
  | [] => ret df
  | _ :: _ =>
      (logger_warning
         "Price inconsistency found in %d records (price_incl_tax - tax != price_excl_tax)"
         [AInt (Z.of_nat (List.length inconsistent_rows))] ;;
       ret (List.map repair_tax_row df))%py
  end.

Definition price_mismatch {R A Q} (r : Row F64.float R A Q) : F64.float :=
  F64.abs (F64.sub (price r) (price_incl_tax r)).

Definition price_inconsistent {R A Q} (r : Row F64.float R A Q) : bool :=
  F64.ltb tolerance (price_mismatch r).

Definition repair_price_row {R A Q} (r : Row F64.float R A Q) : Row F64.float R A Q :=
  if price_inconsistent r then set_field f_price r (price_incl_tax r) else r.

(** Lines 209 to 216: the check of [price] against [price_incl_tax]. *)
Definition repair_price {R A Q} (df : list (Row F64.float R A Q))
  : Py (list (Row F64.float R A Q)) :=
  let inconsistent_price := List.filter price_inconsistent df in
  match inconsistent_price with
  | [] => ret df
  | _ :: _ =>
      (logger_warning
         "Mismatch found: 'price' and 'price_incl_tax' differ in %d records"
         [AInt (Z.of_nat (List.length inconsistent_price))] ;;
       ret (List.map repair_price_row df))%py
  end.

Section Transform.
Context `{Builtins}.
Local Open Scope py_scope.

(** [df[field].apply(convert_to_pounds)]. *)
Definition apply_convert (df : list RawBook) (f : price_field)
  : Py (list F64.float) :=
  mapM (fun r => v <- convert_to_pounds (get_field f r) ;; ret (cell v)) df.

(** The converted columns put in place of the four price columns. *)
Fixpoint assign_prices (df : list RawBook) (p pe pi t : list F64.float)
  : list (Row F64.float (option str) (option str) (option Z)) :=
  match df, p, pe, pi, t with
  | r :: df', a :: p', b :: pe', c :: pi', d :: t' =>
      set_prices r a b c d :: assign_prices df' p' pe' pi' t'
  | _, _, _, _, _ => []
  end.

(** Lines 168 to 174. *)
Definition convert_prices (df : list RawBook)
  : Py (list (Row F64.float (option str) (option str) (option Z))) :=
  p <- apply_convert df f_price ;;
  pe <- apply_convert df f_price_excl_tax ;;
  pi <- apply_convert df f_price_incl_tax ;;
  t <- apply_convert df f_tax ;;
  ret (assign_prices df p pe pi t).

(** [transform_data(books)]. An empty list of books makes a frame
    without columns, and the first [df[field]] raises [KeyError]. *)
Definition transform_data (books : list RawBook) : Py (list Book) :=
  match books with
  | [] => raise KeyError
  | _ :: _ =>
      let df := drop_duplicates books in
      df <- convert_prices df ;;
      let df := dropna_title df in
      let df := impute_all df in
      let df := List.map (fun r => set_rating r (map_rating (rating r))) df in
      let df := List.map (fun r => set_availability r (in_stock (availability r))) df in
      let df := List.map (fun r => set_category r (fillna_str (category r) (lit "Others"))) df in
      let df := List.map (fun r => set_product_type r (fillna_str (product_type r) (lit "Books"))) df in
      let df := List.map (fun r => set_available_quantity r (to_quantity (available_quantity r))) df in
      df <- repair_tax df ;;
      df <- repair_price df ;;
      ret df
  end.

End Transform.

(* ================================================================== *)
(** * The relational store *)
(* ================================================================== *)

(** The store's part: how a float and a string are kept by a column.
    [None] is a value the store rejects (out of range, too long). *)
Class Postgres : Type := {
  numeric : Type;
  (** A float written to a [NUMERIC(10, 2)] column. *)
  numeric_10_2 : F64.float -> option numeric;
  (** A string written to a [VARCHAR(n)] column ([Some n]) or to a [TEXT]
      column ([None]). *)
  character : option nat -> str -> option str
}.

Declare Scope opt_scope.
Delimit Scope opt_scope with opt.
Notation "x <- m ;; k" := (match m with Some x => k | None => None end)
  (at level 61, m at next level, right associativity) : opt_scope.

(** A table with a [SERIAL] column: its rows in insertion order and the
    next value of the sequence. *)
Record Table (R : Type) : Type := mkTable {
  rows : list R;
  nextval : Z
}.
Arguments mkTable {R}.
Arguments rows {R} _.
Arguments nextval {R} _.

Definition opt_eq_dec {K} (dec : forall a b : K, {a = b} + {a <> b})
  : forall a b : option K, {a = b} + {a <> b}.
Proof. decide equality. Defined.

Definition str_eq_dec : forall a b : str, {a = b} + {a <> b} :=
  list_eq_dec N.eq_dec.

(** [a = b] of SQL as a join or conflict condition: a null equals
    nothing. *)
Definition sql_eq {K} (dec : forall a b : K, {a = b} + {a <> b})
    (a b : option K) : bool :=
  match a, b with
  | Some x, Some y => if dec x y then true else false
  | _, _ => false
  end.

(** An [INTEGER] column. *)
Definition int4 (z : Z) : option Z :=
  if (-2147483648 <=? z) && (z <=? 2147483647) then Some z else None.

Section Store.
Context `{Postgres}.

(** A row of [raw_books]; [created_at] is left out. *)
Record RawBooksRow : Type := mkRaw {
  rb_id : Z;
  rb_title : option str;
  rb_price : option numeric;
  rb_rating : option Z;
  rb_availability : option bool;
  rb_category : option str;
  rb_book_url : option str;
  rb_book_thumbnail_url : option str;
  rb_product_description : option str;
  rb_upc : option str;
  rb_product_type : option str;
  rb_price_excl_tax : option numeric;
  rb_price_incl_tax : option numeric;
  rb_tax : option numeric;
  rb_available_quantity : option Z;
  rb_no_of_reviews : option Z
}.

(** A row of a dimension keyed by one column: its id and its natural
    key. *)
Definition Dim (K : Type) : Type := Table (Z * K).

Record BooksDetailsRow : Type := mkDetails {
  bd_id : Z;
  bd_title : option str;
  bd_upc : option str;
  bd_product_description : option str;
  bd_book_url : option str;
  bd_book_thumbnail_url : option str;
  bd_no_of_reviews : option Z
}.

Record BooksFactRow : Type := mkFact {
  bf_id : Z;
  bf_books_details_id : option Z;
  bf_price : option numeric;
  bf_price_excl_tax : option numeric;
  bf_price_incl_tax : option numeric;
  bf_tax : option numeric;
  bf_available_quantity : option Z;
  bf_category_id : option Z;
  bf_rating_id : option Z;
  bf_availability_id : option Z;
  bf_product_type_id : option Z
}.

(** The database after the [CREATE TABLE IF NOT EXISTS] statements: a
    table that did not exist is there and empty. *)
Record Db : Type := mkDb {
  raw_books : Table RawBooksRow;
  product_type_table : Dim str;
  books_details : Table BooksDetailsRow;
  category_info : Dim str;
  rating_info : Dim Z;
  availability_info : Dim str;
  books_fact : Table BooksFactRow
}.

(* ---------------------------------------------------------------- *)
(** ** [load_to_postgres] *)

Definition nullable {A B} (f : A -> option B) (v : option A) : option (option B) :=
  match v with
  | None => Some None
  | Some a => match f a with Some b => Some (Some b) | None => None end
  end.

(** The row one [INSERT INTO raw_books] writes; [title] is [NOT NULL]. *)
Definition raw_books_values (id : Z) (row : Book) : option RawBooksRow :=
  (t0 <- title row ;;
   t <- character (Some 255%nat) t0 ;;
   p <- numeric_10_2 (price row) ;;
   r <- int4 (rating row) ;;
   c <- nullable (character (Some 100%nat)) (category row) ;;
   bu <- nullable (character None) (book_url row) ;;
   bt <- nullable (character None) (book_thumbnail_url row) ;;
   d <- nullable (character None) (product_description row) ;;
   u <- nullable (character (Some 50%nat)) (upc row) ;;
   pt <- nullable (character (Some 50%nat)) (product_type row) ;;
   pe <- numeric_10_2 (price_excl_tax row) ;;
   pi <- numeric_10_2 (price_incl_tax row) ;;
   tx <- numeric_10_2 (tax row) ;;
   q <- int4 (available_quantity row) ;;
   n <- int4 (no_of_reviews row) ;;
   Some (mkRaw id (Some t) (Some p) (Some r) (Some (availability row)) c bu bt
               d u pt (Some pe) (Some pi) (Some tx) (Some q) (Some n)))%opt.

Fixpoint insert_raw_books (t : Table RawBooksRow) (df : list Book)
  : option (Table RawBooksRow) :=
  match df with
  | [] => Some t
  | row :: df' =>
      (v <- raw_books_values (nextval t) row ;;
       insert_raw_books (mkTable (rows t ++ [v]) (nextval t + 1)) df')%opt
  end.

(** [load_to_postgres(df)]: a rejected row raises before the commit and
    nothing is written. *)
Definition load_to_postgres (db : Db) (df : list Book) : Py Db :=
  match insert_raw_books (raw_books db) df with
  | Some t =>
      (Returns (mkDb t (product_type_table db) (books_details db)
                     (category_info db) (rating_info db)
                     (availability_info db) (books_fact db)),
       [mkLog INFO "Data loaded into staging table 'raw_books' successfully." []])
  | None => raise StoreError
  end.

(* ---------------------------------------------------------------- *)
(** ** The dimensions *)

Section Dimension.
Context {K : Type} (dec : forall a b : K, {a = b} + {a <> b}).

Definition has_key (t : Dim K) (k : K) : bool :=
  List.existsb (fun row => if dec (snd row) k then true else false) (rows t).

(** [INSERT ... ON CONFLICT (key) DO NOTHING] of the selected values
    into a table whose key is [NOT NULL UNIQUE]: a null is an error, a
    key already there is skipped; the sequence advances for every
    candidate row. *)
Fixpoint insert_on_conflict_do_nothing (t : Dim K) (values : list (option K))
  : option (Dim K) :=
  match values with
  | [] => Some t
  | None :: _ => None
  | Some k :: values' =>
      if has_key t k
      then insert_on_conflict_do_nothing
             (mkTable (rows t) (nextval t + 1)) values'
      else insert_on_conflict_do_nothing
             (mkTable (rows t ++ [(nextval t, k)]) (nextval t + 1)) values'
  end.

(** [SELECT DISTINCT]: nulls count as one value. *)
Definition select_distinct (l : list (option K)) : list (option K) :=
  List.nodup (opt_eq_dec dec) l.

End Dimension.

(** [ORDER BY rating ASC]: nulls come last. *)
Definition rating_le (a b : option Z) : bool :=
  match a, b with
  | Some x, Some y => x <=? y
  | Some _, None => true
  | None, Some _ => false
  | None, None => true
  end.

Fixpoint insert_sorted (a : option Z) (l : list (option Z)) : list (option Z) :=
  match l with
  | [] => [a]
  | b :: l' => if rating_le a b then a :: l else b :: insert_sorted a l'
  end.

Definition order_by_asc (l : list (option Z)) : list (option Z) :=
  List.fold_right insert_sorted [] l.

(** [CASE WHEN availability THEN 'In Stock' ELSE 'Out of Stock' END]. *)
Definition availability_status (a : option bool) : str :=
  match a with
  | Some true => lit "In Stock"
  | _ => lit "Out of Stock"
  end.

(** [INSERT INTO books_details ... SELECT ... FROM raw_books rb]: one row
    for each staging row; [title] is [NOT NULL]. *)
Fixpoint insert_books_details (t : Table BooksDetailsRow) (rbs : list RawBooksRow)
  : option (Table BooksDetailsRow) :=
  match rbs with
  | [] => Some t
  | rb :: rbs' =>
      match rb_title rb with
      | None => None
      | Some _ =>
          insert_books_details
            (mkTable (rows t ++ [mkDetails (nextval t) (rb_title rb) (rb_upc rb)
                                   (rb_product_description rb) (rb_book_url rb)
                                   (rb_book_thumbnail_url rb) (rb_no_of_reviews rb)])
                     (nextval t + 1))
            rbs'
      end
  end.

(** Lines 368 to 405: the five inserts, committed together. *)
Definition populate_dimensions (db : Db) : option Db :=
  let rbs := rows (raw_books db) in
  (pt <- insert_on_conflict_do_nothing str_eq_dec (product_type_table db)
           (select_distinct str_eq_dec (List.map rb_product_type rbs)) ;;
   bd <- insert_books_details (books_details db) rbs ;;
   ci <- insert_on_conflict_do_nothing str_eq_dec (category_info db)
           (select_distinct str_eq_dec (List.map rb_category rbs)) ;;
   ri <- insert_on_conflict_do_nothing Z.eq_dec (rating_info db)
           (order_by_asc (select_distinct Z.eq_dec (List.map rb_rating rbs))) ;;
   ai <- insert_on_conflict_do_nothing str_eq_dec (availability_info db)
           (select_distinct str_eq_dec
              (List.map (fun rb => Some (availability_status (rb_availability rb))) rbs)) ;;
   Some (mkDb (raw_books db) pt bd ci ri ai (books_fact db)))%opt.

(* ---------------------------------------------------------------- *)
(** ** The fact table *)

(** The right side of an outer match: the matching rows, or one null if
    there is none. *)
Definition outer {R} (matching : list R) : list (option R) :=
  match matching with
  | [] => [None]
  | _ :: _ => List.map Some matching
  end.

(** [l LEFT JOIN r ON on]: every left row is paired with each right row
    it matches, and with a null if it matches none. *)
Definition left_join {L R} (on : L -> R -> bool) (l : list L) (r : list R)
  : list (L * option R) :=
  List.flat_map
    (fun x => List.map (fun y => (x, y)) (outer (List.filter (on x) r))) l.

Definition on_books_details (rb : RawBooksRow) (bd : BooksDetailsRow) : bool :=
  sql_eq str_eq_dec (rb_title rb) (bd_title bd)
  && sql_eq str_eq_dec (rb_upc rb) (bd_upc bd).

Definition on_key {K} (dec : forall a b : K, {a = b} + {a <> b})
    (key : option K) (row : Z * K) : bool :=
  sql_eq dec key (Some (snd row)).

(** A row of the [SELECT] of the fact query: the staging row and the row
    matched in each of the five dimensions, if any. *)
Definition Joined : Type :=
  (RawBooksRow * option BooksDetailsRow * option (Z * str) * option (Z * Z)
   * option (Z * str) * option (Z * str))%type.

Definition joined_rb (j : Joined) : RawBooksRow :=
  let '(rb, _, _, _, _, _) := j in rb.

(** The [FROM] clause of lines 424 to 429. *)
Definition fact_join (db : Db) (rbs : list RawBooksRow) : list Joined :=
  let j := left_join on_books_details rbs (rows (books_details db)) in
  let j := left_join (fun x => on_key str_eq_dec (rb_category (fst x)))
                     j (rows (category_info db)) in
  let j := left_join (fun x => on_key Z.eq_dec (rb_rating (fst (fst x))))
                     j (rows (rating_info db)) in
  let j := left_join
             (fun x => on_key str_eq_dec
                         (Some (availability_status
                                  (rb_availability (fst (fst (fst x)))))))
             j (rows (availability_info db)) in
  left_join (fun x => on_key str_eq_dec
                        (rb_product_type (fst (fst (fst (fst x))))))
            j (rows (product_type_table db)).

(** The [SELECT] list: the fact row, given its id. *)
Definition fact_values (id : Z) (j : Joined) : BooksFactRow :=
  let '(rb, bd, ci, ri, ai, pt) := j in
  mkFact id (option_map bd_id bd) (rb_price rb) (rb_price_excl_tax rb)
         (rb_price_incl_tax rb) (rb_tax rb) (rb_available_quantity rb)
         (option_map fst ci) (option_map fst ri) (option_map fst ai)
         (option_map fst pt).

Fixpoint insert_facts (t : Table BooksFactRow) (js : list Joined)
  : Table BooksFactRow :=
  match js with
  | [] => t
  | j :: js' =>
      insert_facts (mkTable (rows t ++ [fact_values (nextval t) j])
                            (nextval t + 1)) js'
  end.

(** Lines 407 to 432. *)
Definition populate_facts (db : Db) : Db :=
  mkDb (raw_books db) (product_type_table db) (books_details db)
       (category_info db) (rating_info db) (availability_info db)
       (insert_facts (books_fact db) (fact_join db (rows (raw_books db)))).

(** The [UNIQUE] constraints of the four dimensions keyed by one column. *)
Definition unique_keys (db : Db) : Prop :=
  NoDup (List.map snd (rows (product_type_table db)))
  /\ NoDup (List.map snd (rows (category_info db)))
  /\ NoDup (List.map snd (rows (rating_info db)))
  /\ NoDup (List.map snd (rows (availability_info db))).

(** A foreign key resolved by an outer match on [on]: a row of the
    dimension that matches, or null when no row matches. *)
Definition resolved {R} (on : R -> bool) (dimension : list R) (y : option R) : Prop :=
  match y with
  | Some row => In row dimension /\ on row = true
  | None => forall row, In row dimension -> on row = false
  end.

(** [build_data_warehouse()]: a failed insert raises and its transaction
    is not committed. *)
Definition build_data_warehouse (db : Db) : Py Db :=
  match populate_dimensions db with
  | Some db' =>
      (Returns (populate_facts db'),
       [mkLog INFO "Data Warehouse (Star-Schema) built and populated successfully." []])
  | None => raise StoreError
  end.

End Store.

(* ================================================================== *)
(** * [main], after the extraction *)
(* ================================================================== *)

Definition logger_info (fmt : string) (a : list log_arg) : Py unit :=
  (Returns tt, [mkLog INFO fmt a]).

(** [main()], with the list [extract_book_data()] returned and the
    database it runs against as arguments. *)
Definition main `{Builtins} `{Postgres} (books : list RawBook) (db : Db) : Py Db :=
  (logger_info "Starting ETL process" [] ;;
   logger_info "Extracted %d records" [AInt (Z.of_nat (List.length books))] ;;
   df <- transform_data books ;;
   logger_info "Transformed data, resulting in %d records"
     [AInt (Z.of_nat (List.length df))] ;;
   db <- load_to_postgres db df ;;
   logger_info "ETL process completed successfully." [] ;;
   db <- build_data_warehouse db ;;
   logger_info "Data Warehousing process completed successfully." [] ;;
   ret db)%py.

(** A store that keeps every value as it is given, for closed examples. *)
Module ReferenceStore.

#[export] Instance postgres : Postgres := {
  numeric := F64.float;
  numeric_10_2 := fun x => Some x;
  character := fun _ s => Some s
}.

Definition empty_table {R} : Table R := mkTable [] 1.

Definition empty_db : Db :=
  mkDb empty_table empty_table empty_table empty_table empty_table
       empty_table empty_table.

End ReferenceStore.

(* ================================================================== *)
(** * The frame of [transform_data] without its log *)
(* ================================================================== *)

Section Frames.
Context `{Builtins}.

(** The cell [df[field].apply(convert_to_pounds)] holds for a raw
    string. *)
Definition pounds (price_str : option str) : F64.float :=
  match result (convert_to_pounds price_str) with
  | Some v => cell v
  | None => F64.nan
  end.

Definition convert_row (r : RawBook)
  : Row F64.float (option str) (option str) (option Z) :=
  set_prices r (pounds (price r)) (pounds (price_excl_tax r))
             (pounds (price_incl_tax r)) (pounds (tax r)).

(** The frame when the imputation starts (line 179). *)
Definition frame_at_imputation (books : list RawBook)
  : list (Row F64.float (option str) (option str) (option Z)) :=
  dropna_title (List.map convert_row (drop_duplicates books)).

(** The frame when the two price checks start (line 199). *)
Definition frame_at_checks (books : list RawBook) : list Book :=
  List.map (fun r => set_available_quantity r (to_quantity (available_quantity r)))
    (List.map (fun r => set_product_type r (fillna_str (product_type r) (lit "Books")))
      (List.map (fun r => set_category r (fillna_str (category r) (lit "Others")))
        (List.map (fun r => set_availability r (in_stock (availability r)))
          (List.map (fun r => set_rating r (map_rating (rating r)))
            (impute_all (frame_at_imputation books)))))).

(** The frame [transform_data] returns. *)
Definition reconciled (books : list RawBook) : list Book :=
  List.map repair_price_row (List.map repair_tax_row (frame_at_checks books)).

End Frames.

(** The staging columns the build writes to [NOT NULL] columns: the title
    and the three natural keys read from nullable columns. *)
Definition keys_not_null `{Postgres} (rb : RawBooksRow) : Prop :=
  rb_title rb <> None /\ rb_product_type rb <> None
  /\ rb_category rb <> None /\ rb_rating rb <> None.

(** The [SERIAL PRIMARY KEY] of a table: the ids of its rows are distinct
    and below the next value of its sequence. *)
Definition ids_fresh {R} (id : R -> Z) (t : Table R) : Prop :=
  NoDup (List.map id (rows t)) /\ forall row, In row (rows t) -> id row < nextval t.

(* ================================================================== *)
(** * Sample inputs *)
(* ================================================================== *)

Module Samples.

Definition gbp (amount : string) : option str := Some (pound_sign ++ lit amount).
Definition usd (amount : string) : option str := Some (dollar_sign ++ lit amount).

(** A record as the extraction yields it, with the given title, category
    and price strings. *)
Definition book (t c p pe pi tx : option str) : RawBook :=
  mkRow t p (Some (lit "Three")) (Some (lit "In stock")) c
        (Some (lit "http://books.toscrape.com/catalogue/a_1/index.html"))
        (Some (lit "http://books.toscrape.com/media/cache/a.jpg"))
        None (Some (lit "a897fe39b1053632")) (Some (lit "Books"))
        pe pi tx (Some 22) 0.

(** [price_incl_tax = 10.00], [tax = 1.00], [price_excl_tax = 8.00]. *)
Definition inconsistent_tax : list RawBook :=
  [book (Some (lit "A")) (Some (lit "Fiction"))
        (gbp "10.00") (gbp "8.00") (gbp "10.00") (gbp "1.00")].

(** A price string that [float] reads as an infinity. *)
Definition infinite_price : list RawBook :=
  [book (Some (lit "A")) (Some (lit "Fiction"))
        (gbp "inf") (gbp "10.00") (gbp "inf") (gbp "0.00")].

(** A row of the frame with the one value [v] in its four price columns. *)
Definition priced (c : option str) (v : F64.float) : Book :=
  mkRow (Some (lit "A")) v 3 true c None None None None (Some (lit "Books"))
        v v v 22 0.

(** A category with the prices null, 10.00 and 20.00. *)
Definition null_10_20 : list Book :=
  [priced (Some (lit "Fiction")) F64.nan;
   priced (Some (lit "Fiction")) (F64.of_Z 10);
   priced (Some (lit "Fiction")) (F64.of_Z 20)].

(** The float of 0.10. *)
Definition tenth : F64.float := S754_finite false 7205759403792794 (-56).

(** A category of eleven records: one without prices, ten priced 0.10. *)
Definition null_and_ten_tenths : list Book :=
  priced (Some (lit "Fiction")) F64.nan
  :: List.repeat (priced (Some (lit "Fiction")) tenth) 10.

(** Records of two categories in turn, each category with one null. *)
Definition two_categories : list Book :=
  [priced (Some (lit "Fiction")) F64.nan;
   priced (Some (lit "Poetry")) (F64.of_Z 40);
   priced (Some (lit "Fiction")) (F64.of_Z 10);
   priced (Some (lit "Poetry")) F64.nan;
   priced (Some (lit "Fiction")) (F64.of_Z 20)].

(** A record without category and without prices, next to a record of the
    category "Others" with prices. *)
Definition no_category : list RawBook :=
  [book (Some (lit "A")) None None None None None;
   book (Some (lit "B")) (Some (lit "Others"))
        (gbp "10.00") (gbp "9.00") (gbp "10.00") (gbp "1.00")].

(** A record whose title is the empty string. *)
Definition empty_title : list RawBook :=
  [book (Some []) (Some (lit "Fiction"))
        (gbp "10.00") (gbp "9.00") (gbp "10.00") (gbp "1.00")].

(** A record without title before a record with one. *)
Definition null_title : list RawBook :=
  [book None (Some (lit "Fiction"))
        (gbp "10.00") (gbp "9.00") (gbp "10.00") (gbp "1.00");
   book (Some (lit "B")) (Some (lit "Fiction"))
        (gbp "12.00") (gbp "11.00") (gbp "12.00") (gbp "1.00")].

(** Two records of two categories. *)
Definition two_books : list RawBook :=
  [book (Some (lit "A")) (Some (lit "Fiction"))
        (gbp "10.00") (gbp "9.00") (gbp "10.00") (gbp "1.00");
   book (Some (lit "B")) (Some (lit "Poetry"))
        (gbp "12.00") (gbp "11.00") (gbp "12.00") (gbp "1.00")].

(** The database a computation leaves, or the empty one if it raises. *)
Definition db_of (m : Py (@Db ReferenceStore.postgres)) : @Db ReferenceStore.postgres :=
  match result m with
  | Some db => db
  | None => ReferenceStore.empty_db
  end.

(** The empty database after [transform_data] and [load_to_postgres] of the
    two records. *)
Definition loaded : @Db ReferenceStore.postgres :=
  db_of (load_to_postgres ReferenceStore.empty_db
           (@reconciled Reference.builtins two_books)).

(** The empty database after one run of [main] on one record. *)
Definition after_one_run : @Db ReferenceStore.postgres :=
  db_of (@main Reference.builtins ReferenceStore.postgres
           inconsistent_tax ReferenceStore.empty_db).

(** The database [loaded] after one build of the dimensions. *)
Definition dimensions_built : @Db ReferenceStore.postgres :=
  match populate_dimensions loaded with
  | Some db => db
  | None => ReferenceStore.empty_db
  end.

(** The database [loaded] after [build_data_warehouse]. *)
Definition built : @Db ReferenceStore.postgres :=
  db_of (build_data_warehouse loaded).

(** A record with its four prices and without category. *)
Definition priced_no_category : list RawBook :=
  [book (Some (lit "A")) None
        (gbp "10.00") (gbp "9.00") (gbp "10.00") (gbp "1.00")].

End Samples.

(* ================================================================== *)
(** * Properties *)
(* ================================================================== *)

(** ** Computations that return *)

Lemma bind_returns {A B} (m : Py A) (k : A -> Py B) a l b l' :
  m = (Returns a, l) -> k a = (Returns b, l') ->
  bind m k = (Returns b, l ++ l').
Proof. intros -> Hk. unfold bind. now rewrite Hk. Qed.

Lemma filter_nil_false {A} (p : A -> bool) (l : list A) :
  List.filter p l = [] -> forall x, In x l -> p x = false.
Proof.
  induction l as [|a l IH]; simpl; intros Hf x Hx; [contradiction|].
  destruct (p a) eqn:Ha; [discriminate|].
  destruct Hx as [<-|Hx]; auto.
Qed.

Lemma map_id_on {A} (f : A -> A) (l : list A) :
  (forall x, In x l -> f x = x) -> List.map f l = l.
Proof.
  induction l as [|a l IH]; simpl; intros Hf; [reflexivity|].
  rewrite Hf by now left. f_equal. apply IH. intros x Hx. apply Hf. now right.
Qed.

Section TransformFacts.
Context `{Builtins}.

Lemma convert_to_pounds_returns (s : option str) :
  exists v l, convert_to_pounds s = (Returns v, l).
Proof.
  unfold convert_to_pounds.
  destruct s as [raw|]; [|unfold ret; eauto].
  destruct (negb (truthy raw)); [unfold ret; eauto|].
  destruct (startswith _ pound_sign).
  { unfold float_. destruct (py_float _); simpl; eauto. }
  destruct (startswith _ dollar_sign).
  { unfold float_. destruct (py_float _); simpl; eauto. }
  simpl. eauto.
Qed.

Lemma convert_to_pounds_pounds (s : option str) :
  exists l, (v <- convert_to_pounds s ;; ret (cell v))%py = (Returns (pounds s), l).
Proof.
  unfold pounds, result.
  destruct (convert_to_pounds_returns s) as (v & l & ->). simpl. eauto.
Qed.

Lemma apply_convert_returns (df : list RawBook) (f : price_field) :
  exists l, apply_convert df f
            = (Returns (List.map (fun r => pounds (get_field f r)) df), l).
Proof.
  unfold apply_convert.
  induction df as [|r df (l & IH)]; simpl; [unfold ret; eauto|].
  destruct (convert_to_pounds_pounds (get_field f r)) as (l1 & H1).
  eexists. eapply bind_returns; [exact H1|].
  eapply bind_returns; [exact IH|]. reflexivity.
Qed.

Lemma assign_prices_map (df : list RawBook) (f1 f2 f3 f4 : RawBook -> F64.float) :
  assign_prices df (List.map f1 df) (List.map f2 df) (List.map f3 df) (List.map f4 df)
  = List.map (fun r => set_prices r (f1 r) (f2 r) (f3 r) (f4 r)) df.
Proof. induction df as [|r df IH]; simpl; [reflexivity|]. now rewrite IH. Qed.

Lemma convert_prices_returns (df : list RawBook) :
  exists l, convert_prices df = (Returns (List.map convert_row df), l).
Proof.
  unfold convert_prices.
  destruct (apply_convert_returns df f_price) as (l1 & H1).
  destruct (apply_convert_returns df f_price_excl_tax) as (l2 & H2).
  destruct (apply_convert_returns df f_price_incl_tax) as (l3 & H3).
  destruct (apply_convert_returns df f_tax) as (l4 & H4).
  eexists.
  eapply bind_returns; [exact H1|].
  eapply bind_returns; [exact H2|].
  eapply bind_returns; [exact H3|].
  eapply bind_returns; [exact H4|].
  unfold ret. rewrite assign_prices_map. reflexivity.
Qed.

Lemma repair_tax_returns {R A Q} (df : list (Row F64.float R A Q)) :
  exists l, repair_tax df = (Returns (List.map repair_tax_row df), l).
Proof.
  unfold repair_tax.
  destruct (List.filter tax_inconsistent df) eqn:Hf.
  - exists []. unfold ret. rewrite map_id_on; [reflexivity|].
    intros r Hr. unfold repair_tax_row.
    now rewrite (filter_nil_false _ _ Hf r Hr).
  - simpl. eauto.
Qed.

Lemma repair_price_returns {R A Q} (df : list (Row F64.float R A Q)) :
  exists l, repair_price df = (Returns (List.map repair_price_row df), l).
Proof.
  unfold repair_price.
  destruct (List.filter price_inconsistent df) eqn:Hf.
  - exists []. unfold ret. rewrite map_id_on; [reflexivity|].
    intros r Hr. unfold repair_price_row.
    now rewrite (filter_nil_false _ _ Hf r Hr).
  - simpl. eauto.
Qed.

(** On a non-empty list of books [transform_data] returns, and what it
    returns is [reconciled]. *)
Lemma transform_data_returns (books : list RawBook) :
  books <> [] -> exists l, transform_data books = (Returns (reconciled books), l).
Proof.
  intros Hne. unfold transform_data.
  destruct books as [|b books]; [congruence|].
  destruct (convert_prices_returns (drop_duplicates (b :: books))) as (l1 & H1).
  destruct (repair_tax_returns (frame_at_checks (b :: books))) as (l2 & H2).
  destruct (repair_price_returns
              (List.map repair_tax_row (frame_at_checks (b :: books)))) as (l3 & H3).
  eexists.
  eapply bind_returns; [exact H1|].
  eapply bind_returns; [exact H2|].
  eapply bind_returns; [exact H3|].
  reflexivity.
Qed.

Lemma transform_data_inv (books : list RawBook) (df : list Book) l :
  transform_data books = (Returns df, l) -> books <> [] /\ df = reconciled books.
Proof.
  intros Ht. destruct books as [|b books]; [discriminate|].
  split; [congruence|].
  destruct (transform_data_returns (b :: books)) as (l' & Hr); [congruence|].
  congruence.
Qed.

End TransformFacts.

(** ** Binary64 arithmetic *)

Section FloatFacts.
Import F64.

Lemma shr_1_nonneg (mrs : shr_record) :
  0 <= shr_m mrs -> 0 <= shr_m (shr_1 mrs).
Proof.
  destruct mrs as [m r s]. simpl.
  destruct m as [|p|p]; [| destruct p | destruct p]; simpl; lia.
Qed.

Lemma iter_shr_1_nonneg (p : positive) :
  forall mrs, 0 <= shr_m mrs -> 0 <= shr_m (iter_pos shr_1 p mrs).
Proof.
  induction p as [p IH|p IH|]; intros mrs Hm; simpl.
  - apply IH, IH, shr_1_nonneg, Hm.
  - apply IH, IH, Hm.
  - apply shr_1_nonneg, Hm.
Qed.

Lemma shr_fexp_nonneg (m e : Z) (l : location) :
  0 <= m -> 0 <= shr_m (fst (shr_fexp prec emax m e l)).
Proof.
  intros Hm. unfold shr_fexp, shr.
  assert (Hr : 0 <= shr_m (shr_record_of_loc m l)).
  { destruct l as [|[| |]]; simpl; exact Hm. }
  destruct (fexp prec emax (Zdigits2 m + e) - e); simpl; auto.
  now apply iter_shr_1_nonneg.
Qed.

Lemma round_nearest_even_nonneg (m : Z) (l : location) :
  0 <= m -> 0 <= round_nearest_even m l.
Proof.
  intros Hm. destruct l as [|[| |]]; simpl; try lia.
  destruct (Z.even m); lia.
Qed.

(** Rounding a non-negative mantissa never gives the NaN. *)
Lemma binary_round_aux_not_nan (sx : bool) (mx ex : Z) (lx : location) :
  0 <= mx -> isna (binary_round_aux prec emax sx mx ex lx) = false.
Proof.
  intros Hm. unfold binary_round_aux.
  pose proof (shr_fexp_nonneg mx ex lx Hm) as H1.
  destruct (shr_fexp prec emax mx ex lx) as [mrs' e']. simpl in H1.
  pose proof (shr_fexp_nonneg _ e' loc_Exact
                (round_nearest_even_nonneg _ (loc_of_shr_record mrs') H1)) as H2.
  destruct (shr_fexp prec emax _ e' loc_Exact) as [mrs'' e'']. simpl in H2.
  destruct (shr_m mrs'') as [|m|m]; simpl; [reflexivity| |lia].
  destruct (_ <=? _); reflexivity.
Qed.

Lemma binary_normalize_not_nan (m e : Z) (sz : bool) :
  isna (binary_normalize prec emax m e sz) = false.
Proof.
  unfold binary_normalize, binary_round.
  destruct m as [|p|p]; [reflexivity| |];
    destruct (shl_align p e _) as [mz ez];
    apply binary_round_aux_not_nan; lia.
Qed.

(** A finite number minus a number is a number. *)
Lemma sub_not_nan (a b : float) :
  is_finite a = true -> isna b = false -> isna (sub a b) = false.
Proof.
  unfold sub.
  destruct a as [sa|sa| |sa ma ea], b as [sb|sb| |sb mb eb];
    simpl; try discriminate; intros _ _; try reflexivity.
  - destruct sa, sb; reflexivity.
  - apply binary_normalize_not_nan.
Qed.

(** A finite number minus itself is the positive zero. *)
Lemma sub_diag (a : float) : is_finite a = true -> sub a a = zero.
Proof.
  unfold sub, zero.
  destruct a as [sa|sa| |sa ma ea]; simpl; try discriminate; intros _.
  - destruct sa; reflexivity.
  - rewrite Z.sub_diag. reflexivity.
Qed.

Lemma SFcompare_antisym (a b : float) :
  SFcompare b a = option_map CompOpp (SFcompare a b).
Proof.
  destruct a as [sa|sa| |sa ma ea], b as [sb|sb| |sb mb eb];
    simpl; try reflexivity;
    try (destruct sa; reflexivity); try (destruct sb; reflexivity);
    try (destruct sa, sb; reflexivity).
  destruct sa, sb; simpl; try reflexivity;
    rewrite (Z.compare_antisym ea eb);
    destruct (ea ?= eb); simpl; try reflexivity;
    fold (Pos.compare ma mb); fold (Pos.compare mb ma);
    rewrite (Pos.compare_antisym ma mb);
    destruct (ma ?= mb)%positive; reflexivity.
Qed.

Lemma SFcompare_numbers (a b : float) :
  isna a = false -> isna b = false -> exists c, SFcompare a b = Some c.
Proof.
  destruct a, b; simpl; try discriminate; intros _ _; eauto.
Qed.

(** For numbers, not [a < b] is [b <= a]. *)
Lemma not_ltb_leb (a b : float) :
  isna a = false -> isna b = false -> ltb a b = false -> leb b a = true.
Proof.
  intros Ha Hb. unfold ltb, leb, SFltb, SFleb.
  rewrite (SFcompare_antisym a b).
  destruct (SFcompare_numbers a b Ha Hb) as (c & ->).
  destruct c; simpl; congruence.
Qed.

Lemma abs_isna (a : float) : isna (abs a) = isna a.
Proof. destruct a; reflexivity. Qed.

End FloatFacts.

(** ** Rows of a frame and of its image *)

Lemma Forall2_map_right {A B} (P : A -> B -> Prop) (f : A -> B) (l : list A) :
  (forall x, In x l -> P x (f x)) -> Forall2 P l (List.map f l).
Proof.
  induction l as [|a l IH]; simpl; intros Hf; constructor.
  - apply Hf. now left.
  - apply IH. intros x Hx. apply Hf. now right.
Qed.

Lemma Forall2_In_right {A B} (P : A -> B -> Prop) (l : list A) (l' : list B) :
  Forall2 P l l' -> forall y, In y l' -> exists x, In x l /\ P x y.
Proof.
  induction 1 as [|a b l l' Hab _ IH]; simpl; intros y Hy; [contradiction|].
  destruct Hy as [<-|Hy].
  - exists a. auto.
  - destruct (IH y Hy) as (x & Hx & Hxy). exists x. auto.
Qed.

(** ** The check of the tax (lines 199 to 207) *)

Section TaxRepair.
Context {R A Q : Type}.
Implicit Type r : Row F64.float R A Q.

Lemma repair_tax_row_columns r :
  price_incl_tax (repair_tax_row r) = price_incl_tax r
  /\ tax (repair_tax_row r) = tax r
  /\ price (repair_tax_row r) = price r
  /\ price_excl_tax (repair_tax_row r)
     = if F64.ltb tolerance (F64.abs (price_diff r))
       then F64.sub (price_incl_tax r) (tax r)
       else price_excl_tax r.
Proof.
  unfold repair_tax_row, tax_inconsistent.
  destruct (F64.ltb tolerance (F64.abs (price_diff r))); simpl; auto.
Qed.

Lemma repair_price_row_columns r :
  price_incl_tax (repair_price_row r) = price_incl_tax r
  /\ tax (repair_price_row r) = tax r
  /\ price_excl_tax (repair_price_row r) = price_excl_tax r.
Proof.
  unfold repair_price_row. destruct (price_inconsistent r); simpl; auto.
Qed.

(** After the check, a row whose [price_incl_tax - tax] is finite and
    whose [price_excl_tax] is a number is within the tolerance. *)
Lemma repair_tax_row_within_tolerance r :
  F64.is_finite (F64.sub (price_incl_tax r) (tax r)) = true ->
  F64.isna (price_excl_tax (repair_tax_row r)) = false ->
  F64.leb (F64.abs (price_diff (repair_tax_row r))) tolerance = true.
Proof.
  intros Hfin Hex.
  unfold repair_tax_row in *.
  destruct (tax_inconsistent r) eqn:Hinc.
  - unfold price_diff. simpl. rewrite sub_diag by exact Hfin. reflexivity.
  - unfold tax_inconsistent in Hinc.
    apply not_ltb_leb; [reflexivity| |exact Hinc].
    rewrite abs_isna. unfold price_diff. now apply sub_not_nan.
Qed.

End TaxRepair.

(** C1 (as amended). Every record [transform_data] returns has the
    [price_incl_tax] and the [tax] it had when the tax check started; its
    [price_excl_tax] is [price_incl_tax - tax] if the difference
    [price_incl_tax - tax - price_excl_tax] was above 0.01 in absolute
    value, and is unchanged otherwise. If [price_incl_tax - tax] is finite
    and [price_excl_tax] is not null, the record satisfies
    [|price_incl_tax - tax - price_excl_tax| <= 0.01]. *)
Theorem tax_consistency_repair `{Builtins}
    (books : list RawBook) (df : list Book) (l : list LogRecord) :
  transform_data books = (Returns df, l) ->
  Forall2
    (fun r0 r =>
       price_incl_tax r = price_incl_tax r0
       /\ tax r = tax r0
       /\ price_excl_tax r
          = (if F64.ltb tolerance (F64.abs (price_diff r0))
             then F64.sub (price_incl_tax r0) (tax r0)
             else price_excl_tax r0)
       /\ (F64.is_finite (F64.sub (price_incl_tax r) (tax r)) = true ->
           F64.isna (price_excl_tax r) = false ->
           F64.leb (F64.abs (price_diff r)) tolerance = true))
    (frame_at_checks books) df.
Proof.
  intros Ht. apply transform_data_inv in Ht as [_ ->].
  unfold reconciled. rewrite List.map_map.
  apply Forall2_map_right. intros r0 _.
  destruct (repair_price_row_columns (repair_tax_row r0)) as (Hi & Ht & He).
  destruct (repair_tax_row_columns r0) as (Hi0 & Ht0 & _ & He0).
  unfold price_diff. rewrite Hi, Ht, He.
  repeat split; [exact Hi0|exact Ht0|exact He0|].
  rewrite Hi0, Ht0 at 1. intros Hfin Hex.
  now apply (repair_tax_row_within_tolerance r0).
Qed.

(** The record with [price_incl_tax = 10.00], [tax = 1.00] and
    [price_excl_tax = 8.00] is returned with [price_excl_tax = 9.00]. *)
Lemma tax_consistency_repair_witness :
  List.map price_excl_tax (@reconciled Reference.builtins Samples.inconsistent_tax)
  = [F64.of_Z 9]
  /\ Forall2
       (fun r0 r =>
          price_incl_tax r = price_incl_tax r0
          /\ tax r = tax r0
          /\ price_excl_tax r
             = (if F64.ltb tolerance (F64.abs (price_diff r0))
                then F64.sub (price_incl_tax r0) (tax r0)
                else price_excl_tax r0)
          /\ (F64.is_finite (F64.sub (price_incl_tax r) (tax r)) = true ->
              F64.isna (price_excl_tax r) = false ->
              F64.leb (F64.abs (price_diff r)) tolerance = true))
       (@frame_at_checks Reference.builtins Samples.inconsistent_tax)
       (@reconciled Reference.builtins Samples.inconsistent_tax).
Proof.
  split; [vm_compute; reflexivity|].
  apply (@tax_consistency_repair Reference.builtins Samples.inconsistent_tax _
           (logged (@transform_data Reference.builtins Samples.inconsistent_tax))).
  vm_compute. reflexivity.
Defined.

(** C1 as stated fails: a record whose [price_incl_tax] is read as an
    infinity is returned with four non-null price fields and a difference
    that is not within the tolerance. *)
Lemma tax_consistency_counterexample :
  ~ (forall (books : list RawBook) (df : list Book) (l : list LogRecord) (r : Book),
        @transform_data Reference.builtins books = (Returns df, l) ->
        In r df ->
        F64.isna (price r) = false ->
        F64.isna (price_excl_tax r) = false ->
        F64.isna (price_incl_tax r) = false ->
        F64.isna (tax r) = false ->
        F64.leb (F64.abs (price_diff r)) tolerance = true).
Proof.
  intros Hclaim.
  pose (df := @reconciled Reference.builtins Samples.infinite_price).
  assert (Hrun : @transform_data Reference.builtins Samples.infinite_price
                 = (Returns df,
                    logged (@transform_data Reference.builtins Samples.infinite_price)))
    by (vm_compute; reflexivity).
  pose (none := mkRow None F64.nan 0 false None None None None None None
                     F64.nan F64.nan F64.nan 0 0 : Book).
  specialize (Hclaim _ _ _ (List.hd none df) Hrun).
  vm_compute in Hclaim.
  specialize (Hclaim (or_introl eq_refl) eq_refl eq_refl eq_refl eq_refl).
  discriminate Hclaim.
Qed.

(** ** The imputation (lines 179 to 181) *)

Section Imputation.
Context {R A Q : Type}.
Implicit Type r : Row F64.float R A Q.
Implicit Type df : list (Row F64.float R A Q).

Lemma get_set_field (f g : price_field) r (v : F64.float) :
  get_field g (set_field f r v) = if price_field_eqb f g then v else get_field g r.
Proof. destruct f, g; reflexivity. Qed.

Lemma category_set_field (f : price_field) r (v : F64.float) :
  category (set_field f r v) = category r.
Proof. destruct f; reflexivity. Qed.

Lemma group_map (h : Row F64.float R A Q -> Row F64.float R A Q) df (c : str) :
  (forall r, category (h r) = category r) ->
  group (List.map h df) c = List.map h (group df c).
Proof.
  intros Hc. unfold group.
  induction df as [|r df IH]; simpl; [reflexivity|].
  rewrite Hc. destruct (opt_str_eqb (category r) (Some c)); simpl; now rewrite IH.
Qed.

(** Imputing a field after a change of the other columns. *)
Lemma impute_map (g : price_field)
    (h : Row F64.float R A Q -> Row F64.float R A Q) df :
  (forall r, category (h r) = category r) ->
  (forall r, get_field g (h r) = get_field g r) ->
  impute g (List.map h df)
  = List.map (fun r => set_field g (h r) (fillna_group_mean g df r)) df.
Proof.
  intros Hc Hg. unfold impute. rewrite List.map_map.
  apply List.map_ext. intros r. f_equal.
  unfold fillna_group_mean. rewrite Hc, Hg.
  destruct (category r) as [c|]; [|reflexivity].
  rewrite group_map by exact Hc. rewrite List.map_map.
  f_equal. f_equal. apply List.map_ext. exact Hg.
Qed.

Lemma impute_all_rows df : impute_all df = List.map (imputed_row df) df.
Proof.
  unfold impute_all, price_fields. simpl.
  unfold impute at 4.
  rewrite impute_map by (intros r; reflexivity).
  rewrite impute_map by (intros r; reflexivity).
  rewrite impute_map by (intros r; reflexivity).
  apply List.map_ext. intros r. reflexivity.
Qed.

Lemma get_imputed_row (f : price_field) df r :
  get_field f (imputed_row df r) = fillna_group_mean f df r.
Proof. destruct f; reflexivity. Qed.

Lemma nanmean_all_null (xs : list F64.float) :
  (forall x, In x xs -> F64.isna x = true) -> F64.nanmean xs = F64.nan.
Proof.
  intros Hnull. unfold F64.nanmean.
  replace (List.filter (fun x => negb (F64.isna x)) xs) with (@nil F64.float);
    [reflexivity|].
  induction xs as [|x xs IH]; simpl; [reflexivity|].
  rewrite (Hnull x) by now left. simpl.
  apply IH. intros y Hy. apply Hnull. now right.
Qed.

End Imputation.

(** ** The sum and the mean of a column *)

Lemma pairwise_sum_eq (fuel : nat) (a : list F64.float) :
  F64.pairwise_sum fuel a
  = if Nat.ltb (List.length a) 8 then List.fold_left F64.add a F64.neg_zero
    else if Nat.leb (List.length a) 128 then F64.block_sum a
    else
      match fuel with
      | O => F64.nan
      | S fuel' =>
          let n2 := (Nat.div (List.length a) 2
                     - Nat.modulo (Nat.div (List.length a) 2) 8)%nat in
          F64.add (F64.pairwise_sum fuel' (List.firstn n2 a))
                  (F64.pairwise_sum fuel' (List.skipn n2 a))
      end.
Proof. destruct fuel; reflexivity. Qed.

(** The length of the array is fuel enough, and more fuel changes
    nothing. *)
Lemma pairwise_sum_fuel (fuel : nat) :
  forall (a : list F64.float) (fuel' : nat),
    (List.length a <= fuel)%nat -> (List.length a <= fuel')%nat ->
    F64.pairwise_sum fuel a = F64.pairwise_sum fuel' a.
Proof.
  induction fuel as [|fuel IH]; intros a fuel' Hf Hf';
    rewrite (pairwise_sum_eq _ a), (pairwise_sum_eq fuel' a).
  - destruct a; [reflexivity|simpl in Hf; lia].
  - destruct (Nat.ltb (List.length a) 8) eqn:H8; [reflexivity|].
    destruct (Nat.leb (List.length a) 128) eqn:H128; [reflexivity|].
    apply Nat.leb_gt in H128.
    destruct fuel' as [|fuel']; [lia|]. cbv zeta.
    set (n := List.length a) in *.
    assert (Hn2 : (57 <= Nat.div n 2 - Nat.modulo (Nat.div n 2) 8 <= Nat.div n 2)%nat).
    { pose proof (Nat.mod_upper_bound (Nat.div n 2) 8 ltac:(lia)).
      assert (64 <= Nat.div n 2)%nat by (apply Nat.div_le_lower_bound; lia).
      lia. }
    assert (Hhalf : (Nat.div n 2 < n)%nat) by (apply Nat.div_lt; lia).
    f_equal; apply IH; rewrite ?List.length_firstn, ?List.length_skipn; fold n; lia.
Qed.

Lemma add_neg_zero_l (x : F64.float) : F64.add F64.neg_zero x = x.
Proof. destruct x as [[|]| | |]; reflexivity. Qed.

Lemma add_zero_l (x : F64.float) : x <> F64.neg_zero -> F64.add F64.zero x = x.
Proof. destruct x as [[|]| | |]; intros Hx; try reflexivity. now elim Hx. Qed.

(** With a 0.0 among the values, the sum from the left is the same from
    -0.0 and from 0.0. *)
Lemma fold_add_from_zero (a : list F64.float) :
  In F64.zero a ->
  List.fold_left F64.add a F64.neg_zero = List.fold_left F64.add a F64.zero.
Proof.
  induction a as [|x a IH]; [contradiction|].
  intros Hin. cbn [List.fold_left]. rewrite add_neg_zero_l.
  destruct x as [[|]| | |]; try (rewrite add_zero_l by discriminate; reflexivity).
  change (F64.add F64.zero (S754_zero true)) with F64.zero.
  apply IH. destruct Hin as [Hz|Hin]; [discriminate Hz|exact Hin].
Qed.

Lemma np_sum_short (a : list F64.float) :
  In F64.zero a -> (List.length a < 8)%nat ->
  F64.np_sum a = List.fold_left F64.add a F64.zero.
Proof.
  intros Hin Hlen. unfold F64.np_sum. rewrite pairwise_sum_eq.
  apply Nat.ltb_lt in Hlen. rewrite Hlen. now apply fold_add_from_zero.
Qed.

Lemma np_sum_split (a : list F64.float) :
  (128 < List.length a)%nat ->
  let n2 := (Nat.div (List.length a) 2
             - Nat.modulo (Nat.div (List.length a) 2) 8)%nat in
  F64.np_sum a
  = F64.add (F64.np_sum (List.firstn n2 a)) (F64.np_sum (List.skipn n2 a)).
Proof.
  intros Hlen n2. unfold F64.np_sum. rewrite (pairwise_sum_eq _ a).
  assert (H8 : Nat.ltb (List.length a) 8 = false) by (apply Nat.ltb_ge; lia).
  assert (H128 : Nat.leb (List.length a) 128 = false) by (apply Nat.leb_gt; lia).
  rewrite H8, H128.
  destruct (List.length a) as [|n] eqn:Hn; [lia|]. cbv zeta. fold n2.
  assert (Hn2 : (57 <= n2 <= Nat.div (S n) 2)%nat).
  { unfold n2. pose proof (Nat.mod_upper_bound (Nat.div (S n) 2) 8 ltac:(lia)).
    assert (64 <= Nat.div (S n) 2)%nat by (apply Nat.div_le_lower_bound; lia).
    lia. }
  assert (Hhalf : (Nat.div (S n) 2 < S n)%nat) by (apply Nat.div_lt; lia).
  f_equal; apply pairwise_sum_fuel;
    rewrite ?List.length_firstn, ?List.length_skipn, ?Hn; lia.
Qed.

Lemma add_lanes_length (r x : list F64.float) :
  (List.length r <= List.length x)%nat ->
  List.length (F64.add_lanes r x) = List.length r.
Proof.
  revert x. induction r as [|a r IH]; intros [|b x]; simpl; intros Hl;
    try reflexivity; try lia.
  f_equal. apply IH. lia.
Qed.

Lemma nth_add_lanes (k : nat) :
  forall r x : list F64.float,
    List.length r = List.length x -> (k < List.length r)%nat ->
    List.nth k (F64.add_lanes r x) F64.nan
    = F64.add (List.nth k r F64.nan) (List.nth k x F64.nan).
Proof.
  induction k as [|k IH]; intros [|a r] [|b x]; simpl; intros Hl Hk;
    try lia; try reflexivity.
  apply IH; lia.
Qed.

Lemma accumulate_concat (bs : list (list F64.float)) :
  forall (r rest : list F64.float),
    Forall (fun x => List.length x = 8%nat) bs ->
    F64.accumulate (List.length bs) r (List.concat bs ++ rest)
    = (List.fold_left F64.add_lanes bs r, rest).
Proof.
  induction bs as [|b bs IH]; intros r rest Hbs; [reflexivity|].
  inversion Hbs as [|? ? Hb Hbs']; subst.
  cbn [List.length List.concat F64.accumulate List.fold_left].
  rewrite <- List.app_assoc.
  rewrite List.firstn_app, List.skipn_app, Hb, Nat.sub_diag.
  rewrite <- Hb at 1. rewrite List.firstn_all.
  rewrite <- Hb at 1. rewrite List.skipn_all.
  cbn [List.firstn List.skipn List.app]. rewrite List.app_nil_r.
  now apply IH.
Qed.

Lemma fold_add_lanes (k : nat) (bs : list (list F64.float)) :
  forall r : list F64.float,
    List.length r = 8%nat -> (k < 8)%nat ->
    Forall (fun x => List.length x = 8%nat) bs ->
    List.length (List.fold_left F64.add_lanes bs r) = 8%nat
    /\ List.nth k (List.fold_left F64.add_lanes bs r) F64.nan
       = List.fold_left F64.add (List.map (fun x => List.nth k x F64.nan) bs)
           (List.nth k r F64.nan).
Proof.
  induction bs as [|b bs IH]; intros r Hr Hk Hbs; [now split|].
  inversion Hbs as [|? ? Hb Hbs']; subst. cbn [List.fold_left List.map].
  rewrite <- nth_add_lanes by lia.
  apply IH; [|exact Hk|exact Hbs'].
  rewrite add_lanes_length; lia.
Qed.

Lemma combine_lanes_nth (r : list F64.float) :
  List.length r = 8%nat ->
  F64.combine_lanes r
  = F64.add
      (F64.add (F64.add (List.nth 0 r F64.nan) (List.nth 1 r F64.nan))
               (F64.add (List.nth 2 r F64.nan) (List.nth 3 r F64.nan)))
      (F64.add (F64.add (List.nth 4 r F64.nan) (List.nth 5 r F64.nan))
               (F64.add (List.nth 6 r F64.nan) (List.nth 7 r F64.nan))).
Proof.
  intros Hr.
  do 8 (destruct r as [|? r]; [discriminate Hr|]).
  destruct r; [reflexivity|discriminate Hr].
Qed.

Lemma concat_length_8 (bs : list (list F64.float)) :
  Forall (fun x => List.length x = 8%nat) bs ->
  List.length (List.concat bs) = (8 * List.length bs)%nat.
Proof.
  induction 1 as [|b bs Hb _ IH]; [reflexivity|].
  cbn [List.concat List.length]. rewrite List.length_app, Hb, IH. lia.
Qed.

(** A block: the first eight values and then the values of the same
    place in every further run of eight make a lane, summed from the
    left; the eight lanes are added in pairs, and the values left over
    after the last full run are added to that, one by one. *)
Lemma np_sum_block (b : list F64.float) (bs : list (list F64.float))
    (rest : list F64.float) :
  List.length b = 8%nat ->
  Forall (fun x => List.length x = 8%nat) bs ->
  (List.length rest < 8)%nat ->
  (8 + 8 * List.length bs + List.length rest <= 128)%nat ->
  let lane k :=
    List.fold_left F64.add (List.map (fun x => List.nth k x F64.nan) bs)
      (List.nth k b F64.nan) in
  F64.np_sum (b ++ List.concat bs ++ rest)
  = List.fold_left F64.add rest
      (F64.add (F64.add (F64.add (lane 0%nat) (lane 1%nat))
                        (F64.add (lane 2%nat) (lane 3%nat)))
               (F64.add (F64.add (lane 4%nat) (lane 5%nat))
                        (F64.add (lane 6%nat) (lane 7%nat)))).
Proof.
  intros Hb Hbs Hrest Hlen lane.
  assert (Hn : List.length (b ++ List.concat bs ++ rest)
               = (List.length rest + (1 + List.length bs) * 8)%nat).
  { rewrite !List.length_app, Hb, (concat_length_8 bs Hbs). lia. }
  unfold F64.np_sum. rewrite pairwise_sum_eq, Hn.
  assert (H8 : Nat.ltb (List.length rest + (1 + List.length bs) * 8) 8 = false)
    by (apply Nat.ltb_ge; lia).
  assert (H128 : Nat.leb (List.length rest + (1 + List.length bs) * 8) 128 = true)
    by (apply Nat.leb_le; lia).
  rewrite H8, H128. unfold F64.block_sum. rewrite Hn.
  rewrite Nat.div_add by lia. rewrite (Nat.div_small _ 8) by lia.
  replace (0 + (1 + List.length bs) - 1)%nat with (List.length bs) by lia.
  rewrite List.firstn_app, List.skipn_app, Hb, Nat.sub_diag.
  rewrite <- Hb at 1. rewrite List.firstn_all.
  rewrite <- Hb at 1. rewrite List.skipn_all.
  cbn [List.firstn List.skipn List.app]. rewrite List.app_nil_r.
  rewrite (accumulate_concat bs b rest Hbs).
  destruct (fold_add_lanes 0 bs b Hb ltac:(lia) Hbs) as (Hl & H0).
  rewrite (combine_lanes_nth _ Hl).
  rewrite H0.
  rewrite (proj2 (fold_add_lanes 1 bs b Hb ltac:(lia) Hbs)).
  rewrite (proj2 (fold_add_lanes 2 bs b Hb ltac:(lia) Hbs)).
  rewrite (proj2 (fold_add_lanes 3 bs b Hb ltac:(lia) Hbs)).
  rewrite (proj2 (fold_add_lanes 4 bs b Hb ltac:(lia) Hbs)).
  rewrite (proj2 (fold_add_lanes 5 bs b Hb ltac:(lia) Hbs)).
  rewrite (proj2 (fold_add_lanes 6 bs b Hb ltac:(lia) Hbs)).
  rewrite (proj2 (fold_add_lanes 7 bs b Hb ltac:(lia) Hbs)).
  reflexivity.
Qed.

Lemma nanmean_filled (xs : list F64.float) :
  F64.nanmean xs
  = match List.length
            (List.filter (fun v => match v with S754_nan => false | _ => true end) xs)
    with
    | O => S754_nan
    | S n =>
        F64.div
          (F64.np_sum
             (List.map (fun v => match v with S754_nan => S754_zero false | _ => v end)
                xs))
          (F64.of_Z (Z.of_nat (S n)))
    end.
Proof.
  unfold F64.nanmean.
  rewrite (List.filter_ext (fun x => negb (F64.isna x))
             (fun v => match v with S754_nan => false | _ => true end))
    by (intros [| | |]; reflexivity).
  rewrite (List.map_ext (fun x => F64.fillna x F64.zero)
             (fun v => match v with S754_nan => S754_zero false | _ => v end))
    by (intros [| | |]; reflexivity).
  cbv zeta. destruct (List.length _); reflexivity.
Qed.

(** The group of a category is made of the records that carry it. *)
Lemma group_same_category {P R A Q} (df : list (Row P R A Q)) (c : str) :
  group df c
  = List.filter
      (fun y => match category y with
                | Some c' => if list_eq_dec N.eq_dec c' c then true else false
                | None => false
                end) df.
Proof.
  unfold group. apply List.filter_ext. intros y.
  destruct (category y); reflexivity.
Qed.

(** C2. The imputation gives every record that has a category, for each
    of the four price fields: if the value is null, the mean of the
    non-null values of the field among the records of [df] that have the
    same category; if the value is not null, the value itself; and a null
    again if every record of the category has a null there.

    The mean is the one [Series.mean] computes on a column with a null:
    the nulls count as 0.0 in the sum and the sum is divided by the number
    of non-null values. numpy sums fewer than eight values from the left;
    up to 128 values are summed in eight lanes that are then added in
    pairs; a longer column is split near its middle and the sums of the
    two parts are added.

    A category with the prices null, 10.00 and 20.00 gets 15.00 for the
    null, also with the records of another category in between; ten
    prices 0.10 and a null give the float 0.1. *)
Theorem groupwise_imputation {R A Q : Type} (df : list (Row F64.float R A Q)) :
  Forall2
    (fun r r' =>
       forall (f : price_field) (c : str),
         category r = Some c ->
         let same_category :=
           List.filter
             (fun y => match category y with
                       | Some c' => if list_eq_dec N.eq_dec c' c then true else false
                       | None => false
                       end) df in
         let x := List.map (get_field f) same_category in
         (F64.isna (get_field f r) = true -> get_field f r' = F64.nanmean x)
         /\ (F64.isna (get_field f r) = false -> get_field f r' = get_field f r)
         /\ ((forall v, In v x -> F64.isna v = true) ->
             F64.isna (get_field f r') = true))
    df (impute_all df)
  /\ List.map price (impute_all Samples.null_10_20)
     = [F64.of_Z 15; F64.of_Z 10; F64.of_Z 20]
  /\ (forall xs : list F64.float,
        In S754_nan xs ->
        let filled :=
          List.map (fun v => match v with S754_nan => S754_zero false | _ => v end) xs in
        let count :=
          List.length
            (List.filter (fun v => match v with S754_nan => false | _ => true end) xs) in
        F64.nanmean xs
        = match count with
          | O => S754_nan
          | S _ => SFdiv 53 1024 (F64.np_sum filled)
                     (binary_normalize 53 1024 (Z.of_nat count) 0 false)
          end)
  /\ (forall a : list F64.float,
        In (S754_zero false) a -> (List.length a < 8)%nat ->
        F64.np_sum a = List.fold_left (SFadd 53 1024) a (S754_zero false))
  /\ (forall (b : list F64.float) (bs : list (list F64.float)) (rest : list F64.float),
        List.length b = 8%nat ->
        Forall (fun blk => List.length blk = 8%nat) bs ->
        (List.length rest < 8)%nat ->
        (8 + 8 * List.length bs + List.length rest <= 128)%nat ->
        let lane k :=
          List.fold_left (SFadd 53 1024)
            (List.map (fun blk => List.nth k blk S754_nan) bs)
            (List.nth k b S754_nan) in
        F64.np_sum (b ++ List.concat bs ++ rest)
        = List.fold_left (SFadd 53 1024) rest
            (SFadd 53 1024
               (SFadd 53 1024 (SFadd 53 1024 (lane 0%nat) (lane 1%nat))
                              (SFadd 53 1024 (lane 2%nat) (lane 3%nat)))
               (SFadd 53 1024 (SFadd 53 1024 (lane 4%nat) (lane 5%nat))
                              (SFadd 53 1024 (lane 6%nat) (lane 7%nat)))))
  /\ (forall a : list F64.float,
        (128 < List.length a)%nat ->
        let half := Nat.div (List.length a) 2 in
        let n2 := (half - Nat.modulo half 8)%nat in
        F64.np_sum a
        = SFadd 53 1024 (F64.np_sum (List.firstn n2 a))
                        (F64.np_sum (List.skipn n2 a)))
  /\ List.map price (impute_all Samples.null_and_ten_tenths)
     = List.repeat (S754_finite false 7205759403792794 (-56)) 11
  /\ List.map price (impute_all Samples.two_categories)
     = [F64.of_Z 15; F64.of_Z 40; F64.of_Z 10; F64.of_Z 40; F64.of_Z 20].
Proof.
  split; [|split; [vm_compute; reflexivity|]].
  { rewrite impute_all_rows. apply Forall2_map_right.
    intros r Hr f c Hc same_category x.
    assert (Hx : x = List.map (get_field f) (group df c))
      by (unfold x, same_category; now rewrite group_same_category).
    rewrite get_imputed_row. unfold fillna_group_mean. rewrite Hc, <- Hx.
    unfold F64.fillna. repeat split.
    - now intros ->.
    - now intros ->.
    - intros Hall. rewrite (nanmean_all_null x Hall).
      destruct (F64.isna (get_field f r)) eqn:Hn; [reflexivity|].
      assert (Hin : In (get_field f r) x).
      { unfold x, same_category. apply List.in_map, List.filter_In.
        split; [exact Hr|]. rewrite Hc.
        destruct (list_eq_dec N.eq_dec c c); congruence. }
      rewrite (Hall _ Hin) in Hn. discriminate. }
  split.
  { intros xs _ filled count. rewrite nanmean_filled. fold count.
    destruct count; reflexivity. }
  split; [exact np_sum_short|].
  split; [exact np_sum_block|].
  split; [exact np_sum_split|].
  split; vm_compute; reflexivity.
Qed.

(** C10. A record without category when the imputation runs is returned
    with the category "Others", and each of its price fields that was null
    is still null: it got no mean, neither of a group nor of "Others". *)
Theorem null_category_not_imputed `{Builtins}
    (books : list RawBook) (df : list Book) (l : list LogRecord) :
  transform_data books = (Returns df, l) ->
  Forall2
    (fun r0 r =>
       category r0 = None ->
       category r = Some (lit "Others")
       /\ forall f : price_field,
            F64.isna (get_field f r0) = true -> F64.isna (get_field f r) = true)
    (frame_at_imputation books) df.
Proof.
  intros Ht. apply transform_data_inv in Ht as [_ ->].
  unfold reconciled, frame_at_checks.
  rewrite impute_all_rows. rewrite !List.map_map.
  apply Forall2_map_right. intros r0 _ Hc.
  unfold imputed_row, fillna_group_mean. rewrite Hc.
  unfold repair_price_row, repair_tax_row, price_inconsistent, tax_inconsistent,
    price_mismatch, price_diff.
  cbn. rewrite Hc.
  split; [reflexivity|].
  intros f _. destruct f; reflexivity.
Qed.

(** A record without category and without prices is returned with the
    category "Others" and no price, although a record of the category
    "Others" has prices. *)
Lemma null_category_not_imputed_witness :
  List.map (fun r => (category r, F64.isna (price r)))
           (@reconciled Reference.builtins Samples.no_category)
  = [(Some (lit "Others"), true); (Some (lit "Others"), false)]
  /\ Forall2
       (fun r0 r =>
          category r0 = None ->
          category r = Some (lit "Others")
          /\ forall f : price_field,
               F64.isna (get_field f r0) = true -> F64.isna (get_field f r) = true)
       (@frame_at_imputation Reference.builtins Samples.no_category)
       (@reconciled Reference.builtins Samples.no_category).
Proof.
  split; [vm_compute; reflexivity|].
  apply (@null_category_not_imputed Reference.builtins Samples.no_category _
           (logged (@transform_data Reference.builtins Samples.no_category))).
  vm_compute. reflexivity.
Defined.

(** ** Strings *)

Lemma startswith_app (s p : str) :
  startswith s p = true <-> exists rest, s = p ++ rest.
Proof.
  revert s. induction p as [|a p IH]; intros s; simpl.
  - split; [intros _; now exists s | reflexivity].
  - destruct s as [|b s].
    + split; [discriminate | intros (rest & Hr); discriminate].
    + rewrite Bool.andb_true_iff, N.eqb_eq, IH. split.
      * intros (-> & rest & ->). now exists rest.
      * intros (rest & Hr). injection Hr as -> ->. split; [reflexivity|now exists rest].
Qed.

Lemma contains_app (sub s : str) :
  contains sub s = true <-> exists pre post, s = pre ++ sub ++ post.
Proof.
  induction s as [|c s IH]; simpl.
  - rewrite Bool.orb_false_r, startswith_app. split.
    + intros (rest & ->). now exists [], rest.
    + intros (pre & post & Hs). destruct pre; [now exists post|discriminate].
  - rewrite Bool.orb_true_iff, startswith_app, IH. split.
    + intros [(rest & ->)|(pre & post & ->)].
      * now exists [], rest.
      * now exists (c :: pre), post.
    + intros (pre & post & Hs). destruct pre as [|a pre].
      * left. now exists post.
      * right. injection Hs as -> ->. now exists pre, post.
Qed.

(** Removing a character that does not occur changes nothing. *)
Lemma replace_absent (c : char) (s : str) :
  ~ In c s -> replace s [c] [] = s.
Proof.
  unfold replace. induction s as [|a s IH]; simpl; intros Hn; [reflexivity|].
  destruct (N.eqb_spec c a) as [->|Hne]; [exfalso; apply Hn; now left|].
  simpl. f_equal. apply IH. intros Hin. apply Hn. now right.
Qed.

Lemma replace_head (c : char) (s : str) :
  replace (c :: s) [c] [] = replace s [c] [].
Proof. unfold replace. simpl. now rewrite N.eqb_refl. Qed.

(** ** [convert_to_pounds] *)

Section ConvertFacts.
Context `{Builtins}.

Lemma convert_pound (raw : str) :
  startswith (strip (replace raw A_circumflex [])) pound_sign = true ->
  exists l,
    convert_to_pounds (Some raw)
    = (Returns (py_float (replace (strip (replace raw A_circumflex [])) pound_sign [])), l)
    /\ (py_float (replace (strip (replace raw A_circumflex [])) pound_sign []) = None ->
        exists a, l = [mkLog ERROR "Error converting price %s: %s" a]).
Proof.
  intros Hp. unfold convert_to_pounds.
  destruct raw as [|c raw]; [discriminate Hp|]. simpl negb. cbv iota.
  rewrite Hp. unfold float_.
  destruct (py_float _); simpl; eexists; split; eauto; discriminate.
Qed.

Lemma convert_dollar (raw : str) :
  startswith (strip (replace raw A_circumflex [])) pound_sign = false ->
  startswith (strip (replace raw A_circumflex [])) dollar_sign = true ->
  exists l,
    convert_to_pounds (Some raw)
    = (Returns
         (option_map (fun value => F64.round2 (F64.mul value F64.lit_0_75))
            (py_float (replace (strip (replace raw A_circumflex [])) dollar_sign []))), l)
    /\ (py_float (replace (strip (replace raw A_circumflex [])) dollar_sign []) = None ->
        exists a, l = [mkLog ERROR "Error converting price %s: %s" a]).
Proof.
  intros Hp Hd. unfold convert_to_pounds.
  destruct raw as [|c raw]; [discriminate Hd|]. simpl negb. cbv iota.
  rewrite Hp, Hd. unfold float_.
  destruct (py_float _); simpl; eexists; split; eauto; discriminate.
Qed.

Lemma convert_other (raw : str) :
  raw <> [] ->
  startswith (strip (replace raw A_circumflex [])) pound_sign = false ->
  startswith (strip (replace raw A_circumflex [])) dollar_sign = false ->
  exists a,
    convert_to_pounds (Some raw)
    = (Returns None, [mkLog ERROR "Unknown currency in price: %s" a]).
Proof.
  intros Hne Hp Hd. unfold convert_to_pounds.
  destruct raw as [|c raw]; [congruence|]. simpl negb. cbv iota.
  rewrite Hp, Hd. simpl. eauto.
Qed.

End ConvertFacts.

(** ** Rounding to two decimals *)

(** [div_half_even n d] is the integer nearest to [n / d], the even one of
    the two when [n / d] is half-way between them. *)
Lemma div_half_even_nearest (n d : Z) :
  0 <= n -> 0 < d ->
  0 <= F64.div_half_even n d
  /\ 2 * Z.abs (n - F64.div_half_even n d * d) <= d
  /\ (2 * Z.abs (n - F64.div_half_even n d * d) = d ->
      Z.even (F64.div_half_even n d) = true).
Proof.
  intros Hn Hd. unfold F64.div_half_even.
  pose proof (Z.div_mod n d ltac:(lia)) as Hdm.
  pose proof (Z.mod_pos_bound n d Hd) as Hr.
  pose proof (Z.div_pos n d Hn Hd) as Hq.
  set (q := n / d) in *. set (r := n mod d) in *.
  assert (E0 : n - q * d = r) by lia.
  assert (E1 : n - (q + 1) * d = r - d) by lia.
  destruct (Z.compare_spec (2 * r) d) as [He|Hlt|Hgt].
  - destruct (Z.even q) eqn:Hev.
    + rewrite E0. repeat split; [lia|lia|auto].
    + rewrite E1. repeat split; [lia|lia|].
      intros _. rewrite Z.add_1_r, Z.even_succ, <- Z.negb_even, Hev. reflexivity.
  - rewrite E0. repeat split; lia.
  - rewrite E1. repeat split; lia.
Qed.

(** [round2] of a finite float [(-1)^s * m * 2^e]: with [h] the whole
    number of hundredths nearest to [m * 2^e * 100] (the even one in a
    tie), the result is the float nearest to [h / 100], with the sign of
    the float. *)
Lemma round2_nearest (s : bool) (m : positive) (e : Z) :
  let num := Zpos m * 100 * 2 ^ Z.max e 0 in
  let den := 2 ^ Z.max (- e) 0 in
  exists h : Z,
    0 <= h
    /\ 2 * Z.abs (num - h * den) <= den
    /\ (2 * Z.abs (num - h * den) = den -> Z.even h = true)
    /\ F64.round2 (S754_finite s m e)
       = match h with
         | Zpos p => F64.div (S754_finite s p 0) (S754_finite false 100 0)
         | _ => S754_zero s
         end.
Proof.
  intros num den. unfold F64.round2.
  destruct (0 <=? e) eqn:He.
  - apply Z.leb_le in He.
    assert (Hp : 0 < 2 ^ e) by (apply Z.pow_pos_nonneg; lia).
    exists (Zpos m * 2 ^ e * 100). unfold num, den.
    rewrite (Z.max_l e 0), (Z.max_r (- e) 0) by lia.
    change (2 ^ 0) with 1.
    replace (Zpos m * 100 * 2 ^ e - Zpos m * 2 ^ e * 100 * 1) with 0 by ring.
    simpl Z.abs. repeat split; [nia|lia|lia].
  - apply Z.leb_gt in He.
    assert (Hp : 0 < 2 ^ (- e)) by (apply Z.pow_pos_nonneg; lia).
    exists (F64.div_half_even (Zpos m * 100) (2 ^ (- e))). unfold num, den.
    rewrite (Z.max_r e 0), (Z.max_l (- e) 0) by lia.
    change (2 ^ 0) with 1. rewrite Z.mul_1_r.
    destruct (div_half_even_nearest (Zpos m * 100) (2 ^ (- e)) ltac:(lia) Hp)
      as (H0 & Hnear & Htie).
    repeat split; assumption.
Qed.

(** C5. With [s] the price string after the removal of the stray letter
    and of the surrounding white space: if [s] starts with the pound sign,
    the result is [float] of [s] without its pound signs (of the rest of
    [s], when no other pound sign follows); if [s] starts with the dollar
    sign, the result is [round(value * 0.75, 2)] for the [value] read the
    same way; with any other prefix, and for an absent string, the result
    is null. A rejection by [float] gives null in both cases.

    The rounding to two decimals is that of Python's [round]: a finite
    float [(-1)^sg * m * 2^e] goes to the float nearest to [h / 100], where
    [h] is the whole number nearest to [m * 2^e * 100], the even one of the
    two in a tie; NaN, the infinities and the zeros are returned as they
    are. So "$10.00" gives 7.5, "$9.99" gives 7.49 (from 7.4925), "$3.50"
    gives 2.62 (from the tie 2.625), "$0.01" gives 0.01 (from 0.0075) and
    "$51.77" gives 38.83 (from 38.8275). *)
Theorem price_normalization `{Builtins} (raw : str) :
  let s := strip (replace raw A_circumflex []) in
  (forall rest, s = pound_sign ++ rest ->
     result (convert_to_pounds (Some raw)) = Some (py_float (replace s pound_sign []))
     /\ (~ In 163%N rest ->
         result (convert_to_pounds (Some raw)) = Some (py_float rest)))
  /\ (forall rest, s = dollar_sign ++ rest ->
      result (convert_to_pounds (Some raw))
      = Some (option_map (fun value => F64.round2 (F64.mul value F64.lit_0_75))
                (py_float (replace s dollar_sign [])))
      /\ (~ In 36%N rest ->
          result (convert_to_pounds (Some raw))
          = Some (option_map (fun value => F64.round2 (F64.mul value F64.lit_0_75))
                    (py_float rest))))
  /\ ((forall rest, s <> pound_sign ++ rest) ->
      (forall rest, s <> dollar_sign ++ rest) ->
      result (convert_to_pounds (Some raw)) = Some None)
  /\ result (convert_to_pounds None) = Some None
  /\ result (@convert_to_pounds Reference.builtins (Samples.usd "10.00"))
     = Some (Some (F64.div (F64.of_Z 15) (F64.of_Z 2)))
  /\ (forall (sg : bool) (m : positive) (e : Z),
        let num := Zpos m * 100 * 2 ^ Z.max e 0 in
        let den := 2 ^ Z.max (- e) 0 in
        exists h : Z,
          0 <= h
          /\ 2 * Z.abs (num - h * den) <= den
          /\ (2 * Z.abs (num - h * den) = den -> Z.even h = true)
          /\ F64.round2 (S754_finite sg m e)
             = match h with
               | Zpos p => SFdiv 53 1024 (S754_finite sg p 0) (S754_finite false 100 0)
               | _ => S754_zero sg
               end)
  /\ (forall sg : bool,
        F64.round2 S754_nan = S754_nan
        /\ F64.round2 (S754_infinity sg) = S754_infinity sg
        /\ F64.round2 (S754_zero sg) = S754_zero sg)
  /\ F64.lit_0_75 = SFdiv 53 1024 (S754_finite false 3 0) (S754_finite false 4 0)
  /\ List.map (fun amount => result (@convert_to_pounds Reference.builtins
                                       (Samples.usd amount)))
       ["10.00"; "9.99"; "3.50"; "0.01"; "51.77"]%string
     = [Some (Some (S754_finite false 8444249301319680 (-50)));
        Some (Some (S754_finite false 8432990302251254 (-50)));
        Some (Some (S754_finite false 5899715511855350 (-51)));
        Some (Some (S754_finite false 5764607523034235 (-59)));
        Some (Some (S754_finite false 5464836672837386 (-47)))].
Proof.
  intros s. refine (conj _ (conj _ (conj _ (conj _ (conj _ _))))).
  - intros rest Hs.
    assert (Hp : startswith s pound_sign = true) by (apply startswith_app; eauto).
    destruct (convert_pound raw Hp) as (l & -> & _). fold s.
    split; [reflexivity|]. intros Hno.
    rewrite Hs. unfold pound_sign at 1 2. simpl app.
    rewrite replace_head, replace_absent by exact Hno. reflexivity.
  - intros rest Hs.
    assert (Hd : startswith s dollar_sign = true) by (apply startswith_app; eauto).
    assert (Hp : startswith s pound_sign = false) by (rewrite Hs; reflexivity).
    destruct (convert_dollar raw Hp Hd) as (l & -> & _). fold s.
    split; [reflexivity|]. intros Hno.
    rewrite Hs. unfold dollar_sign at 1 2. simpl app.
    rewrite replace_head, replace_absent by exact Hno. reflexivity.
  - intros Hnp Hnd.
    assert (Hp : startswith s pound_sign = false).
    { destruct (startswith s pound_sign) eqn:E; [|reflexivity].
      apply startswith_app in E as (rest & E). now apply Hnp in E. }
    assert (Hd : startswith s dollar_sign = false).
    { destruct (startswith s dollar_sign) eqn:E; [|reflexivity].
      apply startswith_app in E as (rest & E). now apply Hnd in E. }
    destruct raw as [|c raw]; [reflexivity|].
    destruct (convert_other (c :: raw)) as (a & ->); [discriminate|exact Hp|exact Hd|].
    reflexivity.
  - reflexivity.
  - vm_compute. reflexivity.
  - refine (conj _ (conj _ (conj _ _))).
    + intros sg m e. exact (round2_nearest sg m e).
    + intros sg. repeat split; reflexivity.
    + vm_compute. reflexivity.
    + vm_compute. reflexivity.
Qed.

(** ** The normalisers of the extraction *)

Section NormaliserFacts.
Context `{Builtins}.

Lemma take_digits_decimal (s : str) :
  List.forallb isdecimal (take_digits s) = true.
Proof.
  induction s as [|c s IH]; simpl; [reflexivity|].
  destruct (isdecimal c) eqn:Hc; [|reflexivity].
  change (isdecimal c && List.forallb isdecimal (take_digits s) = true).
  now rewrite Hc, IH.
Qed.

(** What [\d+] matches is a non-empty run of digits. *)
Lemma re_search_digits_run (d g : str) :
  re_search_digits d = Some g ->
  g <> [] /\ List.forallb isdecimal g = true.
Proof.
  induction d as [|c d IH]; simpl; [discriminate|].
  destruct (isdecimal c) eqn:Hc; [|exact IH].
  intros [= <-]. split.
  - discriminate.
  - change (isdecimal c && List.forallb isdecimal (take_digits d) = true).
    now rewrite Hc, take_digits_decimal.
Qed.

Lemma convert_to_pounds_degrades (price_str : option str) :
  exists v l,
    convert_to_pounds price_str = (Returns v, l)
    /\ (forall raw, price_str = Some raw -> raw <> [] -> v = None ->
        exists fmt a, l = [mkLog ERROR fmt a]).
Proof.
  destruct price_str as [raw|].
  2:{ exists None, []. split; [reflexivity|]. discriminate. }
  destruct raw as [|c raw].
  { exists None, []. split; [reflexivity|]. intros raw [= <-]. congruence. }
  destruct (startswith (strip (replace (c :: raw) A_circumflex [])) pound_sign) eqn:Hp.
  { destruct (convert_pound (c :: raw) Hp) as (l & Hr & Hl).
    do 2 eexists. split; [exact Hr|].
    intros raw' _ _ Hv. destruct (Hl Hv) as (a & ->). eauto. }
  destruct (startswith (strip (replace (c :: raw) A_circumflex [])) dollar_sign) eqn:Hd.
  { destruct (convert_dollar (c :: raw) Hp Hd) as (l & Hr & Hl).
    do 2 eexists. split; [exact Hr|].
    intros raw' _ _ Hv.
    destruct (py_float _); [discriminate Hv|].
    destruct (Hl eq_refl) as (a & ->). eauto. }
  destruct (convert_other (c :: raw)) as (a & Hr); [discriminate|exact Hp|exact Hd|].
  do 2 eexists. split; [exact Hr|]. eauto.
Qed.

Lemma extract_reviews_degrades (t n : option str) :
  exists v l,
    extract_reviews t n = (Returns v, l)
    /\ (forall s, n = Some s -> py_int s = None ->
        v = 0 /\ exists fmt a, l = [mkLog ERROR fmt a]).
Proof.
  unfold extract_reviews, int_.
  destruct n as [s|].
  - destruct (py_int s) as [z|] eqn:Hs; simpl; do 2 eexists; (split; [reflexivity|]).
    + intros s' [= <-]. congruence.
    + intros s' _ _. eauto.
  - simpl. do 2 eexists. split; [reflexivity|]. discriminate.
Qed.

(** The quantity is read outside any [try]: it raises exactly when [int]
    refuses the digits the pattern matched, and nothing is logged. *)
Lemma extract_quantity_cases (d : option str) :
  extract_quantity d
  = match d with
    | Some s =>
        match re_search_digits s with
        | Some g =>
            match py_int g with
            | Some n => (Returns (Some n), [])
            | None => (Raises ValueError, [])
            end
        | None => (Returns None, [])
        end
    | None => (Returns None, [])
    end.
Proof.
  unfold extract_quantity, int_.
  destruct d as [s|]; [|reflexivity].
  destruct s as [|c s]; [reflexivity|].
  simpl truthy. cbv iota.
  destruct (re_search_digits (c :: s)) as [g|]; [|reflexivity].
  destruct (py_int g); reflexivity.
Qed.

End NormaliserFacts.

(** ** The reference interpreter reads every run of digits *)

Lemma ascii_digit_cases (c : char) :
  Reference.ascii_digit c = true ->
  In c [48; 49; 50; 51; 52; 53; 54; 55; 56; 57]%N.
Proof.
  unfold Reference.ascii_digit, Reference.digit_value.
  destruct ((48 <=? Z.of_N c) && (Z.of_N c <=? 57)) eqn:Hb; [intros _|discriminate].
  apply Bool.andb_true_iff in Hb as [H1 H2].
  apply Z.leb_le in H1, H2. simpl.
  assert (Hc : (c = 48 \/ c = 49 \/ c = 50 \/ c = 51 \/ c = 52 \/ c = 53 \/ c = 54
                \/ c = 55 \/ c = 56 \/ c = 57)%N) by lia.
  intuition auto.
Qed.

Lemma ascii_digit_not_space (c : char) :
  Reference.ascii_digit c = true -> isspace c = false.
Proof.
  intros Hc. apply ascii_digit_cases in Hc. simpl in Hc.
  repeat (destruct Hc as [<-|Hc]; [reflexivity|]). contradiction.
Qed.

Lemma lstrip_digits (g : str) :
  List.forallb Reference.ascii_digit g = true -> lstrip g = g.
Proof.
  destruct g as [|c g]; simpl; [reflexivity|].
  intros Hg. apply Bool.andb_true_iff in Hg as [Hc _].
  now rewrite (ascii_digit_not_space c Hc).
Qed.

Lemma strip_digits (g : str) :
  List.forallb Reference.ascii_digit g = true -> strip g = g.
Proof.
  intros Hg. unfold strip. rewrite (lstrip_digits g Hg).
  rewrite lstrip_digits, List.rev_involutive; [reflexivity|].
  apply List.forallb_forall. intros c Hc. apply List.in_rev in Hc.
  now apply (proj1 (List.forallb_forall _ _) Hg).
Qed.

Lemma read_sign_digits (g : str) :
  List.forallb Reference.ascii_digit g = true -> Reference.read_sign g = (false, g).
Proof.
  destruct g as [|c g]; simpl; [reflexivity|].
  intros Hg. apply Bool.andb_true_iff in Hg as [Hc _].
  apply ascii_digit_cases in Hc. simpl in Hc.
  repeat (destruct Hc as [<-|Hc]; [reflexivity|]). contradiction.
Qed.

Lemma read_digits_all (g : str) :
  List.forallb Reference.ascii_digit g = true ->
  forall (acc : Z) (n : nat),
    exists v, Reference.read_digits acc n g = (v, (n + List.length g)%nat, []).
Proof.
  induction g as [|c g IH]; intros Hg acc n.
  - exists acc. simpl. now rewrite Nat.add_0_r.
  - cbn [List.forallb] in Hg. apply Bool.andb_true_iff in Hg as [Hc Hg].
    unfold Reference.ascii_digit in Hc.
    cbn [Reference.read_digits List.length].
    destruct (Reference.digit_value c) as [d|]; [|discriminate].
    destruct (IH Hg (10 * acc + d) (S n)) as (v & ->).
    exists v. now rewrite Nat.add_succ_r.
Qed.

(** A run of digits is converted if and only if it is not empty and has
    at most [max_str_digits] digits. *)
Lemma reference_int_digits (g : str) :
  List.forallb Reference.ascii_digit g = true ->
  (g <> [] -> Z.of_nat (List.length g) <= Reference.max_str_digits ->
   exists n, Reference.int_of_str g = Some n)
  /\ (Reference.max_str_digits < Z.of_nat (List.length g) ->
      Reference.int_of_str g = None).
Proof.
  intros Hg. unfold Reference.int_of_str.
  rewrite (strip_digits g Hg), (read_sign_digits g Hg).
  destruct (read_digits_all g Hg 0 O) as (v & ->).
  cbn [Nat.add]. split.
  - intros Hne Hlen.
    destruct g as [|c g]; [congruence|].
    apply Z.leb_le in Hlen. rewrite Hlen. simpl. eauto.
  - intros Hlen. apply Z.leb_gt in Hlen. rewrite Hlen.
    now rewrite Bool.andb_false_r.
Qed.

(** C9. The prices and the number of reviews are normalised without an
    exception, whatever [float] and [int] do: a price that cannot be read
    gives null and one error record, a number of reviews that cannot be
    read gives 0 and one error record. The quantity is not: its [int] is
    called outside any [try], so the normaliser raises [ValueError], and
    logs nothing, exactly when [int] refuses the digits matched in the
    availability text. With the reference interpreter that happens for
    every run of more than 4300 digits and for no shorter one: the text
    "In stock (99...9 available)" with 4301 digits raises, while the same
    4301 digits as a number of reviews give 0 and an error record. *)
Theorem quantity_conversion_raises :
  (forall (B : Builtins) (price_str : option str),
      exists v l,
        @convert_to_pounds B price_str = (Returns v, l)
        /\ (forall raw, price_str = Some raw -> raw <> [] -> v = None ->
            exists fmt a, l = [mkLog ERROR fmt a]))
  /\ (forall (B : Builtins) (t n : option str),
         exists v l,
           @extract_reviews B t n = (Returns v, l)
           /\ (forall s, n = Some s -> @py_int B s = None ->
               v = 0 /\ exists fmt a, l = [mkLog ERROR fmt a]))
  /\ (forall (B : Builtins) (d : option str),
         ((exists e l, @extract_quantity B d = (Raises e, l))
          <-> exists s g, d = Some s /\ @re_search_digits B s = Some g
                          /\ @py_int B g = None)
         /\ (forall e l, @extract_quantity B d = (Raises e, l) ->
             e = ValueError /\ l = []))
  /\ (forall s g : str,
         @re_search_digits Reference.builtins s = Some g ->
         (Z.of_nat (List.length g) <= 4300 ->
          exists n, @extract_quantity Reference.builtins (Some s)
                    = (Returns (Some n), []))
         /\ (4300 < Z.of_nat (List.length g) ->
             @extract_quantity Reference.builtins (Some s)
             = (Raises ValueError, [])))
  /\ @extract_quantity Reference.builtins
       (Some (lit "In stock (" ++ List.repeat 57%N 4301 ++ lit " available)"))
     = (Raises ValueError, [])
  /\ @extract_quantity Reference.builtins
       (Some (lit "In stock (" ++ List.repeat 57%N 4300 ++ lit " available)"))
     = (Returns (Some (10 ^ 4300 - 1)), [])
  /\ @extract_quantity Reference.builtins (Some (lit "In stock (22 available)"))
     = (Returns (Some 22), [])
  /\ @extract_reviews Reference.builtins (Some (lit "A")) (Some (List.repeat 57%N 4301))
     = (Returns 0,
        [mkLog ERROR "Error converting number of reviews for book '%s': %s"
           [AStr (Some (lit "A")); AExn ValueError]]).
Proof.
  split; [intros B; apply convert_to_pounds_degrades|].
  split; [intros B; apply extract_reviews_degrades|].
  split.
  { intros B d. rewrite extract_quantity_cases. split.
    - split.
      + intros (e & l & He).
        destruct d as [s|]; [|discriminate].
        destruct (re_search_digits s) as [g|] eqn:Hg; [|discriminate].
        destruct (py_int g) eqn:Hn; [discriminate|].
        exists s, g. auto.
      + intros (s & g & -> & -> & ->). eauto.
    - intros e l He.
      destruct d as [s|]; [|discriminate].
      destruct (re_search_digits s) as [g|]; [|discriminate].
      destruct (py_int g); [discriminate|].
      injection He as <- <-. auto. }
  split.
  { intros s g Hg.
    destruct (@re_search_digits_run Reference.builtins s g Hg) as (Hne & Hdec).
    destruct (reference_int_digits g Hdec) as (Hshort & Hlong).
    rewrite (@extract_quantity_cases Reference.builtins), Hg.
    change (@py_int Reference.builtins g) with (Reference.int_of_str g).
    split.
    - intros Hlen. destruct (Hshort Hne Hlen) as (n & ->). eauto.
    - intros Hlen. now rewrite (Hlong Hlen). }
  split; [vm_compute; reflexivity|].
  split; [vm_compute; reflexivity|].
  split; vm_compute; reflexivity.
Qed.

(** ** The columns [transform_data] does not impute *)

Lemma dropna_title_map {P R A Q P' R' A' Q'}
    (h : Row P R A Q -> Row P' R' A' Q') (df : list (Row P R A Q)) :
  (forall r, title (h r) = title r) ->
  dropna_title (List.map h df) = List.map h (dropna_title df).
Proof.
  intros Ht. unfold dropna_title.
  induction df as [|r df IH]; simpl; [reflexivity|].
  rewrite Ht. destruct (negb (isnull (title r))); simpl; now rewrite IH.
Qed.

Section ReconciledColumns.
Context `{Builtins}.

(** Each record returned comes from one raw record with a title, in the
    order of the input, and takes these columns from it. *)
Lemma reconciled_columns (books : list RawBook) :
  Forall2
    (fun raw r =>
       title r = title raw
       /\ rating r = map_rating (rating raw)
       /\ availability r = in_stock (availability raw)
       /\ category r = fillna_str (category raw) (lit "Others")
       /\ product_type r = fillna_str (product_type raw) (lit "Books")
       /\ available_quantity r = to_quantity (available_quantity raw))
    (dropna_title (drop_duplicates books)) (reconciled books).
Proof.
  unfold reconciled, frame_at_checks, frame_at_imputation.
  rewrite (dropna_title_map convert_row) by reflexivity.
  rewrite impute_all_rows. rewrite !List.map_map.
  apply Forall2_map_right. intros raw _.
  unfold repair_price_row, repair_tax_row.
  repeat match goal with
         | |- context [if ?b then _ else _] => destruct b
         end; repeat split.
Qed.

Lemma dropna_title_not_null {P R A Q} (df : list (Row P R A Q)) (r : Row P R A Q) :
  In r (dropna_title df) -> title r <> None.
Proof.
  unfold dropna_title. intros Hr. apply List.filter_In in Hr as [_ Hr].
  destruct (title r); [discriminate|discriminate Hr].
Qed.

End ReconciledColumns.

Lemma map_rating_cases (label : option str) :
  (label = Some (lit "One") /\ map_rating label = 1)
  \/ (label = Some (lit "Two") /\ map_rating label = 2)
  \/ (label = Some (lit "Three") /\ map_rating label = 3)
  \/ (label = Some (lit "Four") /\ map_rating label = 4)
  \/ (label = Some (lit "Five") /\ map_rating label = 5)
  \/ (~ In label [Some (lit "One"); Some (lit "Two"); Some (lit "Three");
                  Some (lit "Four"); Some (lit "Five")]
      /\ map_rating label = 0).
Proof.
  destruct label as [s|].
  2:{ do 5 right. split; [|reflexivity]. simpl. intuition discriminate. }
  unfold map_rating, rating_map, str_eqb.
  destruct (list_eq_dec N.eq_dec s (lit "One")) as [->|H1]; [tauto|].
  destruct (list_eq_dec N.eq_dec s (lit "Two")) as [->|H2]; [tauto|].
  destruct (list_eq_dec N.eq_dec s (lit "Three")) as [->|H3]; [tauto|].
  destruct (list_eq_dec N.eq_dec s (lit "Four")) as [->|H4]; [tauto|].
  destruct (list_eq_dec N.eq_dec s (lit "Five")) as [->|H5]; [tauto|].
  do 5 right. split; [|reflexivity].
  simpl. intros [E|[E|[E|[E|[E|[]]]]]]; injection E as E; congruence.
Qed.

(** C7. The labels "One" to "Five" are mapped to 1 to 5, every other
    label and an absent label to 0; every record [transform_data] returns
    has the rating that belongs to the label of its raw record, so a
    rating among 0, 1, 2, 3, 4, 5. *)
Theorem rating_mapping `{Builtins}
    (books : list RawBook) (df : list Book) (l : list LogRecord) :
  transform_data books = (Returns df, l) ->
  (map_rating (Some (lit "One")) = 1
   /\ map_rating (Some (lit "Two")) = 2
   /\ map_rating (Some (lit "Three")) = 3
   /\ map_rating (Some (lit "Four")) = 4
   /\ map_rating (Some (lit "Five")) = 5)
  /\ (forall label : option str,
         ~ In label [Some (lit "One"); Some (lit "Two"); Some (lit "Three");
                     Some (lit "Four"); Some (lit "Five")] ->
         map_rating label = 0)
  /\ Forall2 (fun raw r => rating r = map_rating (rating raw))
             (dropna_title (drop_duplicates books)) df
  /\ (forall r, In r df -> In (rating r) [0; 1; 2; 3; 4; 5]).
Proof.
  intros Ht. apply transform_data_inv in Ht as [_ ->].
  split; [repeat split|]. split; [|split].
  - intros label Hn.
    destruct (map_rating_cases label) as [[-> _]|[[-> _]|[[-> _]|[[-> _]|[[-> _]|[_ E]]]]]];
      try exact E; exfalso; apply Hn; simpl; tauto.
  - eapply Forall2_impl; [|apply reconciled_columns]. simpl. tauto.
  - intros r Hr.
    destruct (Forall2_In_right _ _ _ (reconciled_columns books) r Hr)
      as (raw & _ & _ & -> & _).
    destruct (map_rating_cases (rating raw))
      as [[_ ->]|[[_ ->]|[[_ ->]|[[_ ->]|[[_ ->]|[_ ->]]]]]]; simpl; tauto.
Qed.

(** The sample record with the label "Three" is returned with the rating
    3. *)
Lemma rating_mapping_witness :
  List.map rating (@reconciled Reference.builtins Samples.inconsistent_tax) = [3]
  /\ (map_rating (Some (lit "One")) = 1
      /\ map_rating (Some (lit "Two")) = 2
      /\ map_rating (Some (lit "Three")) = 3
      /\ map_rating (Some (lit "Four")) = 4
      /\ map_rating (Some (lit "Five")) = 5)
  /\ (forall label : option str,
         ~ In label [Some (lit "One"); Some (lit "Two"); Some (lit "Three");
                     Some (lit "Four"); Some (lit "Five")] ->
         map_rating label = 0)
  /\ Forall2 (fun raw r => rating r = map_rating (rating raw))
             (dropna_title (drop_duplicates Samples.inconsistent_tax))
             (@reconciled Reference.builtins Samples.inconsistent_tax)
  /\ (forall r, In r (@reconciled Reference.builtins Samples.inconsistent_tax) ->
                In (rating r) [0; 1; 2; 3; 4; 5]).
Proof.
  split; [vm_compute; reflexivity|].
  apply (@rating_mapping Reference.builtins Samples.inconsistent_tax _
           (logged (@transform_data Reference.builtins Samples.inconsistent_tax))).
  vm_compute. reflexivity.
Defined.

Lemma in_stock_contains (x : option str) :
  in_stock x = true <->
  exists s pre post, x = Some s /\ s = pre ++ lit "In stock" ++ post.
Proof.
  destruct x as [s|]; unfold in_stock.
  - split.
    + intros Hs.
      destruct (truthy s && contains (lit "In stock") s) eqn:Hb; [|discriminate].
      apply Bool.andb_true_iff in Hb as [_ Hc].
      apply contains_app in Hc as (pre & post & ->).
      now exists (pre ++ lit "In stock" ++ post), pre, post.
    + intros (s' & pre & post & [= <-] & ->).
      assert (Hc : contains (lit "In stock") (pre ++ lit "In stock" ++ post) = true)
        by (apply contains_app; eauto).
      rewrite Hc. destruct pre; reflexivity.
  - split; [discriminate|]. intros (s & _ & _ & Hs & _). discriminate.
Qed.

(** C8. The availability of a record is true exactly when its raw status
    text is present and contains "In stock"; it is false for an absent
    text. Every record [transform_data] returns has the availability of its
    raw record's text. *)
Theorem availability_normalization `{Builtins}
    (books : list RawBook) (df : list Book) (l : list LogRecord) :
  transform_data books = (Returns df, l) ->
  (forall x : option str,
      in_stock x = true <->
      exists s pre post, x = Some s /\ s = pre ++ lit "In stock" ++ post)
  /\ in_stock None = false
  /\ Forall2 (fun raw r => availability r = in_stock (availability raw))
             (dropna_title (drop_duplicates books)) df.
Proof.
  intros Ht. apply transform_data_inv in Ht as [_ ->].
  split; [exact in_stock_contains|]. split; [reflexivity|].
  eapply Forall2_impl; [|apply reconciled_columns]. simpl. tauto.
Qed.

(** The sample record with the text "In stock" is returned available. *)
Lemma availability_normalization_witness :
  List.map availability (@reconciled Reference.builtins Samples.inconsistent_tax)
  = [true]
  /\ (forall x : option str,
         in_stock x = true <->
         exists s pre post, x = Some s /\ s = pre ++ lit "In stock" ++ post)
  /\ in_stock None = false
  /\ Forall2 (fun raw r => availability r = in_stock (availability raw))
             (dropna_title (drop_duplicates Samples.inconsistent_tax))
             (@reconciled Reference.builtins Samples.inconsistent_tax).
Proof.
  split; [vm_compute; reflexivity|].
  apply (@availability_normalization Reference.builtins Samples.inconsistent_tax _
           (logged (@transform_data Reference.builtins Samples.inconsistent_tax))).
  vm_compute. reflexivity.
Defined.

(** ** Duplicates *)

Lemma str_eqb_eq (a b : str) : str_eqb a b = true <-> a = b.
Proof.
  unfold str_eqb. destruct (list_eq_dec N.eq_dec a b); split; congruence.
Qed.

Lemma opt_str_eqb_eq (a b : option str) : opt_str_eqb a b = true <-> a = b.
Proof.
  destruct a as [x|], b as [y|]; simpl; try rewrite str_eqb_eq;
    split; congruence.
Qed.

Lemma opt_Z_eqb_refl (a : option Z) : opt_Z_eqb a a = true.
Proof. destruct a; simpl; [apply Z.eqb_refl|reflexivity]. Qed.

Lemma raw_eqb_refl (r : RawBook) : raw_eqb r r = true.
Proof.
  unfold raw_eqb.
  rewrite !(proj2 (opt_str_eqb_eq _ _) eq_refl), opt_Z_eqb_refl, Z.eqb_refl.
  reflexivity.
Qed.

Lemma raw_eqb_title (a b : RawBook) : raw_eqb a b = true -> title a = title b.
Proof.
  unfold raw_eqb. rewrite !Bool.andb_true_iff.
  intros H. apply opt_str_eqb_eq. tauto.
Qed.

Lemma drop_duplicates_from_sub (seen df : list RawBook) (r : RawBook) :
  In r (drop_duplicates_from seen df) -> In r df.
Proof.
  revert seen. induction df as [|a df IH]; intros seen; simpl; [tauto|].
  destruct (List.existsb (raw_eqb a) seen).
  - intros Hr. right. now apply (IH seen).
  - intros [<-|Hr]; [now left|]. right. now apply (IH (a :: seen)).
Qed.

(** Of every row an equal row is kept, unless an equal row was seen. *)
Lemma drop_duplicates_from_keeps (df seen : list RawBook) (r : RawBook) :
  In r df ->
  List.existsb (raw_eqb r) seen = true
  \/ exists r', In r' (drop_duplicates_from seen df) /\ raw_eqb r r' = true.
Proof.
  revert seen. induction df as [|a df IH]; intros seen; simpl; [tauto|].
  intros [->|Hr].
  - destruct (List.existsb (raw_eqb r) seen) eqn:Hs; [now left|].
    right. exists r. split; [now left|apply raw_eqb_refl].
  - destruct (List.existsb (raw_eqb a) seen) eqn:Hs.
    + apply (IH seen Hr).
    + destruct (IH (a :: seen) Hr) as [Hseen|(r' & Hr' & He)].
      * simpl in Hseen. apply Bool.orb_true_iff in Hseen as [Ha|Hseen].
        -- right. exists a. split; [now left|exact Ha].
        -- now left.
      * right. exists r'. split; [now right|exact He].
Qed.

Lemma drop_duplicates_keeps (df : list RawBook) (r : RawBook) :
  In r df -> exists r', In r' (drop_duplicates df) /\ raw_eqb r r' = true.
Proof.
  intros Hr. destruct (drop_duplicates_from_keeps df [] r Hr) as [Hs|Hk];
    [discriminate Hs|exact Hk].
Qed.

Lemma Forall2_In_left {A B} (P : A -> B -> Prop) (l : list A) (l' : list B) :
  Forall2 P l l' -> forall x, In x l -> exists y, In y l' /\ P x y.
Proof.
  induction 1 as [|a b l l' Hab _ IH]; simpl; intros x Hx; [contradiction|].
  destruct Hx as [<-|Hx].
  - exists b. auto.
  - destruct (IH x Hx) as (y & Hy & Hxy). exists y. auto.
Qed.

(** ** What is written to the store *)

Section StoreFacts.
Context `{Postgres}.

Lemma raw_books_values_title (id : Z) (row : Book) (v : RawBooksRow) :
  raw_books_values id row = Some v -> rb_id v = id /\ rb_title v <> None.
Proof.
  unfold raw_books_values. intros Hv.
  repeat match type of Hv with
         | context [match ?x with _ => _ end] => destruct x; try discriminate
         end.
  injection Hv as <-. simpl. split; [reflexivity|discriminate].
Qed.

Lemma insert_raw_books_rows (df : list Book) :
  forall t t' : Table RawBooksRow,
    insert_raw_books t df = Some t' ->
    exists new,
      rows t' = rows t ++ new
      /\ List.length new = List.length df
      /\ (forall rb, In rb new -> rb_title rb <> None).
Proof.
  induction df as [|row df IH]; intros t t'; simpl.
  - intros [= <-]. exists []. rewrite List.app_nil_r. simpl. tauto.
  - destruct (raw_books_values (nextval t) row) as [v|] eqn:Hv; [|discriminate].
    intros Hins. apply IH in Hins as (new & Hrows & Hlen & Hall). simpl in Hrows.
    exists (v :: new). rewrite Hrows, <- List.app_assoc. simpl.
    repeat split; [now rewrite Hlen|].
    intros rb [<-|Hrb]; [|now apply Hall].
    now apply raw_books_values_title in Hv.
Qed.

Lemma insert_books_details_rows (rbs : list RawBooksRow) :
  forall t t' : Table BooksDetailsRow,
    insert_books_details t rbs = Some t' ->
    (forall rb, In rb rbs -> rb_title rb <> None)
    /\ exists new,
         rows t' = rows t ++ new
         /\ List.map bd_title new = List.map rb_title rbs
         /\ List.map bd_upc new = List.map rb_upc rbs.
Proof.
  induction rbs as [|rb rbs IH]; intros t t'; simpl.
  - intros [= <-]. split; [tauto|]. exists []. rewrite List.app_nil_r. auto.
  - destruct (rb_title rb) as [ti|] eqn:Hti; [|discriminate].
    intros Hins. apply IH in Hins as (Hall & new & Hrows & Hti' & Hupc).
    simpl in Hrows. split.
    + intros rb' [<-|Hrb']; [congruence|now apply Hall].
    + eexists (_ :: new). rewrite Hrows, <- List.app_assoc. simpl.
      rewrite Hti', Hupc. auto.
Qed.

Lemma populate_dimensions_inv (db db' : Db) :
  populate_dimensions db = Some db' ->
  exists pt bd ci ri ai,
    db' = mkDb (raw_books db) pt bd ci ri ai (books_fact db)
    /\ insert_on_conflict_do_nothing str_eq_dec (product_type_table db)
         (select_distinct str_eq_dec
            (List.map rb_product_type (rows (raw_books db)))) = Some pt
    /\ insert_books_details (books_details db) (rows (raw_books db)) = Some bd
    /\ insert_on_conflict_do_nothing str_eq_dec (category_info db)
         (select_distinct str_eq_dec
            (List.map rb_category (rows (raw_books db)))) = Some ci
    /\ insert_on_conflict_do_nothing Z.eq_dec (rating_info db)
         (order_by_asc
            (select_distinct Z.eq_dec
               (List.map rb_rating (rows (raw_books db))))) = Some ri
    /\ insert_on_conflict_do_nothing str_eq_dec (availability_info db)
         (select_distinct str_eq_dec
            (List.map (fun rb => Some (availability_status (rb_availability rb)))
               (rows (raw_books db)))) = Some ai.
Proof.
  unfold populate_dimensions. intros Hp.
  destruct (insert_on_conflict_do_nothing str_eq_dec (product_type_table db) _)
    as [pt|]; [|discriminate].
  destruct (insert_books_details _ _) as [bd|]; [|discriminate].
  destruct (insert_on_conflict_do_nothing str_eq_dec (category_info db) _)
    as [ci|]; [|discriminate].
  destruct (insert_on_conflict_do_nothing Z.eq_dec _ _) as [ri|]; [|discriminate].
  destruct (insert_on_conflict_do_nothing str_eq_dec (availability_info db) _)
    as [ai|]; [|discriminate].
  injection Hp as <-. exists pt, bd, ci, ri, ai. auto 10.
Qed.

End StoreFacts.

(** C6 (as amended). The records [transform_data] returns are the
    records, without duplicates, whose title is not null, in their order:
    a record with a null title is discarded and every record with another
    title, the empty string included, is kept. So the title of a returned
    record is never null, no row [load_to_postgres] writes to [raw_books]
    has a null title, and the rows a successful build writes to
    [books_details] carry the titles of the staging rows, none of which is
    null. *)
Theorem null_title_dropped `{Builtins} `{Postgres}
    (books : list RawBook) (df : list Book) (l : list LogRecord) :
  transform_data books = (Returns df, l) ->
  Forall2 (fun raw r => title r = title raw)
          (dropna_title (drop_duplicates books)) df
  /\ (forall r, In r df -> title r <> None)
  /\ (forall raw, In raw books -> title raw <> None ->
      exists r, In r df /\ title r = title raw)
  /\ (forall (db db' : Db) (l' : list LogRecord),
         load_to_postgres db df = (Returns db', l') ->
         exists new,
           rows (raw_books db') = rows (raw_books db) ++ new
           /\ List.length new = List.length df
           /\ (forall rb, In rb new -> rb_title rb <> None))
  /\ (forall db db' : Db,
         populate_dimensions db = Some db' ->
         (forall rb, In rb (rows (raw_books db)) -> rb_title rb <> None)
         /\ exists new,
              rows (books_details db') = rows (books_details db) ++ new
              /\ List.map bd_title new = List.map rb_title (rows (raw_books db))).
Proof.
  intros Ht. apply transform_data_inv in Ht as [_ ->].
  assert (Hcols : Forall2 (fun raw r => title r = title raw)
                    (dropna_title (drop_duplicates books)) (reconciled books)).
  { eapply Forall2_impl; [|apply reconciled_columns]. simpl. tauto. }
  split; [exact Hcols|]. split; [|split; [|split]].
  - intros r Hr.
    destruct (Forall2_In_right _ _ _ Hcols r Hr) as (raw & Hraw & ->).
    now apply dropna_title_not_null in Hraw.
  - intros raw Hraw Hti.
    destruct (drop_duplicates_keeps books raw Hraw) as (raw' & Hraw' & He).
    apply raw_eqb_title in He.
    assert (Hk : In raw' (dropna_title (drop_duplicates books))).
    { unfold dropna_title. apply List.filter_In. split; [exact Hraw'|].
      rewrite <- He. destruct (title raw); [reflexivity|congruence]. }
    destruct (Forall2_In_left _ _ _ Hcols raw' Hk) as (r & Hr & Hrt).
    exists r. split; [exact Hr|congruence].
  - intros db db' l'. unfold load_to_postgres.
    destruct (insert_raw_books (raw_books db) (reconciled books)) as [t|] eqn:Hins;
      [|discriminate].
    intros [= <- _]. simpl. now apply insert_raw_books_rows.
  - intros db db' Hp.
    destruct (populate_dimensions_inv db db' Hp)
      as (pt & bd & ci & ri & ai & -> & _ & Hbd & _).
    apply insert_books_details_rows in Hbd as (Hall & new & Hrows & Hti & _).
    split; [exact Hall|]. exists new. simpl. auto.
Qed.

(** Of a record without title and a record with the title "B" only the
    second is returned. *)
Lemma null_title_dropped_witness :
  List.map title (@reconciled Reference.builtins Samples.null_title)
  = [Some (lit "B")]
  /\ Forall2 (fun raw r => title r = title raw)
             (dropna_title (drop_duplicates Samples.null_title))
             (@reconciled Reference.builtins Samples.null_title)
  /\ (forall r, In r (@reconciled Reference.builtins Samples.null_title) ->
                title r <> None)
  /\ (forall raw, In raw Samples.null_title -> title raw <> None ->
      exists r, In r (@reconciled Reference.builtins Samples.null_title)
                /\ title r = title raw)
  /\ (forall (db db' : @Db ReferenceStore.postgres) (l' : list LogRecord),
         load_to_postgres db (@reconciled Reference.builtins Samples.null_title)
         = (Returns db', l') ->
         exists new,
           rows (raw_books db') = rows (raw_books db) ++ new
           /\ List.length new
              = List.length (@reconciled Reference.builtins Samples.null_title)
           /\ (forall rb, In rb new -> rb_title rb <> None))
  /\ (forall db db' : @Db ReferenceStore.postgres,
         populate_dimensions db = Some db' ->
         (forall rb, In rb (rows (raw_books db)) -> rb_title rb <> None)
         /\ exists new,
              rows (books_details db') = rows (books_details db) ++ new
              /\ List.map bd_title new = List.map rb_title (rows (raw_books db))).
Proof.
  split; [vm_compute; reflexivity|].
  apply (@null_title_dropped Reference.builtins ReferenceStore.postgres
           Samples.null_title _
           (logged (@transform_data Reference.builtins Samples.null_title))).
  vm_compute. reflexivity.
Defined.

(** C6 as stated fails: a record whose title is the empty string is
    returned. *)
Lemma empty_title_counterexample :
  ~ (forall (books : list RawBook) (df : list Book) (l : list LogRecord) (r : Book),
        @transform_data Reference.builtins books = (Returns df, l) ->
        In r df ->
        title r <> None /\ title r <> Some []).
Proof.
  intros Hclaim.
  pose (df := @reconciled Reference.builtins Samples.empty_title).
  assert (Hrun : @transform_data Reference.builtins Samples.empty_title
                 = (Returns df,
                    logged (@transform_data Reference.builtins Samples.empty_title)))
    by (vm_compute; reflexivity).
  pose (none := mkRow None F64.nan 0 false None None None None None None
                      F64.nan F64.nan F64.nan 0 0 : Book).
  destruct (Hclaim _ _ _ (List.hd none df) Hrun) as [_ Hne].
  - vm_compute. left. reflexivity.
  - apply Hne. vm_compute. reflexivity.
Qed.

(** ** Inserts that skip conflicts *)

Section DimensionFacts.
Context {K : Type} (dec : forall a b : K, {a = b} + {a <> b}).
Implicit Type t : Dim K.

Lemma has_key_In t (k : K) :
  has_key dec t k = true <-> In k (List.map snd (rows t)).
Proof.
  unfold has_key. induction (rows t) as [|row l IH]; simpl.
  - split; [discriminate|tauto].
  - rewrite Bool.orb_true_iff, IH.
    destruct (dec (snd row) k); split; intuition congruence.
Qed.

(** When every selected key is in the table already, the insert leaves
    the rows as they are and does not fail. *)
Lemma insert_all_conflicts (values : list (option K)) :
  forall t,
    (forall v, In v values -> exists k, v = Some k /\ In k (List.map snd (rows t))) ->
    insert_on_conflict_do_nothing dec t values
    = Some (mkTable (rows t) (nextval t + Z.of_nat (List.length values))).
Proof.
  induction values as [|v values IH]; intros t Hall.
  - simpl. rewrite Z.add_0_r. now destruct t.
  - destruct (Hall v (or_introl eq_refl)) as (k & -> & Hk).
    cbn [insert_on_conflict_do_nothing].
    rewrite (proj2 (has_key_In t k) Hk).
    rewrite IH.
    + cbn [rows nextval List.length]. do 2 f_equal. lia.
    + intros v Hv. apply Hall. now right.
Qed.

Lemma insert_inv (values : list (option K)) :
  forall t t',
    insert_on_conflict_do_nothing dec t values = Some t' ->
    (exists new,
        rows t' = rows t ++ new
        /\ forall row, In row new -> In (Some (snd row)) values)
    /\ (forall v, In v values -> exists k, v = Some k /\ In k (List.map snd (rows t')))
    /\ (NoDup (List.map snd (rows t)) -> NoDup (List.map snd (rows t'))).
Proof.
  induction values as [|v values IH]; intros t t' Hins.
  - injection Hins as <-. split; [|split; [|tauto]].
    + exists []. rewrite List.app_nil_r. simpl. tauto.
    + intros v [].
  - destruct v as [k|]; [|discriminate Hins].
    cbn [insert_on_conflict_do_nothing] in Hins.
    destruct (has_key dec t k) eqn:Hk;
      apply IH in Hins as ((new & Hrows & Hnew) & Hin & Hnd);
      cbn [rows] in Hrows, Hnd.
    + split; [|split].
      * exists new. split; [exact Hrows|]. intros row Hrow. right. auto.
      * intros v [<-|Hv]; [|auto].
        exists k. split; [reflexivity|].
        rewrite Hrows, List.map_app. apply List.in_or_app. left.
        now apply has_key_In.
      * exact Hnd.
    + split; [|split].
      * exists ((nextval t, k) :: new). rewrite Hrows, <- List.app_assoc.
        split; [reflexivity|].
        intros row [<-|Hrow]; [now left|right; auto].
      * intros v [<-|Hv]; [|auto].
        exists k. split; [reflexivity|].
        rewrite Hrows, !List.map_app. apply List.in_or_app. left.
        apply List.in_or_app. right. now left.
      * intros Ht. apply Hnd. rewrite List.map_app. simpl.
        apply List.NoDup_app; [exact Ht|repeat constructor; tauto|].
        intros k' Hk' [<-|[]].
        apply has_key_In in Hk'. congruence.
Qed.

(** A second insert of the same values adds no row and does not fail. *)
Lemma insert_twice (values : list (option K)) t t' :
  insert_on_conflict_do_nothing dec t values = Some t' ->
  exists t'',
    insert_on_conflict_do_nothing dec t' values = Some t''
    /\ rows t'' = rows t'.
Proof.
  intros Hins. apply insert_inv in Hins as (_ & Hin & _).
  eexists. split; [apply insert_all_conflicts; exact Hin|reflexivity].
Qed.

End DimensionFacts.

(** ** The dimensions, populated twice *)

Section PopulateTwice.
Context `{Postgres}.

Lemma insert_books_details_total (rbs : list RawBooksRow) :
  (forall rb, In rb rbs -> rb_title rb <> None) ->
  forall t, exists t', insert_books_details t rbs = Some t'.
Proof.
  induction rbs as [|rb rbs IH]; intros Hall t; simpl; [eauto|].
  destruct (rb_title rb) eqn:Hti.
  - apply IH. intros rb' Hrb'. apply Hall. now right.
  - exfalso. apply (Hall rb); [now left|exact Hti].
Qed.

End PopulateTwice.

(** C3. After a build of the dimensions that succeeded on a database
    whose unique constraints hold, the constraints hold again; a second
    build on the same staging rows succeeds as well, leaves the rows of
    [product_type], [category_info], [rating_info] and [availability_info]
    as they are, and appends to [books_details] one more row for each
    staging row, with the titles and the upcs the first build wrote. *)
Theorem dimension_build_idempotent `{Postgres} (db db1 : Db) :
  unique_keys db ->
  populate_dimensions db = Some db1 ->
  unique_keys db1
  /\ raw_books db1 = raw_books db
  /\ exists db2,
       populate_dimensions db1 = Some db2
       /\ rows (product_type_table db2) = rows (product_type_table db1)
       /\ rows (category_info db2) = rows (category_info db1)
       /\ rows (rating_info db2) = rows (rating_info db1)
       /\ rows (availability_info db2) = rows (availability_info db1)
       /\ unique_keys db2
       /\ exists new1 new2,
            rows (books_details db1) = rows (books_details db) ++ new1
            /\ rows (books_details db2) = rows (books_details db1) ++ new2
            /\ List.map bd_title new1 = List.map rb_title (rows (raw_books db))
            /\ List.map bd_title new2 = List.map rb_title (rows (raw_books db))
            /\ List.map bd_upc new1 = List.map rb_upc (rows (raw_books db))
            /\ List.map bd_upc new2 = List.map rb_upc (rows (raw_books db)).
Proof.
  intros (Upt & Uci & Uri & Uai) Hp.
  destruct (populate_dimensions_inv db db1 Hp)
    as (pt & bd & ci & ri & ai & -> & Hpt & Hbd & Hci & Hri & Hai).
  assert (U1 : unique_keys (mkDb (raw_books db) pt bd ci ri ai (books_fact db))).
  { unfold unique_keys. cbn [product_type_table category_info rating_info
                               availability_info].
    repeat split.
    - now apply (insert_inv _ _ _ _ Hpt).
    - now apply (insert_inv _ _ _ _ Hci).
    - now apply (insert_inv _ _ _ _ Hri).
    - now apply (insert_inv _ _ _ _ Hai). }
  split; [exact U1|]. split; [reflexivity|].
  destruct (insert_twice _ _ _ _ Hpt) as (pt2 & Hpt2 & Ept).
  destruct (insert_twice _ _ _ _ Hci) as (ci2 & Hci2 & Eci).
  destruct (insert_twice _ _ _ _ Hri) as (ri2 & Hri2 & Eri).
  destruct (insert_twice _ _ _ _ Hai) as (ai2 & Hai2 & Eai).
  destruct (insert_books_details_rows _ _ _ Hbd) as (Hall & new1 & Hn1 & Ht1 & Hu1).
  destruct (insert_books_details_total _ Hall bd) as (bd2 & Hbd2).
  destruct (insert_books_details_rows _ _ _ Hbd2) as (_ & new2 & Hn2 & Ht2 & Hu2).
  exists (mkDb (raw_books db) pt2 bd2 ci2 ri2 ai2 (books_fact db)).
  split.
  { unfold populate_dimensions.
    cbn [raw_books product_type_table books_details category_info rating_info
         availability_info books_fact].
    now rewrite Hpt2, Hbd2, Hci2, Hri2, Hai2. }
  assert (U2 : unique_keys (mkDb (raw_books db) pt2 bd2 ci2 ri2 ai2 (books_fact db))).
  { unfold unique_keys in *.
    cbn [product_type_table category_info rating_info availability_info] in *.
    now rewrite Ept, Eci, Eri, Eai. }
  cbn [product_type_table books_details category_info rating_info
       availability_info].
  repeat (split; [assumption|]).
  exists new1, new2. auto 10.
Qed.

(** Two records give two staging rows; the first build writes two rows to
    [books_details] and a second build two more, while [category_info]
    keeps its two rows. *)
Lemma dimension_build_idempotent_witness :
  (exists db2,
      populate_dimensions Samples.dimensions_built = Some db2
      /\ List.map snd (rows (category_info db2)) = [lit "Fiction"; lit "Poetry"]
      /\ List.length (rows (books_details Samples.dimensions_built)) = 2%nat
      /\ List.length (rows (books_details db2)) = 4%nat)
  /\ unique_keys Samples.dimensions_built
  /\ raw_books Samples.dimensions_built = raw_books Samples.loaded
  /\ exists db2,
       populate_dimensions Samples.dimensions_built = Some db2
       /\ rows (product_type_table db2) = rows (product_type_table Samples.dimensions_built)
       /\ rows (category_info db2) = rows (category_info Samples.dimensions_built)
       /\ rows (rating_info db2) = rows (rating_info Samples.dimensions_built)
       /\ rows (availability_info db2) = rows (availability_info Samples.dimensions_built)
       /\ unique_keys db2
       /\ exists new1 new2,
            rows (books_details Samples.dimensions_built)
            = rows (books_details Samples.loaded) ++ new1
            /\ rows (books_details db2)
               = rows (books_details Samples.dimensions_built) ++ new2
            /\ List.map bd_title new1 = List.map rb_title (rows (raw_books Samples.loaded))
            /\ List.map bd_title new2 = List.map rb_title (rows (raw_books Samples.loaded))
            /\ List.map bd_upc new1 = List.map rb_upc (rows (raw_books Samples.loaded))
            /\ List.map bd_upc new2 = List.map rb_upc (rows (raw_books Samples.loaded)).
Proof.
  split.
  { eexists. split; [vm_compute; reflexivity|]. vm_compute. auto. }
  apply (@dimension_build_idempotent ReferenceStore.postgres Samples.loaded).
  - vm_compute. repeat split; constructor.
  - vm_compute. reflexivity.
Defined.

(** ** Outer joins *)

Section JoinFacts.
Context {L R : Type}.
Implicit Type on : L -> R -> bool.

Lemma outer_length (ms : list R) :
  List.length (outer ms) = Nat.max 1 (List.length ms).
Proof. destruct ms as [|m ms]; simpl; [reflexivity|]. now rewrite List.length_map. Qed.

Lemma in_outer_filter (p : R -> bool) (r : list R) (y : option R) :
  In y (outer (List.filter p r)) <-> resolved p r y.
Proof.
  unfold resolved. destruct y as [b|].
  - rewrite <- List.filter_In.
    destruct (List.filter p r) as [|m ms]; simpl; [intuition discriminate|].
    rewrite List.in_map_iff. split.
    + intros [[= ->]|(b' & [= ->] & Hb)]; auto.
    + intros [->|Hb]; [now left|right; eauto].
  - split.
    + intros Hn b Hb. destruct (p b) eqn:Hpb; [|reflexivity].
      assert (Hf : In b (List.filter p r)) by (apply List.filter_In; auto).
      destruct (List.filter p r) as [|m ms]; [contradiction|].
      simpl in Hn. destruct Hn as [Hn|Hn]; [discriminate|].
      apply List.in_map_iff in Hn as (? & ? & _). discriminate.
    + intros Hall.
      destruct (List.filter p r) as [|m ms] eqn:Hf; [now left|].
      assert (Hm : In m (List.filter p r)) by (rewrite Hf; now left).
      apply List.filter_In in Hm as [Hm Hpm]. rewrite (Hall m Hm) in Hpm.
      discriminate.
Qed.

(** The rows of a left join. *)
Lemma in_left_join on (l : list L) (r : list R) (x : L) (y : option R) :
  In (x, y) (left_join on l r) <-> In x l /\ resolved (on x) r y.
Proof.
  unfold left_join. rewrite List.in_flat_map. split.
  - intros (x' & Hx' & Hy). apply List.in_map_iff in Hy as (y' & [= -> ->] & Hy).
    split; [exact Hx'|]. now apply in_outer_filter.
  - intros [Hx Hy]. exists x. split; [exact Hx|].
    apply List.in_map_iff. exists y. split; [reflexivity|].
    now apply in_outer_filter.
Qed.

Lemma left_join_one on (x : L) (r : list R) :
  left_join on [x] r = List.map (fun y => (x, y)) (outer (List.filter (on x) r)).
Proof. unfold left_join. simpl. apply List.app_nil_r. Qed.

Lemma left_join_flat_map {A} on (f : A -> list L) (l : list A) (r : list R) :
  left_join on (List.flat_map f l) r
  = List.flat_map (fun a => left_join on (f a) r) l.
Proof.
  unfold left_join. induction l as [|a l IH]; simpl; [reflexivity|].
  now rewrite List.flat_map_app, IH.
Qed.

Lemma left_join_singletons on (l : list L) (r : list R) :
  left_join on l r = List.flat_map (fun x => left_join on [x] r) l.
Proof.
  unfold left_join. apply List.flat_map_ext. intros x. simpl.
  now rewrite List.app_nil_r.
Qed.

(** When no left row matches two right rows, the join has the length of
    its left side. *)
Lemma left_join_length on (l : list L) (r : list R) :
  (forall x, In x l -> (List.length (List.filter (on x) r) <= 1)%nat) ->
  List.length (left_join on l r) = List.length l.
Proof.
  unfold left_join. induction l as [|x l IH]; simpl; intros Hle; [reflexivity|].
  rewrite List.length_app, List.length_map, outer_length, IH.
  - specialize (Hle x (or_introl eq_refl)). lia.
  - intros x' Hx'. apply Hle. now right.
Qed.

End JoinFacts.

Lemma filter_on_key_length {K} (dec : forall a b : K, {a = b} + {a <> b})
    (key : option K) (dimension : list (Z * K)) :
  NoDup (List.map snd dimension) ->
  (List.length (List.filter (on_key dec key) dimension) <= 1)%nat.
Proof.
  unfold on_key, sql_eq.
  induction dimension as [|row d IH]; simpl; intros Hnd; [lia|].
  inversion Hnd as [|k ks Hnotin Hnd']; subst.
  destruct key as [k|]; [|apply IH, Hnd'].
  destruct (dec k (snd row)) as [->|Hne]; [|apply IH, Hnd'].
  simpl. replace (List.filter _ d) with (@nil (Z * K)); [simpl; lia|].
  symmetry. clear IH Hnd Hnd'.
  induction d as [|row' d IH]; simpl; [reflexivity|].
  destruct (dec (snd row) (snd row')) as [E|_].
  - exfalso. apply Hnotin. simpl. left. congruence.
  - apply IH. intros Hin. apply Hnotin. now right.
Qed.

(** ** The fact query *)

Section FactFacts.
Context `{Postgres}.

(** The rows selected for a list of staging rows are the rows selected
    for each of them, one staging row after the other. *)
Lemma fact_join_flat_map (db : Db) (rbs : list RawBooksRow) :
  fact_join db rbs = List.flat_map (fun rb => fact_join db [rb]) rbs.
Proof.
  unfold fact_join. cbv zeta.
  rewrite (left_join_singletons on_books_details rbs).
  now rewrite !left_join_flat_map.
Qed.

Lemma fact_join_one_length (db : Db) (rb : RawBooksRow) :
  unique_keys db ->
  List.length (fact_join db [rb])
  = Nat.max 1 (List.length (List.filter (on_books_details rb) (rows (books_details db)))).
Proof.
  intros (Upt & Uci & Uri & Uai). unfold fact_join, Joined. cbv zeta.
  rewrite left_join_length by (intros; now apply filter_on_key_length).
  rewrite left_join_length by (intros; now apply filter_on_key_length).
  rewrite left_join_length by (intros; now apply filter_on_key_length).
  rewrite left_join_length by (intros; now apply filter_on_key_length).
  now rewrite left_join_one, List.length_map, outer_length.
Qed.

Lemma in_fact_join (db : Db) (rbs : list RawBooksRow) (rb : RawBooksRow)
    (bd : option BooksDetailsRow) (ci : option (Z * str)) (ri : option (Z * Z))
    (ai pt : option (Z * str)) :
  In (rb, bd, ci, ri, ai, pt) (fact_join db rbs) <->
  In rb rbs
  /\ resolved (on_books_details rb) (rows (books_details db)) bd
  /\ resolved (on_key str_eq_dec (rb_category rb)) (rows (category_info db)) ci
  /\ resolved (on_key Z.eq_dec (rb_rating rb)) (rows (rating_info db)) ri
  /\ resolved (on_key str_eq_dec (Some (availability_status (rb_availability rb))))
       (rows (availability_info db)) ai
  /\ resolved (on_key str_eq_dec (rb_product_type rb))
       (rows (product_type_table db)) pt.
Proof.
  unfold fact_join. cbv zeta. rewrite !in_left_join. simpl. tauto.
Qed.

Lemma insert_facts_rows (js : list Joined) :
  forall t : Table BooksFactRow,
    exists new,
      rows (insert_facts t js) = rows t ++ new
      /\ Forall2 (fun j f => exists id, f = fact_values id j) js new.
Proof.
  induction js as [|j js IH]; intros t; simpl.
  - exists []. rewrite List.app_nil_r. auto.
  - destruct (IH (mkTable (rows t ++ [fact_values (nextval t) j]) (nextval t + 1)))
      as (new & Hrows & Hall).
    exists (fact_values (nextval t) j :: new).
    rewrite Hrows. cbn [rows]. rewrite <- List.app_assoc. split; [reflexivity|].
    constructor; eauto.
Qed.

Lemma populate_dimensions_unique (db db1 : Db) :
  unique_keys db -> populate_dimensions db = Some db1 -> unique_keys db1.
Proof.
  intros (Upt & Uci & Uri & Uai) Hp.
  destruct (populate_dimensions_inv db db1 Hp)
    as (pt & bd & ci & ri & ai & -> & Hpt & _ & Hci & Hri & Hai).
  unfold unique_keys.
  cbn [product_type_table category_info rating_info availability_info].
  repeat split.
  - now apply (insert_inv _ _ _ _ Hpt).
  - now apply (insert_inv _ _ _ _ Hci).
  - now apply (insert_inv _ _ _ _ Hri).
  - now apply (insert_inv _ _ _ _ Hai).
Qed.

End FactFacts.

(** C4 (as amended). A build that succeeds on a database whose unique
    constraints hold populates the dimensions and then inserts, for every
    staging row, one fact row for each row of [books_details] with its
    title and upc, and one fact row with a null [books_details_id] if
    there is none: never less than one, and exactly one when at most one
    row of [books_details] matches. Each of the five foreign keys is
    resolved by an outer match on the natural key: it is the id of a
    matching row, or null when no row of the dimension matches. *)
Theorem fact_rows_left_join `{Postgres} (db db' : Db) (l : list LogRecord) :
  unique_keys db ->
  build_data_warehouse db = (Returns db', l) ->
  exists db1,
    populate_dimensions db = Some db1
    /\ db' = populate_facts db1
    /\ fact_join db1 (rows (raw_books db))
       = List.flat_map (fun rb => fact_join db1 [rb]) (rows (raw_books db))
    /\ (forall rb,
           List.length (fact_join db1 [rb])
           = Nat.max 1 (List.length
                          (List.filter (on_books_details rb)
                                       (rows (books_details db1)))))
    /\ (forall rb bd ci ri ai pt,
           In (rb, bd, ci, ri, ai, pt) (fact_join db1 (rows (raw_books db))) <->
           In rb (rows (raw_books db))
           /\ resolved (on_books_details rb) (rows (books_details db1)) bd
           /\ resolved (on_key str_eq_dec (rb_category rb))
                (rows (category_info db1)) ci
           /\ resolved (on_key Z.eq_dec (rb_rating rb)) (rows (rating_info db1)) ri
           /\ resolved
                (on_key str_eq_dec
                   (Some (availability_status (rb_availability rb))))
                (rows (availability_info db1)) ai
           /\ resolved (on_key str_eq_dec (rb_product_type rb))
                (rows (product_type_table db1)) pt)
    /\ exists new,
         rows (books_fact db') = rows (books_fact db) ++ new
         /\ Forall2 (fun j f => exists id, f = fact_values id j)
                    (fact_join db1 (rows (raw_books db))) new.
Proof.
  intros Hu. unfold build_data_warehouse.
  destruct (populate_dimensions db) as [db1|] eqn:Hp; [|discriminate].
  intros [= <- _]. exists db1.
  pose proof (populate_dimensions_unique db db1 Hu Hp) as Hu1.
  destruct (populate_dimensions_inv db db1 Hp) as (pt & bd & ci & ri & ai & E & _).
  assert (Hrb : raw_books db1 = raw_books db) by (rewrite E; reflexivity).
  assert (Hbf : books_fact db1 = books_fact db) by (rewrite E; reflexivity).
  split; [reflexivity|]. split; [reflexivity|].
  split; [apply fact_join_flat_map|].
  split; [intros rb; now apply fact_join_one_length|].
  split; [intros; apply in_fact_join|].
  unfold populate_facts. cbn [books_fact]. rewrite Hrb, Hbf.
  apply insert_facts_rows.
Qed.

(** Two staging rows with two titles give two fact rows, each with its
    five foreign keys. *)
Lemma fact_rows_left_join_witness :
  List.map (fun f => (bf_books_details_id f, bf_category_id f, bf_rating_id f,
                      bf_availability_id f, bf_product_type_id f))
           (rows (books_fact Samples.built))
  = [(Some 1, Some 1, Some 1, Some 1, Some 1);
     (Some 2, Some 2, Some 1, Some 1, Some 1)]
  /\ exists db1,
       populate_dimensions Samples.loaded = Some db1
       /\ Samples.built = populate_facts db1
       /\ fact_join db1 (rows (raw_books Samples.loaded))
          = List.flat_map (fun rb => fact_join db1 [rb])
                          (rows (raw_books Samples.loaded))
       /\ (forall rb,
              List.length (fact_join db1 [rb])
              = Nat.max 1 (List.length
                             (List.filter (on_books_details rb)
                                          (rows (books_details db1)))))
       /\ (forall rb bd ci ri ai pt,
              In (rb, bd, ci, ri, ai, pt)
                 (fact_join db1 (rows (raw_books Samples.loaded))) <->
              In rb (rows (raw_books Samples.loaded))
              /\ resolved (on_books_details rb) (rows (books_details db1)) bd
              /\ resolved (on_key str_eq_dec (rb_category rb))
                   (rows (category_info db1)) ci
              /\ resolved (on_key Z.eq_dec (rb_rating rb)) (rows (rating_info db1)) ri
              /\ resolved
                   (on_key str_eq_dec
                      (Some (availability_status (rb_availability rb))))
                   (rows (availability_info db1)) ai
              /\ resolved (on_key str_eq_dec (rb_product_type rb))
                   (rows (product_type_table db1)) pt)
       /\ exists new,
            rows (books_fact Samples.built)
            = rows (books_fact Samples.loaded) ++ new
            /\ Forall2 (fun j f => exists id, f = fact_values id j)
                       (fact_join db1 (rows (raw_books Samples.loaded))) new.
Proof.
  split; [vm_compute; reflexivity|].
  apply (@fact_rows_left_join ReferenceStore.postgres Samples.loaded Samples.built
           (logged (build_data_warehouse Samples.loaded))).
  - vm_compute. repeat split; constructor.
  - vm_compute. reflexivity.
Defined.

(** C4 as stated fails: on the database one run of [main] leaves for one
    record, a second build inserts two fact rows for the one staging row,
    because [books_details] then holds two rows with its title and upc. *)
Lemma one_fact_per_row_counterexample :
  ~ (forall (db db' : @Db ReferenceStore.postgres) (l : list LogRecord),
        unique_keys db ->
        build_data_warehouse db = (Returns db', l) ->
        List.length (rows (books_fact db'))
        = (List.length (rows (books_fact db))
           + List.length (rows (raw_books db)))%nat).
Proof.
  intros Hclaim.
  specialize (Hclaim Samples.after_one_run
                (Samples.db_of (build_data_warehouse Samples.after_one_run))
                (logged (build_data_warehouse Samples.after_one_run))).
  assert (Hu : unique_keys Samples.after_one_run).
  { vm_compute. repeat split; repeat constructor; simpl; tauto. }
  assert (Hrun : build_data_warehouse Samples.after_one_run
                 = (Returns (Samples.db_of (build_data_warehouse Samples.after_one_run)),
                    logged (build_data_warehouse Samples.after_one_run)))
    by (vm_compute; reflexivity).
  specialize (Hclaim Hu Hrun). vm_compute in Hclaim. discriminate Hclaim.
Qed.

(* ================================================================== *)
(** * Further properties of the pipeline *)
(* ================================================================== *)

(** ** [drop_duplicates] *)

Lemma opt_Z_eqb_eq (a b : option Z) : opt_Z_eqb a b = true <-> a = b.
Proof.
  destruct a as [x|], b as [y|]; simpl; try rewrite Z.eqb_eq; split; congruence.
Qed.

Lemma raw_eqb_eq (a b : RawBook) : raw_eqb a b = true <-> a = b.
Proof.
  split; [|intros ->; apply raw_eqb_refl].
  destruct a, b. unfold raw_eqb. simpl.
  rewrite !Bool.andb_true_iff, !opt_str_eqb_eq, opt_Z_eqb_eq, Z.eqb_eq.
  intros H. decompose [and] H. congruence.
Qed.

Lemma existsb_raw_eqb (r : RawBook) (seen : list RawBook) :
  List.existsb (raw_eqb r) seen = true <-> In r seen.
Proof.
  rewrite List.existsb_exists. split.
  - intros (x & Hx & He). apply raw_eqb_eq in He. congruence.
  - intros Hr. exists r. split; [exact Hr|apply raw_eqb_refl].
Qed.

Lemma drop_duplicates_from_spec (df : list RawBook) :
  forall seen,
    NoDup (drop_duplicates_from seen df)
    /\ forall r, In r (drop_duplicates_from seen df) <-> In r df /\ ~ In r seen.
Proof.
  induction df as [|a df IH]; intros seen; simpl.
  - split; [constructor|tauto].
  - destruct (List.existsb (raw_eqb a) seen) eqn:Ha.
    + apply existsb_raw_eqb in Ha. destruct (IH seen) as [Hnd Hin].
      split; [exact Hnd|]. intros r. rewrite Hin.
      split; [tauto|]. intros [[<-|Hr] Hn]; tauto.
    + assert (Hna : ~ In a seen).
      { intros Hin. apply existsb_raw_eqb in Hin. congruence. }
      destruct (IH (a :: seen)) as [Hnd Hin]. split.
      * constructor; [|exact Hnd]. rewrite Hin. simpl. tauto.
      * intros r. simpl. rewrite Hin. simpl.
        destruct (raw_eqb a r) eqn:He.
        -- apply raw_eqb_eq in He. subst r. tauto.
        -- assert (a <> r) by (intros E; apply raw_eqb_eq in E; congruence).
           tauto.
Qed.

Lemma drop_duplicates_from_id (df : list RawBook) :
  forall seen,
    NoDup df -> (forall r, In r df -> ~ In r seen) ->
    drop_duplicates_from seen df = df.
Proof.
  induction df as [|a df IH]; intros seen Hnd Hseen; simpl; [reflexivity|].
  inversion Hnd as [|x xs Hna Hnd']; subst.
  destruct (List.existsb (raw_eqb a) seen) eqn:Ha.
  - apply existsb_raw_eqb in Ha. exfalso. apply (Hseen a); [now left|exact Ha].
  - f_equal. apply IH; [exact Hnd'|].
    intros r Hr [<-|Hin]; [contradiction|].
    apply (Hseen r); [now right|exact Hin].
Qed.

Lemma exact_numbers_drop_duplicates_from (df : list RawBook) :
  forall seen,
    exact_numbers df = true ->
    exact_numbers (drop_duplicates_from seen df) = true.
Proof.
  unfold exact_numbers.
  induction df as [|a df IH]; intros seen; simpl; [reflexivity|].
  intros Hdf. apply Bool.andb_true_iff in Hdf as [Ha Hdf].
  destruct (List.existsb (raw_eqb a) seen); simpl; [now apply IH|].
  rewrite Ha. now apply IH.
Qed.

(** X1. On a frame whose integers are held exactly (quantities up to
    2^53 in absolute value, numbers of reviews within 64 bits),
    [drop_duplicates] keeps exactly the records of the input, each once,
    and the frame still holds its integers exactly; a list without equal
    records is left as it is, so dropping duplicates twice is dropping
    them once. *)
Theorem drop_duplicates_set (df : list RawBook) :
  exact_numbers df = true ->
  NoDup (drop_duplicates df)
  /\ (forall r, In r (drop_duplicates df) <-> In r df)
  /\ (NoDup df -> drop_duplicates df = df)
  /\ drop_duplicates (drop_duplicates df) = drop_duplicates df
  /\ exact_numbers (drop_duplicates df) = true.
Proof.
  intros Hexact. unfold drop_duplicates.
  destruct (drop_duplicates_from_spec df []) as [Hnd Hin].
  split; [exact Hnd|]. split; [|split; [|split]].
  - intros r. rewrite Hin. simpl. tauto.
  - intros Hdf. apply drop_duplicates_from_id; [exact Hdf|]. simpl. tauto.
  - apply drop_duplicates_from_id; [exact Hnd|]. simpl. tauto.
  - now apply exact_numbers_drop_duplicates_from.
Qed.

(** The two sample records, given twice, are kept once each. *)
Lemma drop_duplicates_set_witness :
  exact_numbers (Samples.two_books ++ Samples.two_books) = true
  /\ drop_duplicates (Samples.two_books ++ Samples.two_books) = Samples.two_books
  /\ NoDup (drop_duplicates (Samples.two_books ++ Samples.two_books))
  /\ (forall r, In r (drop_duplicates (Samples.two_books ++ Samples.two_books))
                <-> In r (Samples.two_books ++ Samples.two_books))
  /\ (NoDup (Samples.two_books ++ Samples.two_books) ->
      drop_duplicates (Samples.two_books ++ Samples.two_books)
      = Samples.two_books ++ Samples.two_books)
  /\ drop_duplicates (drop_duplicates (Samples.two_books ++ Samples.two_books))
     = drop_duplicates (Samples.two_books ++ Samples.two_books)
  /\ exact_numbers (drop_duplicates (Samples.two_books ++ Samples.two_books)) = true.
Proof.
  split; [vm_compute; reflexivity|]. split; [vm_compute; reflexivity|].
  apply (drop_duplicates_set (Samples.two_books ++ Samples.two_books)).
  vm_compute. reflexivity.
Defined.

(** ** The two price checks, once more *)

Section Checks.
Context {R A Q : Type}.
Implicit Type r : Row F64.float R A Q.

(** A number minus itself is never above the tolerance. *)
Lemma self_difference_within (e : F64.float) :
  F64.ltb tolerance (F64.abs (F64.sub e e)) = false.
Proof.
  destruct e as [s|s| |s m x]; try (destruct s; reflexivity); [reflexivity|].
  rewrite sub_diag by reflexivity. reflexivity.
Qed.

Lemma sub_not_nan_finite_right (a b : F64.float) :
  F64.isna a = false -> F64.is_finite b = true -> F64.isna (F64.sub a b) = false.
Proof.
  unfold F64.sub.
  destruct a as [sa|sa| |sa ma ea], b as [sb|sb| |sb mb eb];
    simpl; try discriminate; intros _ _; try reflexivity.
  - destruct sa, sb; reflexivity.
  - apply binary_normalize_not_nan.
Qed.

Lemma repair_tax_row_consistent r : tax_inconsistent (repair_tax_row r) = false.
Proof.
  unfold repair_tax_row. destruct (tax_inconsistent r) eqn:Hr; [|exact Hr].
  unfold tax_inconsistent, price_diff. simpl. apply self_difference_within.
Qed.

Lemma repair_price_row_consistent r : price_inconsistent (repair_price_row r) = false.
Proof.
  unfold repair_price_row. destruct (price_inconsistent r) eqn:Hr; [|exact Hr].
  unfold price_inconsistent, price_mismatch. simpl. apply self_difference_within.
Qed.

Lemma tax_inconsistent_repair_price r :
  tax_inconsistent (repair_price_row r) = tax_inconsistent r.
Proof.
  unfold repair_price_row. destruct (price_inconsistent r); reflexivity.
Qed.

(** A row the tax check overwrites is a row it changes. *)
Lemma repair_tax_row_changes r :
  repair_tax_row r <> r <-> tax_inconsistent r = true.
Proof.
  unfold repair_tax_row. destruct (tax_inconsistent r) eqn:Hr.
  - split; [reflexivity|]. intros _ E.
    assert (He : price_excl_tax r = F64.sub (price_incl_tax r) (tax r)).
    { rewrite <- E at 1. reflexivity. }
    unfold tax_inconsistent, price_diff in Hr. rewrite He in Hr.
    rewrite self_difference_within in Hr. discriminate.
  - split; [congruence|discriminate].
Qed.

Lemma repair_price_row_changes r :
  repair_price_row r <> r <-> price_inconsistent r = true.
Proof.
  unfold repair_price_row. destruct (price_inconsistent r) eqn:Hr.
  - split; [reflexivity|]. intros _ E.
    assert (He : price r = price_incl_tax r).
    { rewrite <- E at 1. reflexivity. }
    unfold price_inconsistent, price_mismatch in Hr. rewrite He in Hr.
    rewrite self_difference_within in Hr. discriminate.
  - split; [congruence|discriminate].
Qed.

Lemma filter_all_false {X} (p : X -> bool) (l : list X) :
  (forall x, In x l -> p x = false) -> List.filter p l = [].
Proof.
  induction l as [|a l IH]; simpl; intros Hp; [reflexivity|].
  rewrite (Hp a) by now left. apply IH. intros x Hx. apply Hp. now right.
Qed.

(** X2. The tax check returns the frame with exactly its inconsistent rows
    changed; it logs nothing when there is none, and otherwise one warning
    whose count is the number of rows it changed. *)
Theorem repair_tax_warning (df : list (Row F64.float R A Q)) :
  exists l,
    repair_tax df = (Returns (List.map repair_tax_row df), l)
    /\ (forall r, repair_tax_row r <> r <-> tax_inconsistent r = true)
    /\ (List.filter tax_inconsistent df = [] ->
        l = [] /\ List.map repair_tax_row df = df)
    /\ (List.filter tax_inconsistent df <> [] ->
        l = [mkLog WARNING
               "Price inconsistency found in %d records (price_incl_tax - tax != price_excl_tax)"
               [AInt (Z.of_nat (List.length (List.filter tax_inconsistent df)))]]).
Proof.
  unfold repair_tax.
  destruct (List.filter tax_inconsistent df) as [|a rest] eqn:Hf.
  - exists []. assert (Hid : List.map repair_tax_row df = df).
    { apply map_id_on. intros r Hr. unfold repair_tax_row.
      now rewrite (filter_nil_false _ _ Hf r Hr). }
    rewrite Hid. repeat split; try apply repair_tax_row_changes; congruence.
  - eexists. split; [reflexivity|]. split; [apply repair_tax_row_changes|].
    split; [discriminate|]. intros _. reflexivity.
Qed.

End Checks.

(** X3. Every record [transform_data] returns has the price it had when
    the checks started, or its [price_incl_tax] if the two differed by more
    than 0.01; when its [price_incl_tax] is finite and its price is not
    null, they differ by 0.01 at most. *)
Theorem price_mismatch_repair `{Builtins}
    (books : list RawBook) (df : list Book) (l : list LogRecord) :
  transform_data books = (Returns df, l) ->
  Forall2
    (fun r0 r =>
       price_incl_tax r = price_incl_tax r0
       /\ price r
          = (if F64.ltb tolerance (F64.abs (F64.sub (price r0) (price_incl_tax r0)))
             then price_incl_tax r0
             else price r0)
       /\ (F64.is_finite (price_incl_tax r) = true ->
           F64.isna (price r) = false ->
           F64.leb (F64.abs (F64.sub (price r) (price_incl_tax r))) tolerance = true))
    (frame_at_checks books) df.
Proof.
  intros Ht. apply transform_data_inv in Ht as [_ ->].
  unfold reconciled. rewrite List.map_map.
  apply Forall2_map_right. intros r0 _.
  destruct (repair_tax_row_columns r0) as (Hi0 & _ & Hp0 & _).
  set (r1 := repair_tax_row r0) in *.
  unfold repair_price_row, price_inconsistent, price_mismatch.
  rewrite <- Hi0, <- Hp0.
  destruct (F64.ltb tolerance (F64.abs (F64.sub (price r1) (price_incl_tax r1))))
    eqn:Hm; simpl.
  - repeat split. intros Hfin _. rewrite sub_diag by exact Hfin. reflexivity.
  - repeat split. intros Hfin Hp.
    apply not_ltb_leb; [reflexivity| |exact Hm].
    rewrite abs_isna. now apply sub_not_nan_finite_right.
Qed.

(** The sample record, whose price and [price_incl_tax] agree, keeps its
    price. *)
Lemma price_mismatch_repair_witness :
  List.map price (@reconciled Reference.builtins Samples.inconsistent_tax)
  = [F64.of_Z 10]
  /\ Forall2
       (fun r0 r =>
          price_incl_tax r = price_incl_tax r0
          /\ price r
             = (if F64.ltb tolerance (F64.abs (F64.sub (price r0) (price_incl_tax r0)))
                then price_incl_tax r0
                else price r0)
          /\ (F64.is_finite (price_incl_tax r) = true ->
              F64.isna (price r) = false ->
              F64.leb (F64.abs (F64.sub (price r) (price_incl_tax r))) tolerance = true))
       (@frame_at_checks Reference.builtins Samples.inconsistent_tax)
       (@reconciled Reference.builtins Samples.inconsistent_tax).
Proof.
  split; [vm_compute; reflexivity|].
  apply (@price_mismatch_repair Reference.builtins Samples.inconsistent_tax _
           (logged (@transform_data Reference.builtins Samples.inconsistent_tax))).
  vm_compute. reflexivity.
Defined.

(** X4. The frame [transform_data] returns passes both checks: checking it
    again changes no record and logs no warning. *)
Theorem reconciled_passes_checks `{Builtins}
    (books : list RawBook) (df : list Book) (l : list LogRecord) :
  transform_data books = (Returns df, l) ->
  repair_tax df = (Returns df, []) /\ repair_price df = (Returns df, []).
Proof.
  intros Ht. apply transform_data_inv in Ht as [_ ->].
  assert (Ht : List.filter tax_inconsistent (reconciled books) = []).
  { apply filter_all_false. intros r Hr. unfold reconciled in Hr.
    apply List.in_map_iff in Hr as (r1 & <- & Hr1).
    apply List.in_map_iff in Hr1 as (r0 & <- & _).
    rewrite tax_inconsistent_repair_price. apply repair_tax_row_consistent. }
  assert (Hp : List.filter price_inconsistent (reconciled books) = []).
  { apply filter_all_false. intros r Hr. unfold reconciled in Hr.
    apply List.in_map_iff in Hr as (r1 & <- & _).
    apply repair_price_row_consistent. }
  unfold repair_tax, repair_price. now rewrite Ht, Hp.
Qed.

(** The frame returned for the sample record with the inconsistent tax
    passes both checks. *)
Lemma reconciled_passes_checks_witness :
  repair_tax (@reconciled Reference.builtins Samples.inconsistent_tax)
  = (Returns (@reconciled Reference.builtins Samples.inconsistent_tax), [])
  /\ repair_price (@reconciled Reference.builtins Samples.inconsistent_tax)
     = (Returns (@reconciled Reference.builtins Samples.inconsistent_tax), []).
Proof.
  apply (@reconciled_passes_checks Reference.builtins Samples.inconsistent_tax _
           (logged (@transform_data Reference.builtins Samples.inconsistent_tax))).
  vm_compute. reflexivity.
Defined.

(** ** The imputation, once more *)

Lemma isna_nan (x : F64.float) : F64.isna x = true -> x = F64.nan.
Proof. destruct x; simpl; [discriminate|discriminate|reflexivity|discriminate]. Qed.

Lemma fillna_nan (x : F64.float) : F64.fillna x F64.nan = x.
Proof.
  unfold F64.fillna. destruct (F64.isna x) eqn:Hx; [|reflexivity].
  symmetry. now apply isna_nan.
Qed.

Section ImputationTwice.
Context {R A Q : Type}.
Implicit Type df : list (Row F64.float R A Q).

Lemma in_group_category df (c : str) (r : Row F64.float R A Q) :
  In r (group df c) -> category r = Some c.
Proof.
  unfold group. intros Hr. apply List.filter_In in Hr as [_ Hr].
  now apply opt_str_eqb_eq.
Qed.

(** The cells of a field in a group, after the imputation. *)
Lemma imputed_group_cells (f : price_field) df (c : str) :
  List.map (get_field f) (group (List.map (imputed_row df) df) c)
  = List.map (fun v => F64.fillna v (F64.nanmean (List.map (get_field f) (group df c))))
             (List.map (get_field f) (group df c)).
Proof.
  rewrite (group_map (imputed_row df)) by reflexivity.
  rewrite !List.map_map. apply List.map_ext_in. intros r Hr.
  rewrite get_imputed_row. unfold fillna_group_mean.
  now rewrite (in_group_category df c r Hr).
Qed.

Lemma fillna_group_mean_twice (f : price_field) df (r : Row F64.float R A Q) :
  fillna_group_mean f (List.map (imputed_row df) df) (imputed_row df r)
  = fillna_group_mean f df r.
Proof.
  unfold fillna_group_mean at 1. rewrite get_imputed_row.
  change (category (imputed_row df r)) with (category r).
  unfold fillna_group_mean. destruct (category r) as [c|]; [|reflexivity].
  rewrite imputed_group_cells.
  set (x := List.map (get_field f) (group df c)).
  set (m := F64.nanmean x).
  unfold F64.fillna at 1.
  destruct (F64.isna (F64.fillna (get_field f r) m)) eqn:Hn; [|reflexivity].
  assert (Hm : m = F64.nan).
  { unfold F64.fillna in Hn. destruct (F64.isna (get_field f r)) eqn:Hv.
    - now apply isna_nan.
    - congruence. }
  rewrite (isna_nan _ Hn). rewrite Hm.
  rewrite (List.map_ext _ (fun v => v) (fun v => fillna_nan v)), List.map_id.
  exact Hm.
Qed.

(** X5. The imputation is idempotent: a second pass over the four price
    fields changes nothing. *)
Theorem impute_all_idempotent df : impute_all (impute_all df) = impute_all df.
Proof.
  rewrite !impute_all_rows. rewrite List.map_map.
  apply List.map_ext. intros r.
  unfold imputed_row at 1.
  rewrite !fillna_group_mean_twice. reflexivity.
Qed.

End ImputationTwice.

(** ** Records without category *)

(** X6. A record without category when the imputation runs is returned
    without any of its four prices, also those it had: grouping by
    category leaves it out, and the column assigned back has a null for
    it. *)
Theorem null_category_loses_prices `{Builtins}
    (books : list RawBook) (df : list Book) (l : list LogRecord) :
  transform_data books = (Returns df, l) ->
  Forall2
    (fun r0 r =>
       category r0 = None ->
       forall f : price_field, F64.isna (get_field f r) = true)
    (frame_at_imputation books) df.
Proof.
  intros Ht. apply transform_data_inv in Ht as [_ ->].
  unfold reconciled, frame_at_checks.
  rewrite impute_all_rows. rewrite !List.map_map.
  apply Forall2_map_right. intros r0 _ Hc.
  unfold imputed_row, fillna_group_mean. rewrite Hc.
  unfold repair_price_row, repair_tax_row, price_inconsistent, tax_inconsistent,
    price_mismatch, price_diff.
  cbn. intros f. destruct f; reflexivity.
Qed.

(** The record with four prices and no category is returned with four
    nulls. *)
Lemma null_category_loses_prices_witness :
  List.map (fun r => List.map (fun f => F64.isna (get_field f r)) price_fields)
           (@reconciled Reference.builtins Samples.priced_no_category)
  = [[true; true; true; true]]
  /\ List.map (fun r => List.map (fun f => F64.isna (get_field f r)) price_fields)
              (@frame_at_imputation Reference.builtins Samples.priced_no_category)
     = [[false; false; false; false]]
  /\ Forall2
       (fun r0 r =>
          category r0 = None ->
          forall f : price_field, F64.isna (get_field f r) = true)
       (@frame_at_imputation Reference.builtins Samples.priced_no_category)
       (@reconciled Reference.builtins Samples.priced_no_category).
Proof.
  split; [vm_compute; reflexivity|]. split; [vm_compute; reflexivity|].
  apply (@null_category_loses_prices Reference.builtins Samples.priced_no_category _
           (logged (@transform_data Reference.builtins Samples.priced_no_category))).
  vm_compute. reflexivity.
Defined.

(** ** What [transform_data] returns *)

Lemma drop_duplicates_from_length (df seen : list RawBook) :
  (List.length (drop_duplicates_from seen df) <= List.length df)%nat.
Proof.
  revert seen. induction df as [|a df IH]; intros seen; simpl; [lia|].
  destruct (List.existsb (raw_eqb a) seen); simpl.
  - specialize (IH seen). lia.
  - specialize (IH (a :: seen)). lia.
Qed.

(** X7. [transform_data] raises for the empty list only: for any other
    list whose integers the frame holds exactly (quantities up to 2^53 in
    absolute value, numbers of reviews within 64 bits) it returns,
    whatever the strings are, a frame with no more records than the input
    and with a non-null category, product type and quantity in every
    record ("Others", "Books" and 0 where the raw record has none). *)
Theorem transform_data_total `{Builtins} (books : list RawBook) :
  books <> [] ->
  exact_numbers books = true ->
  exists df l,
    transform_data books = (Returns df, l)
    /\ (List.length df <= List.length books)%nat
    /\ Forall2
         (fun raw r =>
            category r = Some (match category raw with
                               | Some c => c
                               | None => lit "Others"
                               end)
            /\ product_type r = Some (match product_type raw with
                                      | Some p => p
                                      | None => lit "Books"
                                      end)
            /\ available_quantity r = match available_quantity raw with
                                      | Some n => n
                                      | None => 0
                                      end)
         (dropna_title (drop_duplicates books)) df.
Proof.
  intros Hne _. destruct (transform_data_returns books Hne) as (l & Hr).
  exists (reconciled books), l. split; [exact Hr|].
  pose proof (reconciled_columns books) as Hc. split.
  - pose proof (Forall2_length Hc) as Hl. unfold dropna_title in Hl.
    pose proof (List.filter_length_le
                  (fun r : RawBook => negb (isnull (title r)))
                  (drop_duplicates books)).
    pose proof (drop_duplicates_from_length books []).
    unfold drop_duplicates, Book, RawBook in *. lia.
  - eapply Forall2_impl; [|exact Hc]. simpl.
    intros raw r (_ & _ & _ & Hcat & Hpt & Hq).
    rewrite Hcat, Hpt, Hq. unfold fillna_str, to_quantity.
    destruct (category raw), (product_type raw), (available_quantity raw); auto.
Qed.

(** The two sample records are both returned. *)
Lemma transform_data_total_witness :
  Samples.two_books <> []
  /\ exact_numbers Samples.two_books = true
  /\ exists df l,
       @transform_data Reference.builtins Samples.two_books = (Returns df, l)
       /\ (List.length df <= List.length Samples.two_books)%nat
       /\ Forall2
            (fun raw r =>
               category r = Some (match category raw with
                                  | Some c => c
                                  | None => lit "Others"
                                  end)
               /\ product_type r = Some (match product_type raw with
                                         | Some p => p
                                         | None => lit "Books"
                                         end)
               /\ available_quantity r = match available_quantity raw with
                                         | Some n => n
                                         | None => 0
                                         end)
            (dropna_title (drop_duplicates Samples.two_books)) df.
Proof.
  split; [discriminate|]. split; [vm_compute; reflexivity|].
  apply (@transform_data_total Reference.builtins Samples.two_books).
  - discriminate.
  - vm_compute. reflexivity.
Defined.

(** ** White space and the stray letter around a price *)

Lemma replace_single_filter (c : char) (s : str) :
  replace s [c] [] = @List.filter N (fun x => negb (N.eqb c x)) s.
Proof.
  unfold replace. induction s as [|a s IH]; simpl; [reflexivity|].
  destruct (N.eqb c a); simpl; now rewrite IH.
Qed.

Lemma filter_spaces (c : char) (ws : str) :
  isspace c = false -> List.forallb isspace ws = true ->
  @List.filter N (fun x => negb (N.eqb c x)) ws = ws.
Proof.
  intros Hc. induction ws as [|a ws IH]; simpl; [reflexivity|].
  intros Hw. apply Bool.andb_true_iff in Hw as [Ha Hw].
  destruct (N.eqb_spec c a) as [->|_]; [congruence|].
  simpl. now rewrite IH.
Qed.

Lemma lstrip_app_spaces (ws s : str) :
  List.forallb isspace ws = true -> lstrip (ws ++ s) = lstrip s.
Proof.
  induction ws as [|a ws IH]; simpl; [reflexivity|].
  intros Hw. apply Bool.andb_true_iff in Hw as [Ha Hw].
  rewrite Ha. now apply IH.
Qed.

Lemma lstrip_before_spaces (t ws : str) :
  List.forallb isspace ws = true ->
  lstrip (t ++ ws) = match lstrip t with
                     | [] => []
                     | _ :: _ => lstrip t ++ ws
                     end.
Proof.
  intros Hw. induction t as [|c t IH]; simpl.
  - rewrite <- (List.app_nil_r ws). now rewrite lstrip_app_spaces.
  - destruct (isspace c); [exact IH|reflexivity].
Qed.

Lemma forallb_rev {X} (p : X -> bool) (l : list X) :
  List.forallb p l = true -> List.forallb p (List.rev l) = true.
Proof.
  rewrite !List.forallb_forall. intros Hp x Hx. apply Hp. now apply List.in_rev.
Qed.

(** [strip] removes the white space around a string. *)
Lemma strip_surrounded (ws t ws' : str) :
  List.forallb isspace ws = true -> List.forallb isspace ws' = true ->
  strip (ws ++ t ++ ws') = strip t.
Proof.
  intros Hw Hw'. unfold strip.
  rewrite (lstrip_app_spaces ws _ Hw), (lstrip_before_spaces t ws' Hw').
  destruct (lstrip t) as [|c u]; [reflexivity|].
  rewrite List.rev_app_distr.
  now rewrite (lstrip_app_spaces (List.rev ws') _ (forallb_rev _ _ Hw')).
Qed.

(** X8. White space around a price string and a stray letter in front of
    it change neither the value [convert_to_pounds] returns nor what it
    logs. *)
Theorem convert_to_pounds_cleans `{Builtins} (ws raw ws' : str) :
  raw <> [] ->
  List.forallb isspace ws = true ->
  List.forallb isspace ws' = true ->
  convert_to_pounds (Some (ws ++ raw ++ ws')) = convert_to_pounds (Some raw)
  /\ convert_to_pounds (Some (A_circumflex ++ raw)) = convert_to_pounds (Some raw).
Proof.
  intros Hne Hw Hw'.
  assert (Hs : strip (replace (ws ++ raw ++ ws') A_circumflex [])
               = strip (replace raw A_circumflex [])).
  { unfold A_circumflex. rewrite !replace_single_filter, !List.filter_app.
    unfold char.
    rewrite (filter_spaces 194%N ws eq_refl Hw), (filter_spaces 194%N ws' eq_refl Hw').
    now apply strip_surrounded. }
  assert (Ha : replace (A_circumflex ++ raw) A_circumflex []
               = replace raw A_circumflex []).
  { unfold A_circumflex. simpl app. apply replace_head. }
  unfold convert_to_pounds. rewrite Hs, Ha.
  destruct raw as [|c raw]; [congruence|].
  split; [|reflexivity].
  destruct ws; reflexivity.
Qed.

(** The price " £5.00" followed by a line feed is read as "£5.00". *)
Lemma convert_to_pounds_cleans_witness :
  @convert_to_pounds Reference.builtins
    (Some (lit " " ++ (pound_sign ++ lit "5.00") ++ [10%N]))
  = @convert_to_pounds Reference.builtins (Some (pound_sign ++ lit "5.00"))
  /\ @convert_to_pounds Reference.builtins
       (Some (A_circumflex ++ (pound_sign ++ lit "5.00")))
     = @convert_to_pounds Reference.builtins (Some (pound_sign ++ lit "5.00")).
Proof.
  apply (@convert_to_pounds_cleans Reference.builtins (lit " ")
           (pound_sign ++ lit "5.00") [10%N]).
  - discriminate.
  - vm_compute. reflexivity.
  - vm_compute. reflexivity.
Defined.

(** ** When the build fails *)

Section InsertTotal.
Context {K : Type} (dec : forall a b : K, {a = b} + {a <> b}).

Lemma insert_total (values : list (option K)) :
  (forall v, In v values -> v <> None) ->
  forall t : Dim K, exists t', insert_on_conflict_do_nothing dec t values = Some t'.
Proof.
  induction values as [|v values IH]; intros Hall t; simpl; [eauto|].
  destruct v as [k|]; [|exfalso; apply (Hall None); [now left|reflexivity]].
  destruct (has_key dec t k); apply IH; intros v Hv; apply Hall; now right.
Qed.

Lemma insert_values_not_null (values : list (option K)) (t t' : Dim K) :
  insert_on_conflict_do_nothing dec t values = Some t' ->
  forall v, In v values -> v <> None.
Proof.
  intros Hins v Hv. apply insert_inv in Hins as (_ & Hin & _).
  destruct (Hin v Hv) as (k & -> & _). discriminate.
Qed.

Lemma in_select_distinct (l : list (option K)) (v : option K) :
  In v (select_distinct dec l) <-> In v l.
Proof. unfold select_distinct. apply List.nodup_In. Qed.

End InsertTotal.

Lemma in_insert_sorted (a v : option Z) (l : list (option Z)) :
  In v (insert_sorted a l) <-> v = a \/ In v l.
Proof.
  induction l as [|b l IH]; simpl; [intuition congruence|].
  destruct (rating_le a b); simpl; [intuition congruence|].
  rewrite IH. intuition congruence.
Qed.

Lemma in_order_by_asc (l : list (option Z)) (v : option Z) :
  In v (order_by_asc l) <-> In v l.
Proof.
  unfold order_by_asc. induction l as [|a l IH]; simpl; [tauto|].
  rewrite in_insert_sorted, IH. intuition congruence.
Qed.

Section BuildFails.
Context `{Postgres}.

Lemma populate_dimensions_total (db : Db) :
  (forall rb, In rb (rows (raw_books db)) -> keys_not_null rb) ->
  exists db', populate_dimensions db = Some db'.
Proof.
  intros Hk. unfold populate_dimensions.
  destruct (insert_total str_eq_dec
              (select_distinct str_eq_dec
                 (List.map rb_product_type (rows (raw_books db))))) with
    (t := product_type_table db) as (pt & ->).
  { intros v Hv. apply in_select_distinct, List.in_map_iff in Hv as (rb & <- & Hrb).
    apply (Hk rb Hrb). }
  destruct (insert_books_details_total (rows (raw_books db))) with
    (t := books_details db) as (bd & ->).
  { intros rb Hrb. apply (Hk rb Hrb). }
  destruct (insert_total str_eq_dec
              (select_distinct str_eq_dec
                 (List.map rb_category (rows (raw_books db))))) with
    (t := category_info db) as (ci & ->).
  { intros v Hv. apply in_select_distinct, List.in_map_iff in Hv as (rb & <- & Hrb).
    apply (Hk rb Hrb). }
  destruct (insert_total Z.eq_dec
              (order_by_asc
                 (select_distinct Z.eq_dec
                    (List.map rb_rating (rows (raw_books db)))))) with
    (t := rating_info db) as (ri & ->).
  { intros v Hv.
    apply in_order_by_asc, in_select_distinct, List.in_map_iff in Hv
      as (rb & <- & Hrb).
    apply (Hk rb Hrb). }
  destruct (insert_total str_eq_dec
              (select_distinct str_eq_dec
                 (List.map (fun rb => Some (availability_status (rb_availability rb)))
                    (rows (raw_books db))))) with
    (t := availability_info db) as (ai & ->).
  { intros v Hv. apply in_select_distinct, List.in_map_iff in Hv as (rb & <- & _).
    discriminate. }
  eauto.
Qed.

Lemma populate_dimensions_keys (db db' : Db) :
  populate_dimensions db = Some db' ->
  forall rb, In rb (rows (raw_books db)) -> keys_not_null rb.
Proof.
  intros Hp rb Hrb.
  destruct (populate_dimensions_inv db db' Hp)
    as (pt & bd & ci & ri & ai & _ & Hpt & Hbd & Hci & Hri & _).
  unfold keys_not_null. repeat split.
  - now apply (insert_books_details_rows _ _ _ Hbd).
  - apply (insert_values_not_null _ _ _ _ Hpt).
    apply in_select_distinct, List.in_map_iff. eauto.
  - apply (insert_values_not_null _ _ _ _ Hci).
    apply in_select_distinct, List.in_map_iff. eauto.
  - apply (insert_values_not_null _ _ _ _ Hri).
    apply in_order_by_asc, in_select_distinct, List.in_map_iff. eauto.
Qed.

End BuildFails.

Lemma build_data_warehouse_returns `{Postgres} (db : Db) :
  (forall rb, In rb (rows (raw_books db)) -> keys_not_null rb) ->
  exists db' l, build_data_warehouse db = (Returns db', l).
Proof.
  intros Hk. unfold build_data_warehouse.
  destruct (populate_dimensions_total db Hk) as (db1 & ->). eauto.
Qed.

(** X9. [build_data_warehouse] returns exactly when every staging row has
    a title, a product type, a category and a rating; with a null in one
    of them it raises, as the dimension columns are [NOT NULL], and a
    conflict on a key never makes it fail. *)
Theorem build_fails_on_null_keys `{Postgres} (db : Db) :
  ((exists db' l, build_data_warehouse db = (Returns db', l)) <->
   (forall rb, In rb (rows (raw_books db)) -> keys_not_null rb))
  /\ (build_data_warehouse db = raise StoreError
      \/ exists db' l, build_data_warehouse db = (Returns db', l)).
Proof.
  unfold build_data_warehouse. split; [split|].
  - intros (db' & l & Hb).
    destruct (populate_dimensions db) as [db1|] eqn:Hp; [|discriminate].
    now apply (populate_dimensions_keys db db1).
  - fold (build_data_warehouse db). apply build_data_warehouse_returns.
  - destruct (populate_dimensions db); [right; eauto|now left].
Qed.

(** ** The foreign keys of the facts *)

Lemma on_key_found {K} (dec : forall a b : K, {a = b} + {a <> b})
    (k : K) (dimension : list (Z * K)) (y : option (Z * K)) :
  In k (List.map snd dimension) ->
  resolved (on_key dec (Some k)) dimension y ->
  exists row, y = Some row /\ In row dimension /\ snd row = k.
Proof.
  unfold resolved, on_key, sql_eq. intros Hk Hy.
  destruct y as [row|].
  - destruct Hy as [Hrow Hon]. exists row. repeat split; [exact Hrow|].
    destruct (dec k (snd row)); congruence.
  - apply List.in_map_iff in Hk as (row & <- & Hrow).
    specialize (Hy row Hrow). destruct (dec (snd row) (snd row)); congruence.
Qed.

Section FactKeys.
Context `{Postgres}.

Lemma insert_books_details_pairs (rbs : list RawBooksRow) :
  forall t t' : Table BooksDetailsRow,
    insert_books_details t rbs = Some t' ->
    exists new,
      rows t' = rows t ++ new
      /\ Forall2 (fun rb bd => bd_title bd = rb_title rb /\ bd_upc bd = rb_upc rb)
                 rbs new.
Proof.
  induction rbs as [|rb rbs IH]; intros t t'; simpl.
  - intros [= <-]. exists []. rewrite List.app_nil_r. auto.
  - destruct (rb_title rb) as [ti|] eqn:Hti; [|discriminate].
    intros Hins. apply IH in Hins as (new & Hrows & Hall). simpl in Hrows.
    eexists (_ :: new). rewrite Hrows, <- List.app_assoc.
    split; [reflexivity|]. constructor; [simpl; auto|exact Hall].
Qed.

(** After the dimensions are populated, every staging row finds its
    category, rating, availability and product type, and finds a row of
    [books_details] exactly when it has a upc. *)
Lemma joined_keys (db db1 : Db) (rb : RawBooksRow)
    (bd : option BooksDetailsRow) (ci : option (Z * str)) (ri : option (Z * Z))
    (ai pt : option (Z * str)) :
  populate_dimensions db = Some db1 ->
  In (rb, bd, ci, ri, ai, pt) (fact_join db1 (rows (raw_books db))) ->
  (exists row, ci = Some row /\ In row (rows (category_info db1))
               /\ rb_category rb = Some (snd row))
  /\ (exists row, ri = Some row /\ In row (rows (rating_info db1))
                  /\ rb_rating rb = Some (snd row))
  /\ (exists row, ai = Some row /\ In row (rows (availability_info db1))
                  /\ availability_status (rb_availability rb) = snd row)
  /\ (exists row, pt = Some row /\ In row (rows (product_type_table db1))
                  /\ rb_product_type rb = Some (snd row))
  /\ (bd = None <-> rb_upc rb = None)
  /\ (forall row, bd = Some row ->
      In row (rows (books_details db1))
      /\ rb_title rb = bd_title row /\ rb_upc rb = bd_upc row).
Proof.
  intros Hp Hj. apply in_fact_join in Hj as (Hrb & Rbd & Rci & Rri & Rai & Rpt).
  destruct (populate_dimensions_inv db db1 Hp)
    as (tpt & tbd & tci & tri & tai & -> & Hpt & Hbd & Hci & Hri & Hai).
  cbn [books_details category_info rating_info availability_info
       product_type_table] in *.
  apply insert_inv in Hpt as (_ & Ipt & _).
  apply insert_inv in Hci as (_ & Ici & _).
  apply insert_inv in Hri as (_ & Iri & _).
  apply insert_inv in Hai as (_ & Iai & _).
  pose proof (proj1 (insert_books_details_rows _ _ _ Hbd) rb Hrb) as Hti.
  apply insert_books_details_pairs in Hbd as (new & Hrows & Hpairs).
  split; [|split; [|split; [|split; [|split]]]].
  - destruct (Ici (rb_category rb)) as (k & Ek & Hk).
    { apply in_select_distinct, List.in_map_iff. eauto. }
    rewrite Ek in Rci. destruct (on_key_found _ _ _ _ Hk Rci) as (row & -> & Hrow & <-).
    eauto.
  - destruct (Iri (rb_rating rb)) as (k & Ek & Hk).
    { apply in_order_by_asc, in_select_distinct, List.in_map_iff. eauto. }
    rewrite Ek in Rri. destruct (on_key_found _ _ _ _ Hk Rri) as (row & -> & Hrow & <-).
    eauto.
  - destruct (Iai (Some (availability_status (rb_availability rb)))) as (k & Ek & Hk).
    { apply in_select_distinct, List.in_map_iff. eauto. }
    rewrite Ek in Rai. destruct (on_key_found _ _ _ _ Hk Rai) as (row & -> & Hrow & <-).
    injection Ek as Ek. eauto.
  - destruct (Ipt (rb_product_type rb)) as (k & Ek & Hk).
    { apply in_select_distinct, List.in_map_iff. eauto. }
    rewrite Ek in Rpt. destruct (on_key_found _ _ _ _ Hk Rpt) as (row & -> & Hrow & <-).
    eauto.
  - unfold resolved, on_books_details in Rbd. split.
    + intros ->. destruct (rb_upc rb) as [u|] eqn:Hu; [|reflexivity]. exfalso.
      destruct (Forall2_In_left _ _ _ Hpairs rb Hrb) as (own & Hown & Et & Eu).
      assert (Hin : In own (rows tbd)).
      { rewrite Hrows. apply List.in_or_app. now right. }
      specialize (Rbd own Hin). rewrite Et, Eu, Hu in Rbd.
      destruct (rb_title rb) as [ti|]; [|congruence].
      unfold sql_eq in Rbd.
      destruct (str_eq_dec ti ti); [|congruence].
      destruct (str_eq_dec u u); [discriminate|congruence].
    + intros Hu. destruct bd as [row|]; [|reflexivity].
      destruct Rbd as [_ Hon]. rewrite Hu in Hon.
      unfold sql_eq in Hon. rewrite Bool.andb_false_r in Hon. discriminate.
  - intros row ->. unfold resolved, on_books_details, sql_eq in Rbd.
    destruct Rbd as [Hrow Hon]. split; [exact Hrow|].
    apply Bool.andb_true_iff in Hon as [Ht Hu].
    destruct (rb_title rb), (bd_title row), (rb_upc rb), (bd_upc row);
      try discriminate.
    destruct (str_eq_dec s s0), (str_eq_dec s1 s2); try discriminate.
    split; congruence.
Qed.

End FactKeys.

(** X10. After a build that returns, every fact row it inserted refers to
    existing rows: its [category_id], [rating_id], [availability_id] and
    [product_type_id] are never null and are ids of rows of their
    dimensions that carry the staging row's natural key; its
    [books_details_id] is null exactly when the staging row has no upc,
    and otherwise is the id of a row of [books_details] with the same
    title and upc. *)
Theorem fact_foreign_keys `{Postgres} (db db' : Db) (l : list LogRecord) :
  build_data_warehouse db = (Returns db', l) ->
  exists new,
    rows (books_fact db') = rows (books_fact db) ++ new
    /\ forall f, In f new ->
       exists rb, In rb (rows (raw_books db))
         /\ (exists row, In row (rows (category_info db'))
                         /\ bf_category_id f = Some (fst row)
                         /\ rb_category rb = Some (snd row))
         /\ (exists row, In row (rows (rating_info db'))
                         /\ bf_rating_id f = Some (fst row)
                         /\ rb_rating rb = Some (snd row))
         /\ (exists row, In row (rows (availability_info db'))
                         /\ bf_availability_id f = Some (fst row)
                         /\ availability_status (rb_availability rb) = snd row)
         /\ (exists row, In row (rows (product_type_table db'))
                         /\ bf_product_type_id f = Some (fst row)
                         /\ rb_product_type rb = Some (snd row))
         /\ (bf_books_details_id f = None <-> rb_upc rb = None)
         /\ (forall i, bf_books_details_id f = Some i ->
             exists row, In row (rows (books_details db'))
                         /\ bd_id row = i
                         /\ bd_title row = rb_title rb
                         /\ bd_upc row = rb_upc rb).
Proof.
  unfold build_data_warehouse.
  destruct (populate_dimensions db) as [db1|] eqn:Hp; [|discriminate].
  intros [= <- _].
  destruct (populate_dimensions_inv db db1 Hp) as (pt & bd & ci & ri & ai & E & _).
  assert (Hrb : raw_books db1 = raw_books db) by (rewrite E; reflexivity).
  assert (Hbf : books_fact db1 = books_fact db) by (rewrite E; reflexivity).
  destruct (insert_facts_rows (fact_join db1 (rows (raw_books db))) (books_fact db))
    as (new & Hrows & Hall).
  exists new. unfold populate_facts.
  cbn [books_fact category_info rating_info availability_info product_type_table
       books_details].
  rewrite Hrb, Hbf. split; [exact Hrows|].
  intros f Hf.
  destruct (Forall2_In_right _ _ _ Hall f Hf) as (j & Hj & id & ->).
  destruct j as [[[[[rb jbd] jci] jri] jai] jpt].
  pose proof (proj1 (in_fact_join _ _ _ _ _ _ _ _) Hj) as (Hin & _).
  destruct (joined_keys db db1 rb jbd jci jri jai jpt Hp Hj)
    as ((rci & -> & Hci & Eci) & (rri & -> & Hri & Eri) & (rai & -> & Hai & Eai)
        & (rpt & -> & Hpt & Ept) & Hnull & Hbd).
  exists rb. simpl. split; [exact Hin|].
  split; [eauto|]. split; [eauto|]. split; [eauto|]. split; [eauto|]. split.
  - rewrite <- Hnull. destruct jbd; simpl; split; congruence.
  - intros i Hi. destruct jbd as [row|]; [|discriminate].
    injection Hi as <-. destruct (Hbd row eq_refl) as (Hrow & Et & Eu).
    exists row. auto.
Qed.

(** The two fact rows built from the two sample records have their five
    foreign keys. *)
Lemma fact_foreign_keys_witness :
  exists new,
    rows (books_fact Samples.built) = rows (books_fact Samples.loaded) ++ new
    /\ forall f, In f new ->
       exists rb, In rb (rows (raw_books Samples.loaded))
         /\ (exists row, In row (rows (category_info Samples.built))
                         /\ bf_category_id f = Some (fst row)
                         /\ rb_category rb = Some (snd row))
         /\ (exists row, In row (rows (rating_info Samples.built))
                         /\ bf_rating_id f = Some (fst row)
                         /\ rb_rating rb = Some (snd row))
         /\ (exists row, In row (rows (availability_info Samples.built))
                         /\ bf_availability_id f = Some (fst row)
                         /\ availability_status (rb_availability rb) = snd row)
         /\ (exists row, In row (rows (product_type_table Samples.built))
                         /\ bf_product_type_id f = Some (fst row)
                         /\ rb_product_type rb = Some (snd row))
         /\ (bf_books_details_id f = None <-> rb_upc rb = None)
         /\ (forall i, bf_books_details_id f = Some i ->
             exists row, In row (rows (books_details Samples.built))
                         /\ bd_id row = i
                         /\ bd_title row = rb_title rb
                         /\ bd_upc row = rb_upc rb).
Proof.
  apply (@fact_foreign_keys ReferenceStore.postgres Samples.loaded Samples.built
           (logged (build_data_warehouse Samples.loaded))).
  vm_compute. reflexivity.
Defined.

(** ** The availability dimension *)

(** X11. A build adds to [availability_info] no status other than
    "In Stock" and "Out of Stock": on a table that held only these, with
    its unique constraint, the table holds only these afterwards, in two
    rows at most. *)
Theorem availability_two_labels `{Postgres} (db db' : Db) :
  NoDup (List.map snd (rows (availability_info db))) ->
  (forall k, In k (List.map snd (rows (availability_info db))) ->
             In k [lit "In Stock"; lit "Out of Stock"]) ->
  populate_dimensions db = Some db' ->
  (forall k, In k (List.map snd (rows (availability_info db'))) ->
             In k [lit "In Stock"; lit "Out of Stock"])
  /\ (List.length (rows (availability_info db')) <= 2)%nat.
Proof.
  intros Hnd Hold Hp.
  destruct (populate_dimensions_inv db db' Hp)
    as (pt & bd & ci & ri & ai & -> & _ & _ & _ & _ & Hai).
  cbn [availability_info].
  apply insert_inv in Hai as ((new & Hrows & Hnew) & _ & Hnd').
  assert (Hk : forall k, In k (List.map snd (rows ai)) ->
                         In k [lit "In Stock"; lit "Out of Stock"]).
  { intros k Hin. rewrite Hrows, List.map_app in Hin.
    apply List.in_app_or in Hin as [Hin|Hin]; [now apply Hold|].
    apply List.in_map_iff in Hin as (row & <- & Hrow).
    apply Hnew, in_select_distinct, List.in_map_iff in Hrow as (rb & E & _).
    injection E as <-. unfold availability_status.
    destruct (rb_availability rb) as [[|]|]; simpl; tauto. }
  split; [exact Hk|].
  rewrite <- (List.length_map snd).
  apply (List.NoDup_incl_length (Hnd' Hnd) Hk).
Qed.

(** The two sample records are both in stock: one row. *)
Lemma availability_two_labels_witness :
  List.map snd (rows (availability_info Samples.dimensions_built)) = [lit "In Stock"]
  /\ (forall k, In k (List.map snd (rows (availability_info Samples.dimensions_built))) ->
                In k [lit "In Stock"; lit "Out of Stock"])
  /\ (List.length (rows (availability_info Samples.dimensions_built)) <= 2)%nat.
Proof.
  split; [vm_compute; reflexivity|].
  apply (@availability_two_labels ReferenceStore.postgres Samples.loaded).
  - vm_compute. constructor.
  - vm_compute. tauto.
  - vm_compute. reflexivity.
Defined.

(** ** From [transform_data] to the warehouse *)

Lemma nullable_null {X Y} (f : X -> option Y) (v : option X) (c : option Y) :
  nullable f v = Some c -> (c = None <-> v = None).
Proof.
  unfold nullable. destruct v as [a|].
  - destruct (f a); [|discriminate]. intros [= <-]. split; discriminate.
  - intros [= <-]. tauto.
Qed.

Section LoadThenBuild.
Context `{Postgres}.

Lemma raw_books_values_keys (id : Z) (row : Book) (v : RawBooksRow) :
  raw_books_values id row = Some v ->
  rb_title v <> None
  /\ rb_rating v = Some (rating row)
  /\ rb_availability v = Some (availability row)
  /\ (rb_category v = None <-> category row = None)
  /\ (rb_product_type v = None <-> product_type row = None).
Proof.
  unfold raw_books_values. intros Hv.
  destruct (title row) as [t0|]; [|discriminate].
  destruct (character (Some 255%nat) t0) as [t|]; [|discriminate].
  destruct (numeric_10_2 (price row)) as [p|]; [|discriminate].
  unfold int4 in Hv at 1.
  destruct ((-2147483648 <=? rating row) && (rating row <=? 2147483647));
    [|discriminate].
  destruct (nullable (character (Some 100%nat)) (category row)) as [c|] eqn:Ec;
    [|discriminate].
  destruct (nullable (character None) (book_url row)); [|discriminate].
  destruct (nullable (character None) (book_thumbnail_url row)); [|discriminate].
  destruct (nullable (character None) (product_description row)); [|discriminate].
  destruct (nullable (character (Some 50%nat)) (upc row)); [|discriminate].
  destruct (nullable (character (Some 50%nat)) (product_type row)) as [pt|] eqn:Ept;
    [|discriminate].
  destruct (numeric_10_2 (price_excl_tax row)); [|discriminate].
  destruct (numeric_10_2 (price_incl_tax row)); [|discriminate].
  destruct (numeric_10_2 (tax row)); [|discriminate].
  destruct (int4 (available_quantity row)); [|discriminate].
  destruct (int4 (no_of_reviews row)); [|discriminate].
  injection Hv as <-. simpl.
  split; [discriminate|]. split; [reflexivity|]. split; [reflexivity|].
  split; [exact (nullable_null _ _ _ Ec)|exact (nullable_null _ _ _ Ept)].
Qed.

Lemma insert_raw_books_keys (df : list Book) :
  (forall row, In row df -> category row <> None /\ product_type row <> None) ->
  forall t t' : Table RawBooksRow,
    insert_raw_books t df = Some t' ->
    (forall rb, In rb (rows t) -> keys_not_null rb) ->
    forall rb, In rb (rows t') -> keys_not_null rb.
Proof.
  induction df as [|row df IH]; intros Hdf t t'; simpl.
  - intros [= <-]. auto.
  - destruct (raw_books_values (nextval t) row) as [v|] eqn:Hv; [|discriminate].
    intros Hins Hold. apply (IH (fun r Hr => Hdf r (or_intror Hr)) _ _ Hins).
    cbn [rows]. intros rb Hrb. apply List.in_app_or in Hrb as [Hrb|[<-|[]]];
      [now apply Hold|].
    apply raw_books_values_keys in Hv as (Ht & Hr & _ & Hc & Hp).
    destruct (Hdf row (or_introl eq_refl)) as [Hcat Hpt].
    unfold keys_not_null. rewrite Hr, Hc, Hp.
    repeat split; [exact Ht|exact Hpt|exact Hcat|discriminate].
Qed.

End LoadThenBuild.


(** X12. A frame [transform_data] returns and [load_to_postgres] accepts
    never makes the build fail: if no earlier staging row has a null title,
    product type, category or rating, the staging rows after the load have
    none either and [build_data_warehouse] returns. *)
Theorem load_then_build `{Builtins} `{Postgres}
    (books : list RawBook) (df : list Book) (l l1 : list LogRecord) (db db1 : Db) :
  (forall rb, In rb (rows (raw_books db)) -> keys_not_null rb) ->
  transform_data books = (Returns df, l) ->
  load_to_postgres db df = (Returns db1, l1) ->
  (forall rb, In rb (rows (raw_books db1)) -> keys_not_null rb)
  /\ exists db2 l2, build_data_warehouse db1 = (Returns db2, l2).
Proof.
  intros Hold Ht Hl.
  apply transform_data_inv in Ht as [_ ->].
  unfold load_to_postgres in Hl.
  destruct (insert_raw_books (raw_books db) (reconciled books)) as [t|] eqn:Hins;
    [|discriminate].
  injection Hl as <- _. cbn [raw_books].
  assert (Hk : forall rb, In rb (rows t) -> keys_not_null rb).
  { apply (insert_raw_books_keys (reconciled books)) with (t := raw_books db);
      [|exact Hins|exact Hold].
    intros row Hrow.
    destruct (Forall2_In_right _ _ _ (reconciled_columns books) row Hrow)
      as (raw & _ & _ & _ & _ & Hc & Hp & _).
    rewrite Hc, Hp. unfold fillna_str.
    destruct (category raw), (product_type raw); split; discriminate. }
  split; [exact Hk|].
  apply build_data_warehouse_returns. exact Hk.
Qed.

(** The two sample records are loaded into the empty database and the
    build returns. *)
Lemma load_then_build_witness :
  (forall rb, In rb (rows (raw_books Samples.loaded)) -> keys_not_null rb)
  /\ exists db2 l2, build_data_warehouse Samples.loaded = (Returns db2, l2).
Proof.
  apply (@load_then_build Reference.builtins ReferenceStore.postgres
           Samples.two_books
           (@reconciled Reference.builtins Samples.two_books)
           (logged (@transform_data Reference.builtins Samples.two_books))
           (logged (load_to_postgres ReferenceStore.empty_db
                      (@reconciled Reference.builtins Samples.two_books)))
           ReferenceStore.empty_db Samples.loaded).
  - simpl. intros rb [].
  - vm_compute. reflexivity.
  - vm_compute. reflexivity.
Defined.

(** ** Columns [transform_data] leaves alone *)

(** X13. [transform_data] never changes the title, the upc, the two urls,
    the description and the number of reviews of a record. *)
Theorem untouched_columns `{Builtins}
    (books : list RawBook) (df : list Book) (l : list LogRecord) :
  transform_data books = (Returns df, l) ->
  Forall2
    (fun raw r =>
       title r = title raw /\ upc r = upc raw
       /\ book_url r = book_url raw
       /\ book_thumbnail_url r = book_thumbnail_url raw
       /\ product_description r = product_description raw
       /\ no_of_reviews r = no_of_reviews raw)
    (dropna_title (drop_duplicates books)) df.
Proof.
  intros Ht. apply transform_data_inv in Ht as [_ ->].
  unfold reconciled, frame_at_checks, frame_at_imputation.
  rewrite (dropna_title_map convert_row) by reflexivity.
  rewrite impute_all_rows. rewrite !List.map_map.
  apply Forall2_map_right. intros raw _.
  unfold repair_price_row, repair_tax_row.
  repeat match goal with
         | |- context [if ?b then _ else _] => destruct b
         end; repeat split.
Qed.

(** The sample record keeps its title and its upc. *)
Lemma untouched_columns_witness :
  Forall2
    (fun raw r =>
       title r = title raw /\ upc r = upc raw
       /\ book_url r = book_url raw
       /\ book_thumbnail_url r = book_thumbnail_url raw
       /\ product_description r = product_description raw
       /\ no_of_reviews r = no_of_reviews raw)
    (dropna_title (drop_duplicates Samples.inconsistent_tax))
    (@reconciled Reference.builtins Samples.inconsistent_tax).
Proof.
  apply (@untouched_columns Reference.builtins Samples.inconsistent_tax _
           (logged (@transform_data Reference.builtins Samples.inconsistent_tax))).
  vm_compute. reflexivity.
Defined.

(** ** Records extracted more than once *)

Lemma drop_duplicates_from_seen (df seen : list RawBook) :
  (forall r, In r df -> In r seen) -> drop_duplicates_from seen df = [].
Proof.
  induction df as [|a df IH]; simpl; intros Hs; [reflexivity|].
  rewrite (proj2 (existsb_raw_eqb a seen)) by (apply Hs; now left).
  apply IH. intros r Hr. apply Hs. now right.
Qed.

Lemma drop_duplicates_from_app (df extra : list RawBook) :
  forall seen,
    (forall r, In r extra -> In r seen \/ In r df) ->
    drop_duplicates_from seen (df ++ extra) = drop_duplicates_from seen df.
Proof.
  induction df as [|a df IH]; intros seen He; simpl.
  - apply drop_duplicates_from_seen. intros r Hr.
    destruct (He r Hr) as [Hs|[]]. exact Hs.
  - destruct (List.existsb (raw_eqb a) seen) eqn:Ha.
    + apply IH. intros r Hr. destruct (He r Hr) as [Hs|[<-|Hd]]; auto.
      left. now apply existsb_raw_eqb.
    + f_equal. apply IH. intros r Hr.
      destruct (He r Hr) as [Hs|[<-|Hd]]; simpl; auto.
Qed.

(** X14. Records that are in the list already change nothing when they
    are extracted again: [transform_data] returns the same frame and logs
    the same records. *)
Theorem transform_data_repeated `{Builtins} (books extra : list RawBook) :
  books <> [] ->
  (forall r, In r extra -> In r books) ->
  transform_data (books ++ extra) = transform_data books.
Proof.
  intros Hne He.
  assert (Hd : drop_duplicates (books ++ extra) = drop_duplicates books).
  { unfold drop_duplicates. apply drop_duplicates_from_app. auto. }
  destruct books as [|b books]; [congruence|].
  unfold transform_data. simpl app. cbv zeta.
  change (b :: books ++ extra) with ((b :: books) ++ extra).
  now rewrite Hd.
Qed.

(** The sample record extracted twice gives what it gives once. *)
Lemma transform_data_repeated_witness :
  @transform_data Reference.builtins
    (Samples.inconsistent_tax ++ Samples.inconsistent_tax)
  = @transform_data Reference.builtins Samples.inconsistent_tax.
Proof.
  apply (@transform_data_repeated Reference.builtins).
  - discriminate.
  - auto.
Defined.

(** ** Primary keys *)

Section Ids.
Context {R : Type} (id : R -> Z).

Lemma ids_fresh_skip (t : Table R) :
  ids_fresh id t -> ids_fresh id (mkTable (rows t) (nextval t + 1)).
Proof.
  intros [Hnd Hlt]. split; [exact Hnd|].
  cbn [rows nextval]. intros row Hrow. specialize (Hlt row Hrow). lia.
Qed.

Lemma ids_fresh_append (t : Table R) (row : R) :
  ids_fresh id t -> id row = nextval t ->
  ids_fresh id (mkTable (rows t ++ [row]) (nextval t + 1)).
Proof.
  intros [Hnd Hlt] Hid. split; cbn [rows nextval].
  - rewrite List.map_app. simpl.
    apply List.NoDup_app; [exact Hnd|repeat constructor; tauto|].
    intros i Hi [<-|[]]. apply List.in_map_iff in Hi as (row' & E & Hrow').
    specialize (Hlt row' Hrow'). lia.
  - intros row' Hrow'. apply List.in_app_or in Hrow' as [Hrow'|[<-|[]]].
    + specialize (Hlt row' Hrow'). lia.
    + lia.
Qed.

End Ids.

Section IdsOfTheStore.
Context `{Postgres}.

Lemma insert_on_conflict_ids {K} (dec : forall a b : K, {a = b} + {a <> b})
    (values : list (option K)) :
  forall t t' : Dim K,
    insert_on_conflict_do_nothing dec t values = Some t' ->
    ids_fresh fst t -> ids_fresh fst t'.
Proof.
  induction values as [|v values IH]; intros t t'; simpl.
  - now intros [= <-].
  - destruct v as [k|]; [|discriminate].
    destruct (has_key dec t k); intros Hins Hf; apply (IH _ _ Hins).
    + now apply ids_fresh_skip.
    + now apply ids_fresh_append.
Qed.

Lemma insert_books_details_ids (rbs : list RawBooksRow) :
  forall t t' : Table BooksDetailsRow,
    insert_books_details t rbs = Some t' ->
    ids_fresh bd_id t -> ids_fresh bd_id t'.
Proof.
  induction rbs as [|rb rbs IH]; intros t t'; simpl.
  - now intros [= <-].
  - destruct (rb_title rb); [|discriminate].
    intros Hins Hf. apply (IH _ _ Hins). now apply ids_fresh_append.
Qed.

Lemma insert_facts_ids (js : list Joined) :
  forall t : Table BooksFactRow,
    ids_fresh bf_id t -> ids_fresh bf_id (insert_facts t js).
Proof.
  induction js as [|j js IH]; intros t Hf; simpl; [exact Hf|].
  apply IH. apply ids_fresh_append; [exact Hf|].
  destruct j as [[[[[rb bd] ci] ri] ai] pt]. reflexivity.
Qed.

Lemma insert_raw_books_ids (df : list Book) :
  forall t t' : Table RawBooksRow,
    insert_raw_books t df = Some t' ->
    ids_fresh rb_id t -> ids_fresh rb_id t'.
Proof.
  induction df as [|row df IH]; intros t t'; simpl.
  - now intros [= <-].
  - destruct (raw_books_values (nextval t) row) as [v|] eqn:Hv; [|discriminate].
    intros Hins Hf. apply (IH _ _ Hins). apply ids_fresh_append; [exact Hf|].
    now apply raw_books_values_title in Hv.
Qed.

End IdsOfTheStore.

(** X15. The ids stay primary keys: in a database whose tables have
    distinct ids below the next values of their sequences, the tables have
    so again after a load and after a build that return. *)
Theorem ids_stay_fresh `{Postgres} (db : Db) :
  ids_fresh rb_id (raw_books db) ->
  ids_fresh fst (product_type_table db) ->
  ids_fresh bd_id (books_details db) ->
  ids_fresh fst (category_info db) ->
  ids_fresh fst (rating_info db) ->
  ids_fresh fst (availability_info db) ->
  ids_fresh bf_id (books_fact db) ->
  forall (db' : Db) (l : list LogRecord),
    (exists df, load_to_postgres db df = (Returns db', l))
    \/ build_data_warehouse db = (Returns db', l) ->
    ids_fresh rb_id (raw_books db')
    /\ ids_fresh fst (product_type_table db')
    /\ ids_fresh bd_id (books_details db')
    /\ ids_fresh fst (category_info db')
    /\ ids_fresh fst (rating_info db')
    /\ ids_fresh fst (availability_info db')
    /\ ids_fresh bf_id (books_fact db').
Proof.
  intros Frb Fpt Fbd Fci Fri Fai Fbf db' l [(df & Hl)|Hb].
  - unfold load_to_postgres in Hl.
    destruct (insert_raw_books (raw_books db) df) as [t|] eqn:Hins; [|discriminate].
    injection Hl as <- _.
    cbn [raw_books product_type_table books_details category_info rating_info
         availability_info books_fact].
    split; [now apply (insert_raw_books_ids df _ _ Hins)|].
    repeat (split; [assumption|]). assumption.
  - unfold build_data_warehouse in Hb.
    destruct (populate_dimensions db) as [db1|] eqn:Hp; [|discriminate].
    injection Hb as <- _.
    destruct (populate_dimensions_inv db db1 Hp)
      as (pt & bd & ci & ri & ai & -> & Hpt & Hbd & Hci & Hri & Hai).
    unfold populate_facts.
    cbn [raw_books product_type_table books_details category_info rating_info
         availability_info books_fact].
    split; [exact Frb|].
    split; [now apply (insert_on_conflict_ids _ _ _ _ Hpt)|].
    split; [now apply (insert_books_details_ids _ _ _ Hbd)|].
    split; [now apply (insert_on_conflict_ids _ _ _ _ Hci)|].
    split; [now apply (insert_on_conflict_ids _ _ _ _ Hri)|].
    split; [now apply (insert_on_conflict_ids _ _ _ _ Hai)|].
    now apply insert_facts_ids.
Qed.

(** The empty database has fresh ids, and so has it after the load of the
    two sample records. *)
Lemma ids_stay_fresh_witness :
  ids_fresh rb_id (raw_books Samples.loaded)
  /\ ids_fresh fst (product_type_table Samples.loaded)
  /\ ids_fresh bd_id (books_details Samples.loaded)
  /\ ids_fresh fst (category_info Samples.loaded)
  /\ ids_fresh fst (rating_info Samples.loaded)
  /\ ids_fresh fst (availability_info Samples.loaded)
  /\ ids_fresh bf_id (books_fact Samples.loaded).
Proof.
  apply (@ids_stay_fresh ReferenceStore.postgres ReferenceStore.empty_db)
    with (l := logged (load_to_postgres ReferenceStore.empty_db
                         (@reconciled Reference.builtins Samples.two_books)));
    try (split; [constructor|intros row []]).
  left. exists (@reconciled Reference.builtins Samples.two_books).
  vm_compute. reflexivity.
Defined.

(** ** [main] as a whole *)



